(** * MDSuite: the batched transformation engine

    A shallow embedding of [mdsuite/transformations/transformations.py]
    (class [Transformations]) and of the configuration generator of
    [mdsuite/file_io/lammps_flux_files.py], together with the properties
    of the written specification that concern them.

    Python values are modelled as follows.
    - [int] is [Z]; lengths and positions of sequences are [nat].
    - [str] and [bytes] are both [string]: a character of a [str] is a code
      point below 256, a character of a [bytes] is a byte.
    - a [dict] whose iteration order is observed is an association list in
      insertion order ([Py.dict]); the HDF5 store is a [gmap] from dataset
      paths to datasets.
    - a numpy array is its shape together with its indexing function.
    - a method of [Transformations] is a function in the monad [M]: it
      takes the mutable state (attributes of [self], the store, the
      environment and the trace of observable calls) and returns an outcome
      ([Ok] or [Raise]) with the state reached; a raised exception keeps
      the side effects that happened before it. *)

From Stdlib Require Import ZArith List String Ascii Lia.
From Stdlib Require Import Floats.PrimFloat.
From stdpp Require Import base option list gmap strings.

Local Open Scope Z_scope.

(** ** Python builtins used by the code *)

Module Py.

Definition str := string.
Definition bytes := string.

Inductive exn : Type :=
| KeyError (msg : str)
| IndexError
| TypeError (msg : str)
| OSError
| ZeroDivisionError
| AllocationError
| NotFoundError
| AttributeError (msg : str)
| ValueError (msg : str).

Inductive result (A : Type) : Type :=
| Ok (a : A)
| Raise (e : exn).
Arguments Ok {A} a.
Arguments Raise {A} e.

Definition rbind {A B} (r : result A) (k : A -> result B) : result B :=
  match r with
  | Ok a => k a
  | Raise e => Raise e
  end.

(** [divmod(a, b)] on integers: floor division, the remainder has the sign
    of the divisor (as [Z.div] and [Z.modulo]); a zero divisor raises. *)
Definition divmod (a b : Z) : result (Z * Z) :=
  if Z.eqb b 0 then Raise ZeroDivisionError else Ok (a / b, a mod b).

(** [range(n)] *)
Definition range (n : Z) : list Z := map Z.of_nat (seq 0 (Z.to_nat n)).

(** [enumerate(l)] *)
Definition enumerate {A} (l : list A) : list (Z * A) :=
  combine (map Z.of_nat (seq 0 (length l))) l.

(** [s.split(sep)] for a separator of one character. *)
Fixpoint split (sep : ascii) (s : str) : list str :=
  match s with
  | EmptyString => [EmptyString]
  | String c s' =>
      if Ascii.eqb c sep then EmptyString :: split sep s'
      else match split sep s' with
           | h :: t => String c h :: t
           | [] => [String c EmptyString]
           end
  end.

(** [s.lstrip(c)], [s.rstrip(c)] and [s.strip(c)] for a set of one
    character. *)
Fixpoint lstrip (c : ascii) (s : str) : str :=
  match s with
  | EmptyString => EmptyString
  | String a s' => if Ascii.eqb a c then lstrip c s' else s
  end.

Fixpoint rstrip (c : ascii) (s : str) : str :=
  match s with
  | EmptyString => EmptyString
  | String a s' =>
      match rstrip c s' with
      | EmptyString => if Ascii.eqb a c then EmptyString else String a EmptyString
      | r => String a r
      end
  end.

Definition strip (c : ascii) (s : str) : str := rstrip c (lstrip c s).

(** [l[-1]] and [l[-2]] *)
Definition index_m1 {A} (l : list A) : result A :=
  match rev l with
  | x :: _ => Ok x
  | [] => Raise IndexError
  end.

Definition index_m2 {A} (l : list A) : result A :=
  match rev l with
  | _ :: x :: _ => Ok x
  | _ => Raise IndexError
  end.

(** [l[0]] and [l[1]] *)
Definition index_0 {A} (l : list A) : result A :=
  match l with
  | x :: _ => Ok x
  | [] => Raise IndexError
  end.

Definition index_1 {A} (l : list A) : result A :=
  match l with
  | _ :: x :: _ => Ok x
  | _ => Raise IndexError
  end.

(** [s.startswith(c)], [s.endswith(c)] for one character. *)
Definition startswith (c : ascii) (s : str) : bool :=
  match s with
  | String a _ => Ascii.eqb a c
  | EmptyString => false
  end.

Fixpoint endswith (c : ascii) (s : str) : bool :=
  match s with
  | EmptyString => false
  | String a EmptyString => Ascii.eqb a c
  | String _ s' => endswith c s'
  end.

(** [os.path.join(a, b)] of [posixpath]. *)
Definition os_path_join (a b : str) : str :=
  if startswith "/" b then b
  else if (String.eqb a EmptyString || endswith "/" a)%bool then String.append a b
  else String.append a (String "/" b).

(** [str.encode(s)]: UTF-8; a code point below 128 is one byte, a code
    point from 128 to 255 is two bytes. *)
Definition encode_char (c : ascii) : bytes :=
  let n := N_of_ascii c in
  if (n <? 128)%N then String c EmptyString
  else String (ascii_of_N (192 + N.shiftr n 6))
         (String (ascii_of_N (128 + N.land n 63)) EmptyString).

Fixpoint encode (s : str) : bytes :=
  match s with
  | EmptyString => EmptyString
  | String c s' => String.append (encode_char c) (encode s')
  end.

(** [str(b)] of a [bytes] object is its [repr]: [b'...'], with double
    quotes when the bytes hold a single quote and no double quote, the
    quote character and the backslash escaped, tab, newline and carriage
    return as [\t], [\n], [\r] and every other byte outside the printable
    ASCII range as [\xhh]. *)
Fixpoint contains (c : ascii) (s : string) : bool :=
  match s with
  | EmptyString => false
  | String a s' => (Ascii.eqb a c || contains c s')%bool
  end.

Definition dquote : ascii := ascii_of_N 34.

Definition hexdigit (n : N) : ascii :=
  if (n <? 10)%N then ascii_of_N (48 + n) else ascii_of_N (87 + n).

Definition repr_byte (quote : ascii) (c : ascii) : str :=
  let n := N_of_ascii c in
  if (Ascii.eqb c quote || Ascii.eqb c "\")%bool then String "\" (String c EmptyString)
  else if (n =? 9)%N then String "\" (String "t" EmptyString)
  else if (n =? 10)%N then String "\" (String "n" EmptyString)
  else if (n =? 13)%N then String "\" (String "r" EmptyString)
  else if ((n <? 32) || (127 <=? n))%N%bool then
    String "\" (String "x" (String (hexdigit (N.shiftr n 4))
                              (String (hexdigit (N.land n 15)) EmptyString)))
  else String c EmptyString.

Fixpoint repr_body (quote : ascii) (b : bytes) : str :=
  match b with
  | EmptyString => EmptyString
  | String c b' => String.append (repr_byte quote c) (repr_body quote b')
  end.

Definition bytes_quote (b : bytes) : ascii :=
  if (contains "'" b && negb (contains dquote b))%bool then dquote else "'"%char.

Definition str_of_bytes (b : bytes) : str :=
  let quote := bytes_quote b in
  String "b" (String quote (String.append (repr_body quote b) (String quote EmptyString))).

(** A [dict] in insertion order: [d[k] = v] keeps the position of an
    existing key and appends a new one. *)
Definition dict (K V : Type) := list (K * V).

Fixpoint dict_set {V} (d : dict str V) (k : str) (v : V) : dict str V :=
  match d with
  | [] => [(k, v)]
  | (k', v') :: d' =>
      if String.eqb k' k then (k', v) :: d' else (k', v') :: dict_set d' k v
  end.

Fixpoint dict_get {V} (d : dict str V) (k : str) : option V :=
  match d with
  | [] => None
  | (k', v') :: d' => if String.eqb k' k then Some v' else dict_get d' k
  end.

Definition keys {K V} (d : dict K V) : list K := map fst d.

End Py.

Export Py.

(** ** numpy arrays *)

Module Np.

(** An array is its shape and its indexing function; [len(np.shape(a))]
    is the rank. Values are 64-bit floats. *)
Record ndarray : Type := { shape : list nat; item : list nat -> float }.

Definition ndim (a : ndarray) : nat := length (shape a).

Definition zeros (sh : list nat) : ndarray :=
  {| shape := sh; item := fun _ => 0%float |}.

(** [a[np.newaxis, :, :]] *)
Definition newaxis (a : ndarray) : ndarray :=
  {| shape := 1%nat :: shape a; item := fun idx => item a (tl idx) |}.

Definition swap01 {A} (l : list A) : list A :=
  match l with
  | x :: y :: r => y :: x :: r
  | _ => l
  end.

(** [np.swapaxes(a, 0, 1)] *)
Definition swapaxes01 (a : ndarray) : ndarray :=
  {| shape := swap01 (shape a); item := fun idx => item a (swap01 idx) |}.

End Np.

Export Np.

(** ** The simulation database

    [mdsuite.database.simulation_database] and [mdsuite.utils.meta_functions]
    are not part of the sources at hand; what the transformations use of
    them is modelled from the written specification. *)

Module SimulationDatabase.

Record PropertyInfo : Type := { name : str; n_dims : Z }.

Record SpeciesInfo : Type :=
  { species_name : str; n_particles : Z; properties : list PropertyInfo }.

(** Modelled from the spec: [join_path] of [mdsuite.utils.meta_functions]
    is missing; a dataset path is the string key ["<species>/<property>"]. *)
Definition join_path (a b : str) : str := String.append a (String "/" b).

(** Modelled from the spec: the class [TrajectoryChunkData] is missing. It
    is a buffer for [chunk_size] configurations that holds, for every
    (species, property) pair of [species_list], an array shaped
    [[n_particles, chunk_size, n_dims]]; it is mutated by [add_data], which
    inserts a property's values at a time offset within the chunk. The
    buffer is represented by the blocks inserted into it, in the order of
    insertion; a block is handed over with the time axis first, as the call
    in [_save_output] has it. *)
Record block : Type :=
  { blk_species : str; blk_property : str; blk_config_idx : Z; blk_data : ndarray }.

Record TrajectoryChunkData : Type :=
  { chunk_size : Z; species_list : list SpeciesInfo; blocks : list block }.

Definition new_chunk (size : Z) (sl : list SpeciesInfo) : TrajectoryChunkData :=
  {| chunk_size := size; species_list := sl; blocks := [] |}.

(** The array of a (species, property) pair of the chunk: the number of
    particles and of dimensions it is shaped with. *)
Definition chunk_array (chunk : TrajectoryChunkData) (sp prop : str) : option (Z * Z) :=
  match List.find (fun info => String.eqb (species_name info) sp) (species_list chunk) with
  | None => None
  | Some info =>
      match List.find (fun p => String.eqb (name p) prop) (properties info) with
      | None => None
      | Some p => Some (n_particles info, n_dims p)
      end
  end.

(** Data handed to [add_data] fit when they are of rank 3, with the
    particles and the dimensions of the array they go to, and lie within
    the chunk. *)
Definition fits (chunk : TrajectoryChunkData) (data : ndarray) (config_idx : Z)
    (array : Z * Z) : bool :=
  match shape data with
  | [n; p; d] =>
      ((Z.of_nat p =? fst array) && (Z.of_nat d =? snd array) &&
       (0 <=? config_idx) && (config_idx + Z.of_nat n <=? chunk_size chunk))%bool
  | _ => false
  end.

(** [chunk.add_data(data, config_idx, species_name, property_name)]: data
    that do not fit the array of the pair are rejected. The spec names no
    exception for that; [KeyError] stands for a pair that the chunk does not
    have and [ValueError] for a shape that does not fit. *)
Definition chunk_add_data (chunk : TrajectoryChunkData) (data : ndarray)
    (config_idx : Z) (sp prop : str) : result TrajectoryChunkData :=
  match chunk_array chunk sp prop with
  | None => Raise (KeyError prop)
  | Some array =>
      if fits chunk data config_idx array then
        Ok {| chunk_size := chunk_size chunk;
              species_list := species_list chunk;
              blocks := blocks chunk ++
                        [{| blk_species := sp; blk_property := prop;
                            blk_config_idx := config_idx; blk_data := data |}] |}
      else Raise (ValueError "could not broadcast input array")
  end.

(** Modelled from the spec: the class [Database] is missing. The store
    holds one dataset per path, of shape
    [(n_particles, n_configurations, n_dims)], zero-initialised and growable
    along the configuration axis only. A dataset is its shape and the
    blocks written into it, each with the configuration index at which it
    starts, oldest first. *)
Record dataset : Type :=
  { ds_shape : Z * Z * Z; ds_written : list (Z * ndarray) }.

Definition Database : Type := gmap string dataset.

Definition shape3 : Type := (Z * Z * Z)%type.

(** [check_existence(path)]: true iff a dataset exists at that path. *)
Definition check_existence (db : Database) (path : str) : bool :=
  bool_decide (is_Some (db !! path)).

(** [add_dataset({path: shape})]: creates new zero-initialised datasets;
    fails with [AllocationError] if a path already exists. *)
Fixpoint add_dataset (db : Database) (structure : dict str shape3) : result Database :=
  match structure with
  | [] => Ok db
  | (path, sh) :: rest =>
      if check_existence db path then Raise AllocationError
      else add_dataset (<[path := {| ds_shape := sh; ds_written := [] |}]> db) rest
  end.

(** [resize_dataset({path: (n_particles, additional, n_dims)})]: grows the
    configuration axis of an existing dataset by the given amount and
    preserves its contents; fails with [NotFoundError] if the path is
    absent. The particle count and the dimension are fixed at creation, and
    only the configuration axis may grow: an amount below 0 is rejected (the
    spec names no exception for that; [ValueError] stands for it). *)
Definition grow (ds : dataset) (additional : Z) : result dataset :=
  let '(p, c, d) := ds_shape ds in
  if additional <? 0 then Raise (ValueError "a dataset may only grow")
  else Ok {| ds_shape := (p, c + additional, d); ds_written := ds_written ds |}.

Fixpoint resize_dataset (db : Database) (structure : dict str shape3) : result Database :=
  match structure with
  | [] => Ok db
  | (path, (_, additional, _)) :: rest =>
      match db !! path with
      | None => Raise NotFoundError
      | Some ds =>
          match grow ds additional with
          | Raise e => Raise e
          | Ok ds' => resize_dataset (<[path := ds']> db) rest
          end
      end
  end.

(** [get_data_size(path)]: the current on-disk shape. *)
Definition get_data_size (db : Database) (path : str) : result shape3 :=
  match db !! path with
  | None => Raise NotFoundError
  | Some ds => Ok (ds_shape ds)
  end.

(** [add_data(chunk, start_idx)]: writes the chunk's arrays into the store
    starting at configuration index [start_idx]. The spec names no failure
    of a write other than the transient one of the environment; a block
    whose path has no dataset leaves the store as it is. *)
Definition write_block (start_idx : Z) (db : Database) (b : block) : Database :=
  let path := join_path (blk_species b) (blk_property b) in
  match db !! path with
  | None => db
  | Some ds =>
      <[path := {| ds_shape := ds_shape ds;
                   ds_written := ds_written ds ++
                                 [(start_idx + blk_config_idx b, blk_data b)] |}]> db
  end.

Definition add_data (db : Database) (chunk : TrajectoryChunkData) (start_idx : Z) : Database :=
  fold_left (write_block start_idx) (blocks chunk) db.

End SimulationDatabase.

Export SimulationDatabase.

(** ** The LAMMPS flux file reader: [get_configurations_generator] *)

Module LAMMPSFluxFile.

(** An open text file: its lines and the number of lines consumed. *)
Record file : Type := { lines : list str; position : nat }.

Definition open (content : list str) : file :=
  {| lines := content; position := 0 |}.

(** Modelled from the spec: [skip_n_lines] of
    [mdsuite.file_io.tabular_text_files] is missing; it consumes [n] lines. *)
Definition skip_n_lines (f : file) (n : nat) : file :=
  {| lines := lines f; position := (position f + n)%nat |}.

(** The chunk a reader hands to the store: the number of configurations
    asked for, the line of the file at which it starts and the lines read. *)
Record chunk : Type :=
  { n_configurations : Z; first_line : nat; rows : list str }.

(** Modelled from the spec: [read_process_n_configurations] of
    [mdsuite.file_io.tabular_text_files] is missing; with one line per
    configuration and no header it decodes the next [n] lines of the file
    into one chunk of [n] configurations. *)
Definition read_process_n_configurations (f : file) (n : Z) : chunk * file :=
  ({| n_configurations := n;
      first_line := position f;
      rows := take (Z.to_nat n) (drop (position f) (lines f)) |},
   {| lines := lines f; position := (position f + Z.to_nat n)%nat |}).

(** The attributes of the reader that the generator uses. *)
Record LAMMPSFluxFile : Type :=
  { file_content : list str;
    n_header_lines : nat;
    _batch_size : Z;
    metadata_n_configurations : Z }.

(** [for _ in range(n_batches): yield read_process_n_configurations(...)] *)
Fixpoint read_batches (n_batches : nat) (batch_size : Z) (f : file) : list chunk * file :=
  match n_batches with
  | O => ([], f)
  | S k =>
      let '(c, f') := read_process_n_configurations f batch_size in
      let '(cs, f'') := read_batches k batch_size f' in
      (c :: cs, f'')
  end.

(** The generator as the list of the chunks it yields. *)
Definition get_configurations_generator (self : LAMMPSFluxFile) : result (list chunk) :=
  rbind (divmod (metadata_n_configurations self) (_batch_size self))
    (fun '(n_batches, n_configs_remainder) =>
       let file0 := skip_n_lines (open (file_content self)) (n_header_lines self) in
       let '(full, file1) :=
         read_batches (length (range n_batches)) (_batch_size self) file0 in
       if 0 <? n_configs_remainder then
         Ok (full ++ [fst (read_process_n_configurations file1 n_configs_remainder)])
       else Ok full).

(** The configuration index at which a chunk starts. *)
Definition first_configuration (self : LAMMPSFluxFile) (c : chunk) : Z :=
  Z.of_nat (first_line c) - Z.of_nat (n_header_lines self).

End LAMMPSFluxFile.

(** ** The class [Transformations] *)

Module Transformations.

(** *** State, trace and monad *)

(** [data_structure] of [_save_output]: the value stored under a path. *)
Inductive index_spec : Type :=
| SliceAll                       (* np.s_[:] *)
| IndexList (l : list Z).

Record data_spec : Type :=
  { indices : option index_spec; columns : list Z; length_ : option Z }.

(** [tf.TensorSpec(shape=...)]: [None] is a free dimension. *)
Record TensorSpec : Type := { spec_shape : list (option nat) }.

(** The arguments with which [_prepare_monitors] builds its managers. The
    store is handed over when a manager is asked; the scale function is
    fixed with the transformation. *)
Record MemoryManager : Type :=
  { mm_data_path : list bytes;
    mm_memory_fraction : float;
    mm_offset : Z }.

Record DataManager : Type :=
  { dm_data_path : list bytes;
    dm_batch_size : Z;
    dm_n_batches : Z;
    dm_remainder : Z;
    dm_offset : Z }.

(** Observable calls, oldest first. [Add_data] records one attempt to
    write and the exception it raised, if any. [Resolve_dependencies] and
    [Perform_transformation] record the entry into the resolver and the
    transformation handed to the experiment. *)
Inductive event : Type :=
| Log_info (msg : str)
| Add_dataset (structure : dict str shape3)
| Resize_dataset (structure : dict str shape3)
| Add_data (chunk : TrajectoryChunkData) (start_idx : Z) (raised : option exn)
| Sleep (seconds : float)
| Resolve_dependencies (dependency : str)
| Perform_transformation (transformation : str).

(** The mutable state: the store, the attributes of [self] that the
    methods assign ([batch_size], [n_batches] and [remainder] are assigned
    by [_prepare_monitors] before they are read; [offset] is 0 after
    [__init__]), the outcomes the environment holds for the coming
    attempts to write ([None]: the write succeeds; an empty list: all
    further writes succeed) and the trace. *)
Record state : Type :=
  { database : Database;
    offset : Z;
    batch_size : Z;
    n_batches : Z;
    remainder : Z;
    data_manager : option DataManager;
    pending : list (option exn);
    trace : list event }.

Definition M (A : Type) : Type := state -> result A * state.

Definition ret {A} (a : A) : M A := fun s => (Ok a, s).
Definition raise {A} (e : exn) : M A := fun s => (Raise e, s).
Definition bind {A B} (m : M A) (k : A -> M B) : M B :=
  fun s => match m s with
           | (Ok a, s') => k a s'
           | (Raise e, s') => (Raise e, s')
           end.
Definition lift {A} (r : result A) : M A := fun s => (r, s).
Definition gets {A} (f : state -> A) : M A := fun s => (Ok (f s), s).
Definition modify (f : state -> state) : M unit := fun s => (Ok tt, f s).

(** [try: m except OSError: handler] *)
Definition try_except_OSError {A} (m handler : M A) : M A :=
  fun s => match m s with
           | (Raise OSError, s') => handler s'
           | r => r
           end.

Declare Scope M_scope.
Delimit Scope M_scope with M.
Notation "x <- m ;; k" := (bind m (fun x => k))
  (at level 100, m at next level, right associativity) : M_scope.
Notation "m ;; k" := (bind m (fun _ => k))
  (at level 100, right associativity) : M_scope.
Local Open Scope M_scope.

Definition set_database (db : Database) (s : state) : state :=
  {| database := db; offset := offset s; batch_size := batch_size s;
     n_batches := n_batches s; remainder := remainder s;
     data_manager := data_manager s; pending := pending s; trace := trace s |}.

Definition set_offset (o : Z) (s : state) : state :=
  {| database := database s; offset := o; batch_size := batch_size s;
     n_batches := n_batches s; remainder := remainder s;
     data_manager := data_manager s; pending := pending s; trace := trace s |}.

Definition set_batching (t : Z * Z * Z) (dm : DataManager) (s : state) : state :=
  let '(bs, nb, r) := t in
  {| database := database s; offset := offset s; batch_size := bs;
     n_batches := nb; remainder := r;
     data_manager := Some dm; pending := pending s; trace := trace s |}.

Definition set_pending (p : list (option exn)) (s : state) : state :=
  {| database := database s; offset := offset s; batch_size := batch_size s;
     n_batches := n_batches s; remainder := remainder s;
     data_manager := data_manager s; pending := p; trace := trace s |}.

Definition emit (e : event) : M unit :=
  modify (fun s =>
    {| database := database s; offset := offset s; batch_size := batch_size s;
       n_batches := n_batches s; remainder := remainder s;
       data_manager := data_manager s; pending := pending s;
       trace := trace s ++ [e] |}).

(** *** The store seen from the transformation *)

Definition db_check_existence (path : str) : M bool :=
  gets (fun s => check_existence (database s) path).

Definition db_get_data_size (path : str) : M shape3 :=
  db <- gets database ;; lift (get_data_size db path).

Definition db_add_dataset (structure : dict str shape3) : M unit :=
  emit (Add_dataset structure) ;;
  db <- gets database ;;
  db' <- lift (add_dataset db structure) ;;
  modify (set_database db').

Definition db_resize_dataset (structure : dict str shape3) : M unit :=
  emit (Resize_dataset structure) ;;
  db <- gets database ;;
  db' <- lift (resize_dataset db structure) ;;
  modify (set_database db').

(** One attempt to write: the environment decides whether it fails. *)
Definition db_add_data (chunk : TrajectoryChunkData) (start_idx : Z) : M unit :=
  p <- gets pending ;;
  match p with
  | Some e :: rest =>
      modify (set_pending rest) ;;
      emit (Add_data chunk start_idx (Some e)) ;;
      raise e
  | _ =>
      modify (set_pending (tl p)) ;;
      emit (Add_data chunk start_idx None) ;;
      db <- gets database ;;
      modify (set_database (add_data db chunk start_idx))
  end.

(** [time.sleep(seconds)] *)
Definition time_sleep (seconds : float) : M unit := emit (Sleep seconds).

(** *** The collaborators of a transformation *)

(** Modelled from the spec: the class [Experiment] is missing. The
    transformation reads its species and its number of configurations and
    hands the resolved transformation to [perform_transformation], which
    runs it against the same store: it may change the store and it may
    raise. *)
Record Experiment : Type :=
  { species : dict str SpeciesInfo;
    number_of_configurations : Z;
    perform_transformation : str -> Database -> result unit * Database }.

Definition experiment_perform_transformation (e : Experiment) (t : str) : M unit :=
  fun s =>
    let '(r, db') := perform_transformation e t (database s) in
    (r, set_database db' s).

(** A transformation: what [__init__] and the subclass fix. The classes
    [MemoryManager] and [DataManager] are missing; the transformation
    takes from them the batching triple of [get_batch_size] and the
    batches of [batch_generator], each read from the store when it is
    pulled. *)
Record Transformations : Type :=
  { experiment : Experiment;
    input_properties : list PropertyInfo;
    output_property : PropertyInfo;
    dependency : str;
    transform_batch : dict str ndarray -> ndarray;
    get_batch_size : MemoryManager -> Database -> result (Z * Z * Z);
    batch_generator : DataManager -> list (Database -> dict bytes ndarray) }.

Definition switcher_transformations : gmap string str :=
  list_to_map
    [ ("Translational_Dipole_Moment", "TranslationalDipoleMoment");
      ("Ionic_Current", "IonicCurrent");
      ("Integrated_Heat_Current", "IntegratedHeatCurrent");
      ("Thermal_Flux", "ThermalFlux");
      ("Momentum_Flux", "MomentumFlux");
      ("Kinaci_Heat_Current", "KinaciIntegratedHeatCurrent") ]%string.

(** *** Methods *)

(** The failure that the specification calls [UnresolvedDependencyError]:
    the [KeyError] that [_string_to_function] raises. *)
Definition UnresolvedDependencyError : exn :=
  KeyError "Data not in database and can not be generated.".

Definition _run_dataset_check (path : str) : M bool :=
  db_check_existence path.

Definition _unwrap_choice : M str :=
  indices <- db_check_existence "Box_Images" ;;
  if indices then ret "UnwrapViaIndices"%string
  else ret "UnwrapCoordinates"%string.

(** [{**a, **b}]: the entries of [b] win. *)
Definition dict_merge (a b : gmap string str) : gmap string str := b ∪ a.

Definition _string_to_function (argument : str) : M str :=
  choice <- _unwrap_choice ;;
  let switcher_unwrapping : gmap string str := {[ "Unwrapped_Positions"%string := choice ]} in
  let switcher := dict_merge switcher_unwrapping switcher_transformations in
  match switcher !! argument with
  | Some t => ret t
  | None => raise (KeyError "Data not in database and can not be generated.")
  end.

Definition _resolve_dependencies (self : Transformations) (dep : str) : M unit :=
  emit (Resolve_dependencies dep) ;;
  transformation <- _string_to_function dep ;;
  emit (Perform_transformation transformation) ;;
  experiment_perform_transformation (experiment self) transformation.

Definition _run_dependency_check (self : Transformations) : M unit :=
  let path_list :=
    map (fun sp => join_path sp (dependency self)) (keys (species (experiment self))) in
  db <- gets database ;;
  let truth_array := map (check_existence db) path_list in
  if forallb (fun b => b) truth_array then ret tt
  else _resolve_dependencies self (dependency self).

(** [_save_output], up to the write: the chunk built from the result of
    [transform_batch]. *)
Definition number_of_particles (val : data_spec) : result Z :=
  match length_ val with
  | Some n => Ok n
  | None =>
      match indices val with
      | Some (IndexList l) => Ok (Z.of_nat (length l))
      | _ => Raise (TypeError "Could not determine number of particles")
      end
  end.

Definition expand_particle_axis (data : ndarray) : ndarray :=
  if Nat.eqb (length (shape data)) 2 then newaxis data else data.

Definition build_chunk (data : ndarray) (data_structure : dict str data_spec)
    : result TrajectoryChunkData :=
  rbind (index_0 data_structure) (fun '(key, val) =>
  let path := split "/" key in
  rbind (index_m1 path) (fun prop_name =>
  rbind (index_m2 path) (fun sp_name =>
  rbind (number_of_particles val) (fun n_particles =>
  let data := expand_particle_axis data in
  let prop := {| name := prop_name; n_dims := Z.of_nat (length (columns val)) |} in
  let species_list :=
    [ {| species_name := sp_name; n_particles := n_particles; properties := [prop] |} ] in
  rbind (index_1 (shape data)) (fun size =>
  let chunk := new_chunk (Z.of_nat size) species_list in
  chunk_add_data chunk (swapaxes01 data) 0 sp_name prop_name))))).

Definition _save_output (data : ndarray) (index : Z)
    (data_structure : dict str data_spec) : M unit :=
  chunk <- lift (build_chunk data data_structure) ;;
  try_except_OSError
    (o <- gets offset ;; db_add_data chunk (index + o))
    (time_sleep 0.5 ;;
     o <- gets offset ;; db_add_data chunk (index + o)).

Definition _prepare_monitors (self : Transformations) (data_path : list bytes) : M unit :=
  o <- gets offset ;;
  db <- gets database ;;
  t <- lift (get_batch_size self
               {| mm_data_path := data_path; mm_memory_fraction := 0.5; mm_offset := o |}
               db) ;;
  let '(bs, nb, r) := t in
  modify (set_batching t
            {| dm_data_path := data_path; dm_batch_size := bs; dm_n_batches := nb;
               dm_remainder := r; dm_offset := o |}).

Definition _prepare_database_entry (self : Transformations) (sp : str)
    : M (dict str data_spec) :=
  let path := join_path sp (name (output_property self)) in
  info <- match dict_get (species (experiment self)) sp with
          | Some i => ret i
          | None => raise (KeyError sp)
          end ;;
  let n_particles := n_particles info in
  let n_dims := n_dims (output_property self) in
  existing <- _run_dataset_check path ;;
  (if existing : bool then
     old_shape <- db_get_data_size path ;;
     let resize_structure :=
       [(path, (n_particles,
                number_of_configurations (experiment self) - fst (fst old_shape),
                n_dims))] in
     modify (set_offset (fst (fst old_shape))) ;;
     db_resize_dataset resize_structure
   else
     let number_of_configurations := number_of_configurations (experiment self) in
     let dataset_structure := [(path, (n_particles, number_of_configurations, n_dims))] in
     db_add_dataset dataset_structure) ;;
  ret [(path, {| indices := Some SliceAll;
                 columns := range n_dims;
                 length_ := Some n_particles |})].

(** The signature of the batches of one species and the check that
    [tf.data.Dataset.from_generator] makes of every element it delivers:
    the keys of the signature, each with an array that fits its
    [TensorSpec]. *)
Definition type_spec (self : Transformations) (sp : str) : dict bytes TensorSpec :=
  fold_left
    (fun d prop =>
       dict_set d (encode (join_path sp (name prop)))
         {| spec_shape := [None; None; Some (Z.to_nat (n_dims prop))] |})
    (input_properties self) [].

Definition compatible (spec : TensorSpec) (a : ndarray) : bool :=
  (Nat.eqb (length (spec_shape spec)) (length (shape a)) &&
   forallb (fun '(o, n) => match o with None => true | Some m => Nat.eqb m n end)
     (combine (spec_shape spec) (shape a)))%bool.

Fixpoint deliver_keys (signature : dict bytes TensorSpec) (element : dict bytes ndarray)
    : result (dict bytes ndarray) :=
  match signature with
  | [] => Ok []
  | (k, spec) :: rest =>
      match dict_get element k with
      | Some a =>
          if compatible spec a then
            rbind (deliver_keys rest element) (fun d => Ok ((k, a) :: d))
          else Raise (TypeError "generator yielded an element that did not match the expected structure")
      | None => Raise (TypeError "generator yielded an element that did not match the expected structure")
      end
  end.

Definition deliver (signature : dict bytes TensorSpec) (element : dict bytes ndarray)
    : result (dict bytes ndarray) :=
  if Nat.eqb (length element) (length signature) then deliver_keys signature element
  else Raise (TypeError "generator yielded an element that did not match the expected structure").

(** [str(key).split("/")[-1].strip("'")]; [split] never returns an empty
    list. *)
Definition strip_species (key : bytes) : str :=
  strip "'" (List.last (split "/" (str_of_bytes key)) EmptyString).

Definition batch_dict_wo_species (batch_dict : dict bytes ndarray) : dict str ndarray :=
  fold_left (fun d '(key, val) => dict_set d (strip_species key) val) batch_dict [].

(** The batch loop of one species. *)
Fixpoint batch_loop (self : Transformations) (signature : dict bytes TensorSpec)
    (output_data_structure : dict str data_spec)
    (data_set : list (Z * (Database -> dict bytes ndarray))) : M unit :=
  match data_set with
  | [] => ret tt
  | (index, pull) :: rest =>
      db <- gets database ;;
      batch_dict <- lift (deliver signature (pull db)) ;;
      let transformed_batch := transform_batch self (batch_dict_wo_species batch_dict) in
      bs <- gets batch_size ;;
      _save_output transformed_batch (index * bs) output_data_structure ;;
      batch_loop self signature output_data_structure rest
  end.

Definition skipping_message (self : Transformations) (sp : str) : str :=
  String.append (name (output_property self))
    (String.append " already exists for "
       (String.append sp ", skipping transformation")).

(** The body of the loop over the species. *)
Definition transform_species (self : Transformations) (sp : str) : M unit :=
  existing <- db_check_existence (os_path_join sp (name (output_property self))) ;;
  if existing : bool then emit (Log_info (skipping_message self sp))
  else
    output_data_structure <- _prepare_database_entry self sp ;;
    let signature := type_spec self sp in
    _prepare_monitors self (keys signature) ;;
    dm <- gets data_manager ;;
    match dm with
    | None => raise (AttributeError "data_manager")
    | Some dm =>
        let generator := batch_generator self dm in
        let signature := dict_set signature (encode "data_size") {| spec_shape := [] |} in
        batch_loop self signature output_data_structure (enumerate generator)
    end.

Fixpoint for_each {A} (l : list A) (body : A -> M unit) : M unit :=
  match l with
  | [] => ret tt
  | x :: rest => body x ;; for_each rest body
  end.

Definition run_transformation (self : Transformations) (species_arg : option (list str))
    : M unit :=
  let species_arg :=
    match species_arg with
    | None => keys (species (experiment self))
    | Some l => l
    end in
  for_each species_arg (transform_species self).

End Transformations.

Import LAMMPSFluxFile Transformations.

(** ** A small experiment

    One species, ["Na"], of one particle with its ["Velocity"] recorded; the
    transformation computes ["Momentum"] from it in batches of two
    configurations. *)

Module Demo.

Definition Velocity : PropertyInfo := {| name := "Velocity"; n_dims := 3 |}.
Definition Momentum : PropertyInfo := {| name := "Momentum"; n_dims := 3 |}.

Definition Na : SpeciesInfo :=
  {| species_name := "Na"; n_particles := 1; properties := [Velocity] |}.

Definition experiment5 : Experiment :=
  {| species := [("Na"%string, Na)];
     number_of_configurations := 5;
     perform_transformation := fun _ db => (Ok tt, db) |}.

(** A batch of [n] configurations as a data manager yields it. *)
Definition batch (n : nat) (db : Database) : dict bytes ndarray :=
  [ (encode "Na/Velocity", zeros [1%nat; n; 3%nat]);
    (encode "data_size", zeros []) ].

Definition batches (dm : DataManager) : list (Database -> dict bytes ndarray) :=
  repeat (batch (Z.to_nat (dm_batch_size dm))) (Z.to_nat (dm_n_batches dm)) ++
  (if 0 <? dm_remainder dm then [batch (Z.to_nat (dm_remainder dm))] else []).

Definition momentum : Transformations :=
  {| experiment := experiment5;
     input_properties := [Velocity];
     output_property := Momentum;
     dependency := "Unwrapped_Positions";
     transform_batch := fun b =>
       match dict_get b "Velocity" with
       | Some v => v
       | None => zeros []
       end;
     get_batch_size := fun mm _ => Ok (2, (5 - mm_offset mm) / 2, (5 - mm_offset mm) mod 2);
     batch_generator := batches |}.

Definition empty_state : state :=
  {| database := ∅; offset := 0; batch_size := 0; n_batches := 0; remainder := 0;
     data_manager := None; pending := []; trace := [] |}.

(** A store in which the output of ["Na"] exists with two configurations. *)
Definition partial_store : Database :=
  {[ "Na/Momentum"%string := {| ds_shape := (1, 2, 3); ds_written := [] |} ]}.

Definition partial_state : state := set_database partial_store empty_state.

Definition flux_file : LAMMPSFluxFile :=
  {| file_content := ["# header"; "time temp"; "0 1.0"; "1 1.1"; "2 1.2"; "3 1.3"; "4 1.4"]%string;
     n_header_lines := 2;
     _batch_size := 2;
     metadata_n_configurations := 5 |}.

End Demo.

(** ** Further builtins: [str.split()] and slices *)

Module PyText.

(** [c.isspace()] for a code point below 256. *)
Definition isspace (c : ascii) : bool :=
  let n := N_of_ascii c in
  (((9 <=? n) && (n <=? 13)) || ((28 <=? n) && (n <=? 32)) || (n =? 133) || (n =? 160))%N%bool.

Definition starts_word (s : str) : bool :=
  match s with
  | String c _ => negb (isspace c)
  | EmptyString => false
  end.

(** [s.split()]: the maximal runs of characters that are no whitespace. *)
Fixpoint words (s : str) : list str :=
  match s with
  | EmptyString => []
  | String c s' =>
      if isspace c then words s'
      else if starts_word s' then
        match words s' with
        | w :: ws => String c w :: ws
        | [] => [String c EmptyString]
        end
      else String c EmptyString :: words s'
  end.

(** [l[k:]]: a negative [k] counts from the end. *)
Definition slice_from {A} (l : list A) (k : Z) : list A :=
  if 0 <=? k then drop (Z.to_nat k) l
  else drop (length l - Z.to_nat (- k)) l.

End PyText.

Export PyText.

(** ** [mdsuite/file_io/file_read.py]: the static methods of [FileProcessor] *)

Module FileProcessor.

(** An entry of a list of [database_correspondence_dict]: the name of a
    column, or, once found, the integer position of that column. *)
Inductive column : Type :=
| Name (s : str)
| Index (i : Z).

(** [isinstance(c, int)] *)
Definition is_int (c : column) : bool :=
  match c with
  | Index _ => true
  | Name _ => false
  end.

(** [_get_column_properties(header_line, skip_words)] *)
Definition _get_column_properties (header_line : list str) (skip_words : Z) : dict str Z :=
  let header_line := slice_from header_line skip_words in
  fold_left (fun d '(idx, variable) => dict_set d variable idx) (enumerate header_line) [].

(** The inner loop of [_extract_properties]: the list of one label, updated
    in place at the positions whose name is a key of [column_dict_properties]. *)
Definition replace_names (column_dict_properties : dict str Z) (property_names : list column)
    : list column :=
  fold_left
    (fun (l : list column) '(idx, property_name) =>
       match property_name with
       | Name s =>
           match dict_get column_dict_properties s with
           | Some col => <[Z.to_nat idx := Index col]> l
           | None => l
           end
       | Index _ => l
       end)
    (enumerate property_names) property_names.

(** [_extract_properties(database_correspondence_dict, column_dict_properties)]:
    the dictionary returned and the dictionary of the caller as the call
    leaves it (its lists are updated in place). What is printed is left out. *)
Definition _extract_properties (database_correspondence_dict : dict str (list column))
    (column_dict_properties : dict str Z)
    : dict str (list column) * dict str (list column) :=
  let database_correspondence_dict :=
    fold_left
      (fun d '(property_label, property_names) =>
         dict_set d property_label (replace_names column_dict_properties property_names))
      database_correspondence_dict database_correspondence_dict in
  let trajectory_properties :=
    fold_left
      (fun tp '(property_label, properties_columns) =>
         if forallb is_int properties_columns
         then dict_set tp property_label properties_columns
         else tp)
      database_correspondence_dict [] in
  (trajectory_properties, database_correspondence_dict).

End FileProcessor.

(** ** [LAMMPSFluxFile._get_metadata] *)

Module LAMMPSFluxMetadata.

Import LAMMPSFluxFile.

Record TrajectoryMetadata : Type :=
  { n_configurations : Z; species_list : list SpeciesInfo; box_l : list float }.

(** The reader before its metadata are read. The functions
    [extract_properties_from_header] (with the column names of the reader)
    and [optimize_batch_size] (with the path of the file) are missing and
    taken as they are given. *)
Record Reader : Type :=
  { content : list str;
    header_lines : nat;
    reader_box_l : list float;
    extract_properties_from_header : list str -> dict str (list Z);
    optimize_batch_size : Z -> Z }.

(** Modelled from the spec: [read_n_lines] of
    [mdsuite.file_io.tabular_text_files] is missing; it returns the next [n]
    lines of the file, fewer at the end of the file. *)
Definition read_n_lines (f : file) (n : nat) : list str * file :=
  (take n (drop (position f) (lines f)),
   {| lines := lines f; position := (position f + n)%nat |}).

(** [for line in file: if len(line.split()) != n_columns: break; n_steps += 1] *)
Fixpoint count_steps (n_columns : nat) (rest : list str) (n_steps : Z) : Z :=
  match rest with
  | [] => n_steps
  | line :: rest' =>
      if negb (Nat.eqb (length (words line)) n_columns) then n_steps
      else count_steps n_columns rest' (n_steps + 1)
  end.

(** [_get_metadata]: the metadata returned, with the attributes
    [_properties_dict] and [_batch_size] that the call sets. *)
Definition _get_metadata (self : Reader)
    : result (TrajectoryMetadata * dict str (list Z) * Z) :=
  let file0 := skip_n_lines (open (content self)) (header_lines self) in
  let '(first, file1) := read_n_lines file0 1 in
  rbind (index_0 first) (fun first_data_line =>
  let n_columns := length (words first_data_line) in
  let n_steps := count_steps n_columns (drop (position file1) (lines file1)) 1 in
  let '(headers, _) := read_n_lines (open (content self)) (header_lines self) in
  rbind (index_m1 headers) (fun column_header =>
  let _properties_dict := extract_properties_from_header self (words column_header) in
  let properties_list :=
    map (fun '(prop_name, prop_idxs) =>
           {| name := prop_name; n_dims := Z.of_nat (length prop_idxs) |})
      _properties_dict in
  let species_list :=
    [ {| species_name := "Observables"; n_particles := 1; properties := properties_list |} ] in
  let mdata :=
    {| n_configurations := n_steps; species_list := species_list;
       box_l := reader_box_l self |} in
  let _batch_size := optimize_batch_size self n_steps in
  Ok (mdata, _properties_dict, _batch_size))).

(** The reader as the generator finds it after [_get_metadata]. *)
Definition with_metadata (self : Reader) (mdata : TrajectoryMetadata) (batch_size : Z)
    : LAMMPSFluxFile :=
  {| file_content := content self;
     n_header_lines := header_lines self;
     _batch_size := batch_size;
     metadata_n_configurations := n_configurations mdata |}.

End LAMMPSFluxMetadata.

(** ** Further methods of [Transformations] *)

Module TypeSpecs.

Import Transformations.

(** [_update_type_dict(dictionary, path_list, dimension)]: the dictionary,
    updated in place and returned. *)
Definition _update_type_dict (dictionary : dict bytes TensorSpec) (path_list : list str)
    (dimension : Z) : dict bytes TensorSpec :=
  fold_left
    (fun d item =>
       dict_set d (encode item) {| spec_shape := [None; None; Some (Z.to_nat dimension)] |})
    path_list dictionary.

(** [_update_species_type_dict(dictionary, path_list, dimension)]: the
    outcome and the dictionary as the call leaves it. *)
Fixpoint _update_species_type_dict (self : Transformations)
    (dictionary : dict bytes TensorSpec) (path_list : list str) (dimension : Z)
    : result unit * dict bytes TensorSpec :=
  match path_list with
  | [] => (Ok tt, dictionary)
  | item :: rest =>
      match index_0 (split "/" item) with
      | Raise e => (Raise e, dictionary)
      | Ok sp =>
          match dict_get (species (experiment self)) sp with
          | None => (Raise (KeyError sp), dictionary)
          | Some info =>
              let n_atoms := n_particles info in
              _update_species_type_dict self
                (dict_set dictionary (encode item)
                   {| spec_shape := [Some (Z.to_nat n_atoms); None;
                                     Some (Z.to_nat dimension)] |})
                rest dimension
          end
      end
  end.

(** [_remainder_to_binary] *)
Definition _remainder_to_binary : M Z :=
  bind (gets remainder) (fun r => ret (if 0 <? r then 1 else 0)).

End TypeSpecs.

(** * Notions used in the statements *)

(** The chunk of [b] configurations that a reader at [f] finds [i] chunks
    further on. *)
Definition chunk_at (b : Z) (f : file) (i : nat) : chunk :=
  {| n_configurations := b;
     first_line := (position f + i * Z.to_nat b)%nat;
     rows := take (Z.to_nat b) (drop (position f + i * Z.to_nat b) (lines f)) |}.

(** The state [s] with further events in its trace. *)
Definition add_events (evs : list event) (s : state) : state :=
  {| database := database s; offset := offset s; batch_size := batch_size s;
     n_batches := n_batches s; remainder := remainder s;
     data_manager := data_manager s; pending := pending s;
     trace := trace s ++ evs |}.

(** The unwrapping that [_unwrap_choice] picks for a store. *)
Definition unwrap_transformation (db : Database) : str :=
  if check_existence db "Box_Images" then "UnwrapViaIndices"%string
  else "UnwrapCoordinates"%string.

(** The dependencies for which the resolver was entered, oldest first. *)
Definition resolver_calls (t : list event) : list str :=
  omap (fun e => match e with Resolve_dependencies d => Some d | _ => None end) t.

(** [all(truth_array)] of [_run_dependency_check]. *)
Definition dependency_fulfilled (self : Transformations) (db : Database) : bool :=
  forallb (fun sp => check_existence db (join_path sp (dependency self)))
    (keys (species (experiment self))).

(** The write of a chunk at [start_idx], as it changes the store. *)
Definition written (chunk : TrajectoryChunkData) (start_idx : Z) (s : state) : state :=
  set_database (add_data (database s) chunk start_idx) s.

(** The [data_structure] that [_prepare_database_entry] returns for the
    output of ["Na"] in the small experiment, and the chunk built with it. *)
Definition Na_Momentum_structure : dict str data_spec :=
  [("Na/Momentum"%string,
    {| indices := Some SliceAll; columns := [0; 1; 2]; length_ := Some 1 |})].

Definition Na_Momentum_chunk (data : ndarray) (size : Z) : TrajectoryChunkData :=
  {| chunk_size := size;
     species_list := [ {| species_name := "Na"; n_particles := 1;
                          properties := [ {| name := "Momentum"; n_dims := 3 |} ] |} ];
     blocks := [ {| blk_species := "Na"; blk_property := "Momentum";
                    blk_config_idx := 0; blk_data := swapaxes01 data |} ] |}.

(** A chunk of one species with one property and one block. *)
Definition single_chunk (sp prop : str) (np nd size : Z) (data : ndarray)
    : TrajectoryChunkData :=
  {| chunk_size := size;
     species_list := [ {| species_name := sp; n_particles := np;
                          properties := [ {| name := prop; n_dims := nd |} ] |} ];
     blocks := [ {| blk_species := sp; blk_property := prop;
                    blk_config_idx := 0; blk_data := data |} ] |}.

(** The attempts to write that a trace holds. *)
Definition attempts (t : list event) : list event :=
  List.filter (fun e => match e with Add_data _ _ _ => true | _ => false end) t.

(** The configuration indices at which a trace wrote a chunk. *)
Definition successful_writes (t : list event) : list Z :=
  omap (fun e => match e with Add_data _ i None => Some i | _ => None end) t.

(** [enumerate(l, start=j)] *)
Definition enumerate_from {A} (j : nat) (l : list A) : list (Z * A) :=
  combine (map Z.of_nat (seq j (length l))) l.








(** The test with which [run_transformation] skips a species, and the
    message it logs. *)
Definition output_exists (self : Transformations) (db : Database) (sp : str) : bool :=
  check_existence db (os_path_join sp (name (output_property self))).

Definition skip_log (self : Transformations) (sp : str) : event :=
  Log_info (skipping_message self sp).

(** The calls that change the store. *)
Definition store_events (t : list event) : list event :=
  List.filter (fun e => match e with
                        | Add_dataset _ | Resize_dataset _ | Add_data _ _ _ => true
                        | _ => false
                        end) t.

(** The statement of the specification: for a species whose output dataset
    exists with length [L] and an experiment of [N > L] configurations, a
    rerun sets [offset = L], resizes the configuration axis by exactly
    [N - L] and writes only configuration indices from [L] to [N]. *)
Definition rerun_extends (self : Transformations) (sp : str) (s : state) : Prop :=
  forall (ds : dataset) (p L d : Z),
    database s !! join_path sp (name (output_property self)) = Some ds ->
    ds_shape ds = (p, L, d) ->
    L < number_of_configurations (experiment self) ->
    offset (snd (run_transformation self (Some [sp]) s)) = L /\
    (exists np,
       In (Resize_dataset
             [(join_path sp (name (output_property self)),
               (np, number_of_configurations (experiment self) - L, d))])
          (trace (snd (run_transformation self (Some [sp]) s)))) /\
    Forall (fun i => L <= i < number_of_configurations (experiment self))
      (successful_writes (trace (snd (run_transformation self (Some [sp]) s)))).

(** The signature with which the batches of a species are delivered. *)
Definition batch_signature (self : Transformations) (sp : str) : dict bytes TensorSpec :=
  dict_set (type_spec self sp) (encode "data_size") {| spec_shape := [] |}.

(** The statement of the specification: the transformation sees only
    property names as keys. *)
Definition sees_only_property_names (self : Transformations)
    (batch_dict : dict bytes ndarray) : Prop :=
  Forall (fun k => In k (map name (input_properties self)))
    (keys (batch_dict_wo_species batch_dict)).

(** Names on which [str.encode] and the [repr] of [bytes] are the identity
    and which hold no quote: printable ASCII characters other than the
    single quote and the backslash. A property name holds no slash either. *)
Definition plain_char (c : ascii) : bool :=
  let n := N_of_ascii c in
  ((32 <=? n) && (n <? 127) && negb (n =? 39) && negb (n =? 92))%N%bool.

Fixpoint all_chars (P : ascii -> bool) (s : str) : bool :=
  match s with
  | EmptyString => true
  | String c s' => (P c && all_chars P s')%bool
  end.

Definition plain (s : str) : bool := all_chars plain_char s.

Definition plain_property (s : str) : bool :=
  all_chars (fun c => plain_char c && negb (Ascii.eqb c "/"))%bool s.

(** The key of an input property in the batches of a species. *)
Definition qualified (sp : str) (prop : PropertyInfo) : bytes :=
  encode (join_path sp (name prop)).

(** Every dataset of [db] is a dataset of [db']. *)
Definition stored_in (db db' : Database) : Prop :=
  forall p : str, check_existence db p = true -> check_existence db' p = true.

(** The events of the dependency resolver in a trace. *)
Definition resolver_events (t : list event) : list event :=
  List.filter (fun e => match e with
                        | Resolve_dependencies _ | Perform_transformation _ => true
                        | _ => false
                        end) t.

(** The names that [_string_to_function] knows. *)
Definition resolvable_names : list str :=
  [ "Unwrapped_Positions"; "Translational_Dipole_Moment"; "Ionic_Current";
    "Integrated_Heat_Current"; "Thermal_Flux"; "Momentum_Flux";
    "Kinaci_Heat_Current" ]%string.

(** The [data_structure] that [_prepare_database_entry] returns. *)
Definition output_data_structure (self : Transformations) (sp : str) (info : SpeciesInfo)
    : dict str data_spec :=
  [(join_path sp (name (output_property self)),
    {| indices := Some SliceAll;
       columns := range (n_dims (output_property self));
       length_ := Some (n_particles info) |})].

(** The shape with which the output of a species is allocated. *)
Definition output_shape (self : Transformations) (info : SpeciesInfo) : shape3 :=
  (n_particles info, number_of_configurations (experiment self),
   n_dims (output_property self)).

(** The small transformation with a memory manager that fails. *)
Definition momentum_without_memory : Transformations :=
  {| experiment := experiment Demo.momentum;
     input_properties := input_properties Demo.momentum;
     output_property := output_property Demo.momentum;
     dependency := dependency Demo.momentum;
     transform_batch := transform_batch Demo.momentum;
     get_batch_size := fun _ _ => Raise (TypeError "no memory");
     batch_generator := batch_generator Demo.momentum |}.

(** What [_extract_properties] makes of one entry of a list: a name that
    is a key of [column_dict_properties] becomes the position of its column. *)
Definition replace_name (column_dict_properties : dict str Z) (c : FileProcessor.column)
    : FileProcessor.column :=
  match c with
  | FileProcessor.Name s =>
      match dict_get column_dict_properties s with
      | Some col => FileProcessor.Index col
      | None => c
      end
  | FileProcessor.Index _ => c
  end.

(** An entry that [_extract_properties] turns into an integer or finds as
    one. *)
Definition known_column (column_dict_properties : dict str Z) (c : FileProcessor.column)
    : bool :=
  match c with
  | FileProcessor.Name s =>
      match dict_get column_dict_properties s with
      | Some _ => true
      | None => false
      end
  | FileProcessor.Index _ => true
  end.

(** The lines of the file after the header. *)
Definition data_lines (self : LAMMPSFluxFile) : list str :=
  drop (n_header_lines self) (file_content self).

(** A chunk that holds as many lines as it has configurations. *)
Definition full_chunk (c : chunk) : Prop :=
  Z.of_nat (length (rows c)) = LAMMPSFluxFile.n_configurations c.

(** The number of columns of a line. *)
Definition n_columns (line : str) : nat := length (words line).

(** A flux file with a block of five lines, a line of a log and a further
    line; its reader finds the time and the temperature and is given batches
    of two configurations. *)
Definition flux_reader : LAMMPSFluxMetadata.Reader :=
  {| LAMMPSFluxMetadata.content :=
       ["# header"; "time temp"; "0 1.0"; "1 1.1"; "2 1.2"; "3 1.3"; "4 1.4";
        "Loop time of 2.5"; "5 1.5"]%string;
     LAMMPSFluxMetadata.header_lines := 2;
     LAMMPSFluxMetadata.reader_box_l := [];
     LAMMPSFluxMetadata.extract_properties_from_header :=
       fun _ => [("Time", [0]); ("Temperature", [1])]%string;
     LAMMPSFluxMetadata.optimize_batch_size := fun _ => 2 |}.

(** The species of a dataset path: what is before its first slash. *)
Definition species_of (item : str) : str := hd EmptyString (split "/" item).

(** The [TensorSpec] that [_update_type_dict] stores, and the one that
    [_update_species_type_dict] stores for a species of [n_atoms] particles. *)
Definition free_spec (dimension : Z) : TensorSpec :=
  {| spec_shape := [None; None; Some (Z.to_nat dimension)] |}.

Definition species_spec (n_atoms dimension : Z) : TensorSpec :=
  {| spec_shape := [Some (Z.to_nat n_atoms); None; Some (Z.to_nat dimension)] |}.

(** * Properties *)

(** ** The flux file generator *)

Lemma read_batches_chunks (k : nat) (b : Z) (f : file) :
  read_batches k b f =
    (map (chunk_at b f) (seq 0 k),
     {| lines := lines f; position := (position f + k * Z.to_nat b)%nat |}).
Proof.
  revert f. induction k as [|k IH]; intros f.
  - simpl. destruct f as [l p]. simpl. do 2 f_equal. lia.
  - cbn [read_batches read_process_n_configurations].
    rewrite IH. cbn [lines position seq].
    rewrite <- seq_shift. cbn [map]. rewrite map_map.
    f_equal.
    + f_equal.
      * unfold chunk_at. f_equal; [lia | do 2 f_equal; lia].
      * apply map_ext. intros i. unfold chunk_at. cbn [lines position].
        f_equal; [lia | do 2 f_equal; lia].
    + f_equal. lia.
Qed.

Lemma chunk_at_sizes (b : Z) (f : file) (l : list nat) :
  map n_configurations (map (chunk_at b f) l) = repeat b (length l).
Proof. induction l as [|x l IH]; [reflexivity|]. cbn. by rewrite IH. Qed.

Lemma sum_repeat (b : Z) (k : nat) :
  fold_right Z.add 0 (repeat b k) = Z.of_nat k * b.
Proof. induction k as [|k IH]; [reflexivity|]. cbn [repeat fold_right]. lia. Qed.

Lemma sum_app (l1 l2 : list Z) :
  fold_right Z.add 0 (l1 ++ l2) = fold_right Z.add 0 l1 + fold_right Z.add 0 l2.
Proof. induction l1 as [|x l1 IH]; cbn [app fold_right]; lia. Qed.

Lemma length_range (n : Z) : length (range n) = Z.to_nat n.
Proof. unfold range. by rewrite length_map, length_seq. Qed.

(** C5. For [n_configurations >= 1] and a batch size [b >= 1] the generator
    yields [n / b] chunks of [b] configurations, chunk [i] starting at
    configuration [i * b] and holding the lines of these configurations,
    followed by one chunk of [n mod b] configurations exactly when that
    remainder is positive; the chunk lengths sum to [n]. *)
Theorem flux_generator_chunks (self : LAMMPSFluxFile) :
  1 <= metadata_n_configurations self ->
  1 <= _batch_size self ->
  exists chunks,
    get_configurations_generator self = Ok chunks /\
    map n_configurations chunks =
      repeat (_batch_size self)
        (Z.to_nat (metadata_n_configurations self / _batch_size self)) ++
      (if 0 <? metadata_n_configurations self mod _batch_size self
       then [metadata_n_configurations self mod _batch_size self] else []) /\
    (forall (i : nat) (c : chunk), chunks !! i = Some c ->
       first_configuration self c = Z.of_nat i * _batch_size self /\
       rows c = take (Z.to_nat (n_configurations c))
                  (drop (n_header_lines self + i * Z.to_nat (_batch_size self))
                     (file_content self))) /\
    fold_right Z.add 0 (map n_configurations chunks) = metadata_n_configurations self.
Proof.
  intros Hn Hb.
  set (n := metadata_n_configurations self) in *.
  set (b := _batch_size self) in *.
  assert (Hq : 0 <= n / b) by (apply Z.div_pos; lia).
  assert (Hr : 0 <= n mod b < b) by (apply Z.mod_pos_bound; lia).
  assert (Hdm : n = b * (n / b) + n mod b) by (apply Z.div_mod; lia).
  unfold get_configurations_generator, divmod. fold n b.
  destruct (Z.eqb_spec b 0) as [?|_]; [lia|]. cbn [rbind].
  set (f0 := skip_n_lines (open (file_content self)) (n_header_lines self)).
  rewrite read_batches_chunks, length_range.
  set (full := map (chunk_at b f0) (seq 0 (Z.to_nat (n / b)))).
  assert (Hlen : length full = Z.to_nat (n / b))
    by (unfold full; by rewrite length_map, length_seq).
  assert (Hfull : forall (i : nat) (c : chunk), full !! i = Some c ->
             first_configuration self c = Z.of_nat i * b /\
             rows c = take (Z.to_nat (n_configurations c))
                        (drop (n_header_lines self + i * Z.to_nat b) (file_content self))).
  { intros i c Hi. unfold full in Hi. rewrite list_lookup_fmap in Hi.
    destruct (seq 0 (Z.to_nat (n / b)) !! i) as [j|] eqn:Hj; [|discriminate].
    apply lookup_seq in Hj as [-> _]. injection Hi as <-.
    unfold first_configuration, chunk_at. cbn. split; [lia|reflexivity]. }
  assert (Hsizes : map n_configurations full = repeat b (Z.to_nat (n / b))).
  { unfold full. by rewrite chunk_at_sizes, length_seq. }
  destruct (Z.ltb_spec 0 (n mod b)) as [Hpos|Hzero].
  - match goal with |- context [full ++ [?c]] => set (final := c) end.
    exists (full ++ [final]). split; [reflexivity|]. split; [|split].
    + rewrite map_app, Hsizes. reflexivity.
    + intros i c Hi. apply lookup_app_Some in Hi as [Hi|[Hge Hi]]; [by apply Hfull|].
      rewrite Hlen in Hge, Hi.
      destruct (i - Z.to_nat (n / b))%nat as [|m] eqn:Hm; [|by destruct m].
      injection Hi as <-. unfold first_configuration. cbn.
      assert (i = Z.to_nat (n / b)) as -> by lia.
      split; [nia|]. do 2 f_equal.
    + rewrite map_app, Hsizes, sum_app, sum_repeat. cbn. nia.
  - exists full. split; [reflexivity|]. split; [|split].
    + by rewrite Hsizes, app_nil_r.
    + exact Hfull.
    + rewrite Hsizes, sum_repeat. nia.
Qed.

Lemma flux_generator_chunks_witness :
  exists chunks,
    get_configurations_generator Demo.flux_file = Ok chunks /\
    map n_configurations chunks = [2; 2; 1].
Proof.
  destruct (flux_generator_chunks Demo.flux_file) as (chunks & Hgen & Hsizes & _);
    [vm_compute; discriminate | vm_compute; discriminate |].
  exists chunks. split; [exact Hgen | exact Hsizes].
Defined.

(** ** The dependency resolver *)

Lemma string_to_function_unwrapped (s : state) :
  _string_to_function "Unwrapped_Positions" s =
    (Ok (unwrap_transformation (database s)), s).
Proof.
  unfold _string_to_function, _unwrap_choice, db_check_existence, bind, gets,
    unwrap_transformation.
  destruct (check_existence (database s) "Box_Images"); reflexivity.
Qed.

Lemma string_to_function_table (argument : str) (s : state) :
  argument <> "Unwrapped_Positions"%string ->
  _string_to_function argument s =
    (match switcher_transformations !! argument with
     | Some t => Ok t
     | None => Raise UnresolvedDependencyError
     end, s).
Proof.
  intros Hne.
  unfold _string_to_function, _unwrap_choice, db_check_existence, bind, gets, dict_merge.
  assert (Hlook : forall choice : str,
             (switcher_transformations ∪ {[ "Unwrapped_Positions"%string := choice ]}) !! argument
             = switcher_transformations !! argument).
  { intros choice. rewrite lookup_union, lookup_singleton_ne by (intros Heq; by apply Hne).
    by destruct (switcher_transformations !! argument). }
  destruct (check_existence (database s) "Box_Images"); cbn [ret];
    rewrite Hlook; by destruct (switcher_transformations !! argument).
Qed.

Lemma check_existence_spec (db : Database) (path : str) :
  check_existence db path = true <-> is_Some (db !! path).
Proof. unfold check_existence. apply bool_decide_eq_true. Qed.

(** C6. The dependency ["Unwrapped_Positions"] resolves to [UnwrapViaIndices]
    if and only if a dataset ["Box_Images"] exists in the store, and to
    [UnwrapCoordinates] otherwise; the resolver hands that transformation to
    the experiment. *)
Theorem unwrapped_positions_choice (self : Transformations) (s : state) :
  (fst (_string_to_function "Unwrapped_Positions" s) = Ok "UnwrapViaIndices"%string
     <-> is_Some (database s !! "Box_Images"%string)) /\
  (fst (_string_to_function "Unwrapped_Positions" s) = Ok "UnwrapCoordinates"%string
     <-> ~ is_Some (database s !! "Box_Images"%string)) /\
  _resolve_dependencies self "Unwrapped_Positions" s =
    experiment_perform_transformation (experiment self)
      (unwrap_transformation (database s))
      (add_events [Resolve_dependencies "Unwrapped_Positions";
                   Perform_transformation (unwrap_transformation (database s))] s).
Proof.
  rewrite string_to_function_unwrapped. cbn [fst]. unfold unwrap_transformation.
  rewrite <- check_existence_spec.
  split; [|split].
  - destruct (check_existence (database s) "Box_Images"); split; intros H;
      first [reflexivity | discriminate H].
  - destruct (check_existence (database s) "Box_Images"); split; intros H;
      first [reflexivity | discriminate H | by destruct H | intros H'; discriminate H'].
  - unfold _resolve_dependencies, bind, emit, modify.
    rewrite string_to_function_unwrapped. cbn [database trace].
    unfold unwrap_transformation, add_events. cbn [database].
    rewrite <- app_assoc. reflexivity.
Qed.

(** C7. A dependency that is neither ["Unwrapped_Positions"] nor a key of
    the table of transformations makes the resolver raise
    [UnresolvedDependencyError]; the store is as before, the experiment was
    handed no transformation, and the only new event is the entry into the
    resolver. *)
Theorem unknown_dependency_raises (self : Transformations) (dep : str) (s : state) :
  dep <> "Unwrapped_Positions"%string ->
  switcher_transformations !! dep = None ->
  _resolve_dependencies self dep s =
    (Raise UnresolvedDependencyError, add_events [Resolve_dependencies dep] s) /\
  database (snd (_resolve_dependencies self dep s)) = database s.
Proof.
  intros Hne Hnone.
  assert (H : _resolve_dependencies self dep s =
              (Raise UnresolvedDependencyError, add_events [Resolve_dependencies dep] s)).
  { unfold _resolve_dependencies, bind, emit, modify.
    rewrite string_to_function_table by exact Hne. rewrite Hnone. reflexivity. }
  split; [exact H|]. rewrite H. reflexivity.
Qed.

Lemma unknown_dependency_raises_witness :
  _resolve_dependencies Demo.momentum "Pressure" Demo.partial_state =
    (Raise (KeyError "Data not in database and can not be generated."),
     add_events [Resolve_dependencies "Pressure"] Demo.partial_state) /\
  database (snd (_resolve_dependencies Demo.momentum "Pressure" Demo.partial_state)) =
    Demo.partial_store.
Proof.
  apply (unknown_dependency_raises Demo.momentum "Pressure" Demo.partial_state).
  - discriminate.
  - vm_compute. reflexivity.
Defined.

Lemma resolver_calls_app (t1 t2 : list event) :
  resolver_calls (t1 ++ t2) = resolver_calls t1 ++ resolver_calls t2.
Proof. apply omap_app. Qed.

Lemma trace_perform_transformation (e : Experiment) (t : str) (s : state) :
  trace (snd (experiment_perform_transformation e t s)) = trace s.
Proof.
  unfold experiment_perform_transformation.
  by destruct (perform_transformation e t (database s)).
Qed.

Lemma resolver_calls_resolve (self : Transformations) (dep : str) (s : state) :
  resolver_calls (trace (snd (_resolve_dependencies self dep s))) =
    resolver_calls (trace s) ++ [dep].
Proof.
  unfold _resolve_dependencies, bind, emit, modify.
  destruct (_string_to_function dep _) as [[t|e] s1] eqn:Hs.
  - assert (Hs1 : trace s1 = trace s ++ [Resolve_dependencies dep]).
    { revert Hs. unfold _string_to_function, _unwrap_choice, db_check_existence, bind, gets.
      cbn [database]. destruct (check_existence _ _); cbn [ret];
        destruct (_ !! dep); unfold ret, raise; intros [= <- <-] || intros [=]; reflexivity. }
    rewrite trace_perform_transformation. cbn [trace].
    rewrite Hs1, !resolver_calls_app. cbn. by rewrite app_nil_r.
  - assert (Hs1 : trace s1 = trace s ++ [Resolve_dependencies dep]).
    { revert Hs. unfold _string_to_function, _unwrap_choice, db_check_existence, bind, gets.
      cbn [database]. destruct (check_existence _ _); cbn [ret];
        destruct (_ !! dep); unfold ret, raise; intros [= <- <-] || intros [=]; reflexivity. }
    cbn [snd]. rewrite Hs1, resolver_calls_app. reflexivity.
Qed.

Lemma forallb_truth_array {A} (f : A -> bool) (l : list A) :
  forallb (fun b => b) (map f l) = forallb f l.
Proof. induction l as [|x l IH]; [reflexivity|]. cbn. by rewrite IH. Qed.

(** C10. [_run_dependency_check] returns at once, the state untouched and the
    resolver not entered, if and only if the dependency exists for every
    species of the experiment; if it is missing for at least one species the
    resolver is entered exactly once, for the dependency of the
    transformation. *)
Theorem dependency_check_resolver_once (self : Transformations) (s : state) :
  resolver_calls (trace (snd (_run_dependency_check self s))) =
    resolver_calls (trace s) ++
    (if dependency_fulfilled self (database s) then [] else [dependency self]) /\
  (dependency_fulfilled self (database s) = true <->
   Forall (fun sp => check_existence (database s) (join_path sp (dependency self)) = true)
     (keys (species (experiment self)))) /\
  _run_dependency_check self s =
    (if dependency_fulfilled self (database s) then (Ok tt, s)
     else _resolve_dependencies self (dependency self) s).
Proof.
  assert (Hrun : _run_dependency_check self s =
            (if dependency_fulfilled self (database s) then (Ok tt, s)
             else _resolve_dependencies self (dependency self) s)).
  { unfold _run_dependency_check, dependency_fulfilled, bind, gets.
    rewrite map_map, forallb_truth_array.
    by destruct (forallb _ _). }
  split; [|split; [|exact Hrun]].
  - rewrite Hrun. destruct (dependency_fulfilled self (database s)).
    + cbn [snd]. by rewrite app_nil_r.
    + apply resolver_calls_resolve.
  - unfold dependency_fulfilled. rewrite forallb_forall, Forall_forall.
    split; intros H x Hx; apply H; by apply list_elem_of_In.
Qed.

(** ** [_save_output] *)

Ltac run_M :=
  cbv beta delta [_save_output db_add_data db_add_dataset db_resize_dataset
                  db_check_existence db_get_data_size time_sleep try_except_OSError
                  bind lift gets modify emit raise ret
                  set_pending set_database set_offset written add_events];
  cbn beta iota zeta
    delta [database offset batch_size n_batches remainder data_manager pending trace
           tl hd fst snd].

Lemma save_output_no_chunk (data : ndarray) (index : Z) (ds : dict str data_spec)
    (e : exn) (s : state) :
  build_chunk data ds = Raise e ->
  _save_output data index ds s = (Raise e, s).
Proof. intros H. unfold _save_output, bind, lift. by rewrite H. Qed.

Lemma save_output_first_attempt (data : ndarray) (index : Z) (ds : dict str data_spec)
    (chunk : TrajectoryChunkData) (s : state) :
  build_chunk data ds = Ok chunk ->
  hd None (pending s) = None ->
  _save_output data index ds s =
    (Ok tt, written chunk (index + offset s)
              (add_events [Add_data chunk (index + offset s) None]
                 (set_pending (tl (pending s)) s))).
Proof.
  intros Hc Hp. destruct s as [db o bs nb r dm p t]. cbn in Hp.
  run_M. rewrite Hc.
  destruct p as [|[e|] p]; [reflexivity | discriminate Hp | reflexivity].
Qed.

Lemma save_output_other_error (data : ndarray) (index : Z) (ds : dict str data_spec)
    (chunk : TrajectoryChunkData) (s : state) (e : exn) (rest : list (option exn)) :
  build_chunk data ds = Ok chunk ->
  pending s = Some e :: rest ->
  e <> OSError ->
  _save_output data index ds s =
    (Raise e, add_events [Add_data chunk (index + offset s) (Some e)] (set_pending rest s)).
Proof.
  intros Hc Hp He. destruct s as [db o bs nb r dm p t]. cbn in Hp. subst p.
  run_M. rewrite Hc.
  destruct e; try reflexivity. by destruct He.
Qed.

(** The second attempt, after [OSError] on the first. *)
Lemma save_output_after_OSError (data : ndarray) (index : Z) (ds : dict str data_spec)
    (chunk : TrajectoryChunkData) (s : state) (rest : list (option exn)) :
  build_chunk data ds = Ok chunk ->
  pending s = Some OSError :: rest ->
  _save_output data index ds s =
    match rest with
    | Some e :: rest' =>
        (Raise e,
         add_events [Add_data chunk (index + offset s) (Some OSError);
                     Sleep 0.5;
                     Add_data chunk (index + offset s) (Some e)]
           (set_pending rest' s))
    | _ =>
        (Ok tt,
         written chunk (index + offset s)
           (add_events [Add_data chunk (index + offset s) (Some OSError);
                        Sleep 0.5;
                        Add_data chunk (index + offset s) None]
              (set_pending (tl rest) s)))
    end.
Proof.
  intros Hc Hp. destruct s as [db o bs nb r dm p t]. cbn in Hp. subst p.
  run_M. rewrite Hc.
  destruct rest as [|[e|] rest']; run_M; rewrite <- !app_assoc; reflexivity.
Qed.

(** The chunk that [_save_output] builds: the last step, and what a chunk
    that was built tells. *)
Lemma chunk_add_data_single (sp prop : str) (np nd size : Z) (data : ndarray) :
  chunk_add_data
    (new_chunk size [ {| species_name := sp; n_particles := np;
                         properties := [ {| name := prop; n_dims := nd |} ] |} ])
    data 0 sp prop =
  match shape data with
  | [n; p; d] =>
      if ((Z.of_nat p =? np) && (Z.of_nat d =? nd) && (Z.of_nat n <=? size))%bool
      then Ok (single_chunk sp prop np nd size data)
      else Raise (ValueError "could not broadcast input array")
  | _ => Raise (ValueError "could not broadcast input array")
  end.
Proof.
  unfold chunk_add_data, chunk_array, new_chunk, fits, single_chunk.
  cbn -[Z.of_nat Z.leb Z.eqb Z.add String.eqb]. rewrite String.eqb_refl.
  cbn -[Z.of_nat Z.leb Z.eqb Z.add String.eqb]. rewrite String.eqb_refl.
  cbn -[Z.of_nat Z.leb Z.eqb Z.add String.eqb].
  destruct (shape data) as [|n [|p [|d [|? ?]]]]; try reflexivity.
  change (0 <=? 0) with true. rewrite Z.add_0_l, andb_true_r. reflexivity.
Qed.

Lemma build_chunk_inversion (data : ndarray) (ds : dict str data_spec)
    (chunk : TrajectoryChunkData) :
  build_chunk data ds = Ok chunk ->
  exists (key : str) (val : data_spec) (rest : dict str data_spec) (sp prop : str)
         (p n d : nat),
    ds = (key, val) :: rest /\
    index_m1 (split "/" key) = Ok prop /\
    index_m2 (split "/" key) = Ok sp /\
    number_of_particles val = Ok (Z.of_nat p) /\
    d = length (columns val) /\
    shape (expand_particle_axis data) = [p; n; d] /\
    chunk = single_chunk sp prop (Z.of_nat p) (Z.of_nat d) (Z.of_nat n)
              (swapaxes01 (expand_particle_axis data)).
Proof.
  unfold build_chunk. intros Hc.
  destruct ds as [|[key val] rest]; [discriminate Hc|]. cbn [index_0 rbind] in Hc.
  destruct (index_m1 _) as [prop|] eqn:Hprop; [|discriminate Hc]. cbn [rbind] in Hc.
  destruct (index_m2 _) as [sp|] eqn:Hsp; [|discriminate Hc]. cbn [rbind] in Hc.
  destruct (number_of_particles val) as [np|] eqn:Hnp; [|discriminate Hc]. cbn [rbind] in Hc.
  destruct (index_1 _) as [size|] eqn:Hsize; [|discriminate Hc]. cbn [rbind] in Hc.
  rewrite chunk_add_data_single in Hc. cbn [swapaxes01 shape] in Hc.
  destruct (shape (expand_particle_axis data)) as [|p [|n [|d [|? ?]]]] eqn:Hsh;
    try discriminate Hc.
  cbn [swap01 index_1] in Hc, Hsize. injection Hsize as <-.
  destruct (Z.eqb_spec (Z.of_nat p) np) as [<-|]; [|discriminate Hc].
  destruct (Z.eqb_spec (Z.of_nat d) (Z.of_nat (length (columns val)))) as [Hd|];
    [|discriminate Hc].
  apply Nat2Z.inj in Hd. subst d.
  destruct (Z.leb_spec (Z.of_nat n) (Z.of_nat n)) as [_|?]; [|lia].
  cbn [andb] in Hc. injection Hc as <-.
  exists key, val, rest, sp, prop, p, n, (length (columns val)). auto 10.
Qed.

Lemma attempts_app (t1 t2 : list event) : attempts (t1 ++ t2) = attempts t1 ++ attempts t2.
Proof. unfold attempts. apply List.filter_app. Qed.

(** C3. When the first attempt to write a batch raises [OSError],
    [_save_output] sleeps 0.5 seconds and tries once more: if that attempt
    succeeds the chunk is written and the call returns; if it raises, the
    exception reaches the caller and the store is as before. Either way the
    call makes exactly two attempts and consumes exactly two outcomes of the
    environment. *)
Theorem save_output_retries_once (data : ndarray) (index : Z) (ds : dict str data_spec)
    (chunk : TrajectoryChunkData) (s : state) (rest : list (option exn)) :
  build_chunk data ds = Ok chunk ->
  pending s = Some OSError :: rest ->
  (hd None rest = None ->
   _save_output data index ds s =
     (Ok tt,
      written chunk (index + offset s)
        (add_events [Add_data chunk (index + offset s) (Some OSError);
                     Sleep 0.5;
                     Add_data chunk (index + offset s) None]
           (set_pending (tl rest) s)))) /\
  (forall e : exn, hd None rest = Some e ->
   _save_output data index ds s =
     (Raise e,
      add_events [Add_data chunk (index + offset s) (Some OSError);
                  Sleep 0.5;
                  Add_data chunk (index + offset s) (Some e)]
        (set_pending (tl rest) s))) /\
  length (attempts (trace (snd (_save_output data index ds s)))) =
    (length (attempts (trace s)) + 2)%nat /\
  pending (snd (_save_output data index ds s)) = tl rest.
Proof.
  intros Hc Hp. rewrite (save_output_after_OSError _ _ _ _ _ _ Hc Hp).
  split; [|split; [|split]].
  - intros Hhd. destruct rest as [|[e|] rest']; [reflexivity|discriminate Hhd|reflexivity].
  - intros e Hhd. destruct rest as [|[e'|] rest']; try discriminate Hhd.
    by injection Hhd as ->.
  - destruct rest as [|[e|] rest']; cbn [snd written add_events set_database trace];
      rewrite attempts_app, length_app; reflexivity.
  - by destruct rest as [|[e|] rest'].
Qed.

Lemma save_output_retries_once_witness :
  _save_output (zeros [1; 2; 3]%nat) 4 Na_Momentum_structure
    (set_pending [Some OSError; None] Demo.partial_state) =
  (Ok tt,
   written (Na_Momentum_chunk (zeros [1; 2; 3]%nat) 2) 4
     (add_events [Add_data (Na_Momentum_chunk (zeros [1; 2; 3]%nat) 2) 4 (Some OSError);
                  Sleep 0.5;
                  Add_data (Na_Momentum_chunk (zeros [1; 2; 3]%nat) 2) 4 None]
        Demo.partial_state)) /\
  _save_output (zeros [1; 2; 3]%nat) 4 Na_Momentum_structure
    (set_pending [Some OSError; Some OSError; None] Demo.partial_state) =
  (Raise OSError,
   add_events [Add_data (Na_Momentum_chunk (zeros [1; 2; 3]%nat) 2) 4 (Some OSError);
               Sleep 0.5;
               Add_data (Na_Momentum_chunk (zeros [1; 2; 3]%nat) 2) 4 (Some OSError)]
     (set_pending [None] Demo.partial_state)).
Proof.
  split.
  - apply (save_output_retries_once (zeros [1; 2; 3]%nat) 4 Na_Momentum_structure
             (Na_Momentum_chunk (zeros [1; 2; 3]%nat) 2)
             (set_pending [Some OSError; None] Demo.partial_state) [None]);
      reflexivity.
  - apply (save_output_retries_once (zeros [1; 2; 3]%nat) 4 Na_Momentum_structure
             (Na_Momentum_chunk (zeros [1; 2; 3]%nat) 2)
             (set_pending [Some OSError; Some OSError; None] Demo.partial_state)
             [Some OSError; None]);
      reflexivity.
Defined.

(** C9. A result of rank 2, of shape [(batch_length, n_dims)], gets a
    leading particle axis of size 1 before the chunk is built; a result of
    rank 3 is taken as it is. The chunk holds one block, the expanded array
    of rank 3 with the time axis moved to the front for the chunk, the chunk
    size is the batch length, and this chunk is what [_save_output] writes. *)
Theorem save_output_particle_axis (data : ndarray) (ds : dict str data_spec)
    (chunk : TrajectoryChunkData) :
  build_chunk data ds = Ok chunk ->
  (ndim data = 2 \/ ndim data = 3)%nat ->
  ndim (expand_particle_axis data) = 3%nat /\
  (forall b d : nat, shape data = [b; d] ->
     shape (expand_particle_axis data) = [1%nat; b; d] /\
     forall t k : nat, item (expand_particle_axis data) [0%nat; t; k] = item data [t; k]) /\
  (ndim data = 3%nat -> expand_particle_axis data = data) /\
  (exists (sp prop : str) (p b d : nat),
     shape (expand_particle_axis data) = [p; b; d] /\
     chunk_size chunk = Z.of_nat b /\
     blocks chunk = [ {| blk_species := sp; blk_property := prop; blk_config_idx := 0;
                         blk_data := swapaxes01 (expand_particle_axis data) |} ] /\
     shape (swapaxes01 (expand_particle_axis data)) = [b; p; d]) /\
  (forall (index : Z) (s : state), pending s = [] ->
     _save_output data index ds s =
       (Ok tt, written chunk (index + offset s)
                 (add_events [Add_data chunk (index + offset s) None] s))).
Proof.
  intros Hc Hrank.
  assert (Hexp : (ndim data = 2 /\ expand_particle_axis data = newaxis data)%nat \/
                 (ndim data = 3 /\ expand_particle_axis data = data)%nat).
  { unfold expand_particle_axis, ndim in *. destruct Hrank as [H|H]; rewrite H; auto. }
  assert (H3 : ndim (expand_particle_axis data) = 3%nat).
  { destruct Hexp as [[H ->]|[H ->]]; [|exact H]. unfold ndim in *. cbn. by rewrite H. }
  split; [exact H3|]. split; [|split; [|split]].
  - intros b d Hsh. unfold expand_particle_axis. rewrite Hsh. cbn. by rewrite Hsh.
  - intros H. destruct Hexp as [[H' _]|[_ ->]]; [congruence | reflexivity].
  - apply build_chunk_inversion in Hc
      as (key & val & rest & sp & prop & p & b & d & _ & _ & _ & _ & _ & Hsh & ->).
    exists sp, prop, p, b, d. cbn. rewrite Hsh. auto.
  - intros index s Hp. rewrite (save_output_first_attempt _ _ _ _ _ Hc) by (by rewrite Hp).
    rewrite Hp. destruct s; cbn in *; subst; reflexivity.
Qed.

Lemma save_output_particle_axis_witness :
  shape (expand_particle_axis (zeros [2; 3]%nat)) = [1; 2; 3]%nat /\
  _save_output (zeros [2; 3]%nat) 4 Na_Momentum_structure Demo.partial_state =
    (Ok tt,
     written (Na_Momentum_chunk (newaxis (zeros [2; 3]%nat)) 2) 4
       (add_events [Add_data (Na_Momentum_chunk (newaxis (zeros [2; 3]%nat)) 2) 4 None]
          Demo.partial_state)).
Proof.
  destruct (save_output_particle_axis (zeros [2; 3]%nat) Na_Momentum_structure
              (Na_Momentum_chunk (newaxis (zeros [2; 3]%nat)) 2))
    as (_ & Hshape & _ & _ & Hwrite); [reflexivity | left; reflexivity |].
  split.
  - exact (proj1 (Hshape 2%nat 3%nat eq_refl)).
  - exact (Hwrite 4 Demo.partial_state eq_refl).
Defined.

(** ** The batch loop *)



Lemma batch_loop_cons (self : Transformations) (signature : dict bytes TensorSpec)
    (ods : dict str data_spec) (index : Z) (pull : Database -> dict bytes ndarray)
    (rest : list (Z * (Database -> dict bytes ndarray))) (s : state) :
  batch_loop self signature ods ((index, pull) :: rest) s =
    match deliver signature (pull (database s)) with
    | Raise e => (Raise e, s)
    | Ok batch_dict =>
        match _save_output (transform_batch self (batch_dict_wo_species batch_dict))
                (index * batch_size s) ods s with
        | (Ok _, s1) => batch_loop self signature ods rest s1
        | (Raise e, s1) => (Raise e, s1)
        end
    end.
Proof.
  cbn [batch_loop]. unfold bind at 1 2 3 4. unfold gets, lift.
  destruct (deliver signature (pull (database s))); reflexivity.
Qed.


Lemma prepare_database_entry_effect (self : Transformations) (sp : str) (s : state) :
  exists new : list event,
    trace (snd (_prepare_database_entry self sp s)) = trace s ++ new /\
    forall c i r0, ~ In (Add_data c i r0) new.
Proof.
  unfold _prepare_database_entry, _run_dataset_check. run_M.
  destruct (dict_get (species (experiment self)) sp) as [info|]; run_M.
  2:{ exists []. rewrite app_nil_r. split; [reflexivity|]. intros c i r0 []. }
  destruct (check_existence (database s) _); run_M.
  - destruct (get_data_size (database s) _) as [old_shape|e]; run_M.
    2:{ exists []. rewrite app_nil_r. split; [reflexivity|]. intros c i r0 []. }
    destruct (resize_dataset (database s) _) as [db'|e]; run_M;
      (eexists; split; [reflexivity|]; intros c i r0 [H|[]]; discriminate H).
  - destruct (add_dataset (database s) _) as [db'|e]; run_M;
      (eexists; split; [reflexivity|]; intros c i r0 [H|[]]; discriminate H).
Qed.

Lemma prepare_monitors_effect (self : Transformations) (data_path : list bytes) (s : state) :
  trace (snd (_prepare_monitors self data_path s)) = trace s.
Proof.
  unfold _prepare_monitors. run_M.
  destruct (get_batch_size self _ (database s)) as [[[bs nb] r]|e]; reflexivity.
Qed.

Lemma transform_species_eq (self : Transformations) (sp : str) (s : state) :
  transform_species self sp s =
    if output_exists self (database s) sp then (Ok tt, add_events [skip_log self sp] s)
    else
      match _prepare_database_entry self sp s with
      | (Raise e, s1) => (Raise e, s1)
      | (Ok ods, s1) =>
          match _prepare_monitors self (keys (type_spec self sp)) s1 with
          | (Raise e, s2) => (Raise e, s2)
          | (Ok _, s2) =>
              match data_manager s2 with
              | None => (Raise (AttributeError "data_manager"), s2)
              | Some dm =>
                  batch_loop self (batch_signature self sp) ods
                    (enumerate (batch_generator self dm)) s2
              end
          end
      end.
Proof.
  unfold transform_species, output_exists, db_check_existence, bind, gets.
  destruct (check_existence (database s) _); [reflexivity|].
  destruct (_prepare_database_entry self sp s) as [[ods|e] s1]; [|reflexivity].
  destruct (_prepare_monitors self _ s1) as [[[]|e] s2]; [|reflexivity].
  destruct (data_manager s2); reflexivity.
Qed.

Lemma prepare_database_entry_fresh (self : Transformations) (sp : str) (s : state)
    (info : SpeciesInfo) :
  dict_get (species (experiment self)) sp = Some info ->
  check_existence (database s) (join_path sp (name (output_property self))) = false ->
  _prepare_database_entry self sp s =
    (Ok (output_data_structure self sp info),
     set_database
       (<[join_path sp (name (output_property self)) :=
            {| ds_shape := output_shape self info; ds_written := [] |}]> (database s))
       (add_events
          [Add_dataset [(join_path sp (name (output_property self)), output_shape self info)]]
          s)).
Proof.
  intros Hsp Hex.
  unfold _prepare_database_entry, _run_dataset_check. run_M. rewrite Hsp. run_M.
  rewrite Hex. run_M. cbn [add_dataset]. rewrite Hex. run_M. reflexivity.
Qed.





(** ** Species whose output exists *)

Lemma add_events_nil (s : state) : add_events [] s = s.
Proof. destruct s. unfold add_events. cbn. by rewrite app_nil_r. Qed.

Lemma add_events_app (e1 e2 : list event) (s : state) :
  add_events e2 (add_events e1 s) = add_events (e1 ++ e2) s.
Proof. unfold add_events. cbn. by rewrite app_assoc. Qed.

Lemma store_events_skip_logs (self : Transformations) (spp : list str) :
  store_events (map (skip_log self) spp) = [].
Proof. induction spp as [|sp spp IH]; [reflexivity|exact IH]. Qed.

Lemma transform_species_skip (self : Transformations) (sp : str) (s : state) :
  output_exists self (database s) sp = true ->
  transform_species self sp s = (Ok tt, add_events [skip_log self sp] s).
Proof.
  intros H. unfold output_exists in H.
  unfold transform_species, db_check_existence, bind, gets. rewrite H. reflexivity.
Qed.

Lemma run_transformation_skip (self : Transformations) (spp : list str) (s : state) :
  Forall (fun sp => output_exists self (database s) sp = true) spp ->
  run_transformation self (Some spp) s = (Ok tt, add_events (map (skip_log self) spp) s).
Proof.
  unfold run_transformation. revert s.
  induction spp as [|sp spp IH]; intros s H.
  - cbn. by rewrite add_events_nil.
  - apply Forall_cons in H as [Hsp Hspp].
    cbn [for_each map]. unfold bind. rewrite (transform_species_skip _ _ _ Hsp).
    rewrite IH by exact Hspp. by rewrite add_events_app.
Qed.

(** C2. A species whose output dataset exists is skipped: the body of the
    species loop logs and changes nothing else, and the loop moves on to the
    next species. Hence a run on such a species leaves the store as it is and
    calls the store for no write, and so does the run that follows it. *)
Theorem existing_output_no_writes (self : Transformations) (sp : str) (rest : list str)
    (s : state) :
  output_exists self (database s) sp = true ->
  transform_species self sp s = (Ok tt, add_events [skip_log self sp] s) /\
  run_transformation self (Some (sp :: rest)) s =
    run_transformation self (Some rest) (add_events [skip_log self sp] s) /\
  run_transformation self (Some [sp]) s = (Ok tt, add_events [skip_log self sp] s) /\
  run_transformation self (Some [sp]) (add_events [skip_log self sp] s) =
    (Ok tt, add_events [skip_log self sp; skip_log self sp] s) /\
  database (add_events [skip_log self sp; skip_log self sp] s) = database s /\
  store_events [skip_log self sp; skip_log self sp] = [].
Proof.
  intros H. split; [|split; [|split; [|split; [|split]]]].
  - by apply transform_species_skip.
  - unfold run_transformation. cbn [for_each]. unfold bind.
    by rewrite (transform_species_skip _ _ _ H).
  - by rewrite run_transformation_skip by (by constructor).
  - rewrite run_transformation_skip by (by constructor). by rewrite add_events_app.
  - reflexivity.
  - reflexivity.
Qed.

Lemma existing_output_no_writes_witness :
  run_transformation Demo.momentum (Some ["Na"%string]) Demo.partial_state =
    (Ok tt,
     add_events [Log_info "Momentum already exists for Na, skipping transformation"]
       Demo.partial_state) /\
  run_transformation Demo.momentum (Some ["Na"%string])
    (add_events [Log_info "Momentum already exists for Na, skipping transformation"]
       Demo.partial_state) =
    (Ok tt,
     add_events [Log_info "Momentum already exists for Na, skipping transformation";
                 Log_info "Momentum already exists for Na, skipping transformation"]
       Demo.partial_state).
Proof.
  destruct (existing_output_no_writes Demo.momentum "Na" [] Demo.partial_state)
    as (_ & _ & H1 & H2 & _); [reflexivity|].
  split; [exact H1|exact H2].
Defined.

(** ** Extension of an existing output *)

(** C1. The code at the failing input: the output of ["Na"] is there with 2
    of the 5 configurations of the experiment. The rerun skips the species:
    it logs, [offset] stays 0 where the specification has 2, and the store
    is called neither for a resize nor for a write, so [rerun_extends] does
    not hold of this state. The extending branch of
    [_prepare_database_entry], which the skip keeps the rerun from, misses
    it as well: it takes the first component of the stored shape, the 1
    particle, for the old length, sets [offset] to 1 and resizes by 4 where
    the specification has 2 and 3. *)
Theorem rerun_does_not_extend :
  Demo.partial_store !! "Na/Momentum"%string =
    Some {| ds_shape := (1, 2, 3); ds_written := [] |} /\
  number_of_configurations (experiment Demo.momentum) = 5 /\
  run_transformation Demo.momentum (Some ["Na"%string]) Demo.partial_state =
    (Ok tt,
     add_events [Log_info "Momentum already exists for Na, skipping transformation"]
       Demo.partial_state) /\
  offset (snd (run_transformation Demo.momentum (Some ["Na"%string]) Demo.partial_state)) = 0 /\
  store_events
    (trace (snd (run_transformation Demo.momentum (Some ["Na"%string]) Demo.partial_state)))
    = [] /\
  (rerun_extends Demo.momentum "Na" Demo.partial_state -> False) /\
  offset (snd (_prepare_database_entry Demo.momentum "Na" Demo.partial_state)) = 1 /\
  trace (snd (_prepare_database_entry Demo.momentum "Na" Demo.partial_state)) =
    [Resize_dataset [("Na/Momentum"%string, (1, 4, 3))]].
Proof.
  assert (Hrun : run_transformation Demo.momentum (Some ["Na"%string]) Demo.partial_state =
            (Ok tt,
             add_events [Log_info "Momentum already exists for Na, skipping transformation"]
               Demo.partial_state)) by (vm_compute; reflexivity).
  split; [vm_compute; reflexivity|]. split; [reflexivity|]. split; [exact Hrun|].
  split; [by rewrite Hrun|]. split; [by rewrite Hrun|].
  split; [|split; vm_compute; reflexivity].
  intros H.
  destruct (H {| ds_shape := (1, 2, 3); ds_written := [] |} 1 2 3) as [Ho _].
  - vm_compute. reflexivity.
  - reflexivity.
  - cbn. lia.
  - vm_compute in Ho. discriminate Ho.
Qed.

(** X1. The extending branch of [_prepare_database_entry], which a rerun through
    [run_transformation] does not reach: for an existing dataset [offset]
    becomes the first component of the stored shape. When that component is
    no more than the number of configurations the call returns and the
    dataset has grown by the number of configurations less that component;
    when the resize would leave the dataset with a length below 0, the store
    rejects it and stays as it was. *)
Lemma prepare_database_entry_existing (self : Transformations) (sp : str) (s : state)
    (info : SpeciesInfo) (ds : dataset) (p c d : Z) :
  dict_get (species (experiment self)) sp = Some info ->
  database s !! join_path sp (name (output_property self)) = Some ds ->
  ds_shape ds = (p, c, d) ->
  offset (snd (_prepare_database_entry self sp s)) = p /\
  trace (snd (_prepare_database_entry self sp s)) =
    trace s ++
    [Resize_dataset
       [(join_path sp (name (output_property self)),
         (n_particles info,
          number_of_configurations (experiment self) - p,
          n_dims (output_property self)))]] /\
  (p <= number_of_configurations (experiment self) ->
   fst (_prepare_database_entry self sp s) = Ok (output_data_structure self sp info) /\
   database (snd (_prepare_database_entry self sp s)) =
     <[join_path sp (name (output_property self)) :=
         {| ds_shape := (p, c + (number_of_configurations (experiment self) - p), d);
            ds_written := ds_written ds |}]>
       (database s)) /\
  (0 <= c -> c + (number_of_configurations (experiment self) - p) < 0 ->
   (exists e, fst (_prepare_database_entry self sp s) = Raise e) /\
   database (snd (_prepare_database_entry self sp s)) = database s).
Proof.
  intros Hsp Hds Hshape.
  unfold _prepare_database_entry, _run_dataset_check. run_M. rewrite Hsp. run_M.
  unfold check_existence, get_data_size. rewrite Hds.
  rewrite bool_decide_eq_true_2 by (by eexists). run_M.
  cbn [resize_dataset]. rewrite Hds. unfold grow. rewrite Hshape. cbn [fst].
  destruct (Z.ltb_spec (number_of_configurations (experiment self) - p) 0) as [Hneg|Hpos];
    run_M.
  - split; [reflexivity|]. split; [reflexivity|]. split; [intros ?; lia|].
    intros _ _. split; [by eexists | reflexivity].
  - split; [reflexivity|]. split; [reflexivity|]. split; [|intros ? ?; lia].
    intros _. split; reflexivity.
Qed.

Lemma prepare_database_entry_existing_witness :
  offset (snd (_prepare_database_entry Demo.momentum "Na" Demo.partial_state)) = 1 /\
  database (snd (_prepare_database_entry Demo.momentum "Na" Demo.partial_state))
    !! "Na/Momentum"%string = Some {| ds_shape := (1, 6, 3); ds_written := [] |}.
Proof.
  destruct (prepare_database_entry_existing Demo.momentum "Na" Demo.partial_state Demo.Na
              {| ds_shape := (1, 2, 3); ds_written := [] |} 1 2 3)
    as (Ho & _ & Hgrow & _); [reflexivity | vm_compute; reflexivity | reflexivity |].
  split; [exact Ho|]. destruct Hgrow as [_ Hdb]; [vm_compute; discriminate|].
  rewrite Hdb. vm_compute. reflexivity.
Defined.

(** ** The keys of the batch handed to [transform_batch] *)

(** C8. The code at the failing input: a batch of the small experiment, as
    it is delivered with the signature of the species. The key of the
    velocities loses its species, but the entry [data_size] of the batch
    reaches [transform_batch] too, under the key [b'data_size], the [repr] of
    its bytes less the closing quote: the transformation does not see only
    the names of its input properties. *)
Theorem data_size_key_is_passed_on :
  deliver (batch_signature Demo.momentum "Na") (Demo.batch 2 ∅) = Ok (Demo.batch 2 ∅) /\
  keys (Demo.batch 2 ∅) = ["Na/Velocity"; "data_size"]%string /\
  map name (input_properties Demo.momentum) = ["Velocity"%string] /\
  keys (batch_dict_wo_species (Demo.batch 2 ∅)) = ["Velocity"; "b'data_size"]%string /\
  (sees_only_property_names Demo.momentum (Demo.batch 2 ∅) -> False).
Proof.
  split; [vm_compute; reflexivity|]. split; [vm_compute; reflexivity|].
  split; [reflexivity|]. split; [vm_compute; reflexivity|].
  intros H. unfold sees_only_property_names in H.
  apply Forall_cons in H as [_ H]. apply Forall_cons in H as [H _].
  vm_compute in H. destruct H as [H|[]]. discriminate H.
Qed.

Lemma plain_char_facts (c : ascii) :
  plain_char c = true ->
  encode_char c = String c EmptyString /\
  repr_byte "'" c = String c EmptyString /\
  Ascii.eqb c "'" = false.
Proof.
  destruct c as [[] [] [] [] [] [] [] []]; vm_compute; intros H;
    first [discriminate H | repeat split].
Qed.

Lemma append_cons (c : ascii) (a b : str) :
  String.append (String c a) b = String c (String.append a b).
Proof. reflexivity. Qed.

Lemma append_nil_l (b : str) : String.append EmptyString b = b.
Proof. reflexivity. Qed.

Ltac simpl_append := rewrite ?append_cons, ?append_nil_l.

Lemma plain_cons (c : ascii) (s : str) :
  plain (String c s) = true -> plain_char c = true /\ plain s = true.
Proof. unfold plain. cbn [all_chars]. intros H. by apply andb_prop in H. Qed.

Lemma plain_property_plain (s : str) : plain_property s = true -> plain s = true.
Proof.
  unfold plain, plain_property.
  induction s as [|c s IH]; [reflexivity|]. cbn [all_chars].
  intros H. apply andb_prop in H as [Hc Hs]. apply andb_prop in Hc as [Hc _].
  by rewrite Hc, IH.
Qed.

Lemma plain_property_no_slash (s : str) : plain_property s = true -> contains "/" s = false.
Proof.
  unfold plain_property.
  induction s as [|c s IH]; [reflexivity|]. cbn [all_chars contains].
  intros H. apply andb_prop in H as [Hc Hs]. apply andb_prop in Hc as [_ Hc].
  rewrite IH by exact Hs. by destruct (Ascii.eqb c "/").
Qed.

Lemma plain_app (a b : str) :
  plain a = true -> plain b = true -> plain (String.append a b) = true.
Proof.
  unfold plain.
  induction a as [|c a IH]; [auto|]. simpl_append. cbn [all_chars]. intros H Hb.
  apply andb_prop in H as [Hc Ha]. by rewrite Hc, IH.
Qed.

Lemma plain_encode (s : str) : plain s = true -> encode s = s.
Proof.
  induction s as [|c s IH]; [reflexivity|]. intros H.
  apply plain_cons in H as [Hc Hs]. cbn [encode].
  destruct (plain_char_facts c Hc) as (-> & _ & _). simpl_append. by rewrite IH.
Qed.

Lemma plain_no_quote (s : str) : plain s = true -> contains "'" s = false.
Proof.
  induction s as [|c s IH]; [reflexivity|]. intros H.
  apply plain_cons in H as [Hc Hs]. cbn.
  destruct (plain_char_facts c Hc) as (_ & _ & ->). by apply IH.
Qed.

Lemma plain_repr_body (s : str) : plain s = true -> repr_body "'" s = s.
Proof.
  induction s as [|c s IH]; [reflexivity|]. intros H.
  apply plain_cons in H as [Hc Hs]. cbn [repr_body].
  destruct (plain_char_facts c Hc) as (_ & -> & _). simpl_append. by rewrite IH.
Qed.

Lemma plain_str_of_bytes (b : bytes) :
  plain b = true ->
  str_of_bytes b = String "b" (String "'" (String.append b (String "'" EmptyString))).
Proof.
  intros H. unfold str_of_bytes, bytes_quote.
  rewrite (plain_no_quote b H). cbn [andb]. by rewrite plain_repr_body.
Qed.

Lemma split_not_nil (sep : ascii) (s : str) : split sep s <> [].
Proof.
  destruct s as [|c s]; [discriminate|]. cbn.
  destruct (Ascii.eqb c sep); [discriminate|]. destruct (split sep s); discriminate.
Qed.

Lemma split_app_sep (sep : ascii) (a b : str) :
  exists h t, split sep (String.append a (String sep b)) = (h :: t) ++ split sep b.
Proof.
  induction a as [|c a (h & t & IH)].
  - exists EmptyString, []. simpl_append. cbn. by rewrite Ascii.eqb_refl.
  - simpl_append. cbn [split]. destruct (Ascii.eqb c sep).
    + exists EmptyString, (h :: t). by rewrite IH.
    + rewrite IH. by exists (String c h), t.
Qed.

Lemma split_no_sep (sep : ascii) (s : str) : contains sep s = false -> split sep s = [s].
Proof.
  induction s as [|c s IH]; [reflexivity|]. cbn. intros H.
  apply orb_false_elim in H as [Hc Hs]. rewrite Hc, IH by exact Hs. reflexivity.
Qed.

Lemma last_app_singleton {A} (l : list A) (x d : A) : List.last (l ++ [x]) d = x.
Proof. apply last_last. Qed.

Lemma last_segment (a b : str) :
  contains "/" b = false ->
  List.last (split "/" (String.append a (String "/" b))) EmptyString = b.
Proof.
  intros H. destruct (split_app_sep "/" a b) as (h & t & ->).
  rewrite split_no_sep by exact H. apply last_app_singleton.
Qed.

Lemma contains_app (c : ascii) (a b : str) :
  contains c (String.append a b) = (contains c a || contains c b)%bool.
Proof.
  induction a as [|x a IH]; [reflexivity|]. simpl_append. cbn. rewrite IH. by rewrite orb_assoc.
Qed.

Lemma rstrip_quote (p : str) :
  contains "'" p = false -> rstrip "'" (String.append p (String "'" EmptyString)) = p.
Proof.
  induction p as [|a p IH]; [reflexivity|]. cbn [contains]. intros H.
  apply orb_false_elim in H as [Ha Hp]. simpl_append. cbn [rstrip].
  rewrite IH by exact Hp. destruct p; [by rewrite Ha|reflexivity].
Qed.

Lemma strip_quote (p : str) :
  contains "'" p = false -> strip "'" (String.append p (String "'" EmptyString)) = p.
Proof.
  intros H. unfold strip. destruct p as [|a p]; [reflexivity|].
  simpl_append. cbn [lstrip]. cbn [contains] in H.
  pose proof H as H'. apply orb_false_elim in H' as [-> _].
  by apply (rstrip_quote (String a p)).
Qed.

Lemma append_assoc (a b c : str) :
  String.append (String.append a b) c = String.append a (String.append b c).
Proof. induction a as [|x a IH]; [reflexivity|]. simpl_append. by rewrite IH. Qed.

(** The key of a dataset loses its species. *)
Lemma strip_species_qualified (sp prop : str) :
  plain sp = true -> plain_property prop = true ->
  strip_species (encode (join_path sp prop)) = prop.
Proof.
  intros Hsp Hprop.
  assert (Hp : plain prop = true) by (by apply plain_property_plain).
  assert (Hj : plain (join_path sp prop) = true).
  { unfold join_path. apply plain_app; [exact Hsp|].
    unfold plain in *. cbn [all_chars]. by rewrite Hp. }
  unfold strip_species. rewrite plain_encode, plain_str_of_bytes by exact Hj.
  unfold join_path. rewrite append_assoc.
  change (String "b" (String "'" (String.append sp (String.append (String "/" prop) (String "'" EmptyString)))))
    with (String.append (String "b" (String "'" sp))
            (String "/" (String.append prop (String "'" EmptyString)))).
  rewrite last_segment.
  - apply strip_quote. by apply plain_no_quote.
  - rewrite contains_app, plain_property_no_slash by exact Hprop. reflexivity.
Qed.

Lemma dict_set_fresh {V} (d : dict str V) (k : str) (v : V) :
  k ∉ keys d -> dict_set d k v = d ++ [(k, v)].
Proof.
  induction d as [|[k' v'] d IH]; [reflexivity|]. cbn [keys map fst]. intros H.
  apply not_elem_of_cons in H as [Hne Hd]. cbn [dict_set].
  destruct (String.eqb_spec k' k) as [->|_]; [by destruct Hne|].
  cbn. f_equal. by apply IH.
Qed.

Lemma fold_dict_set {A V} (step : dict str V -> A -> dict str V) (f : A -> str * V) :
  (forall d x, step d x = dict_set d (fst (f x)) (snd (f x))) ->
  forall (l : list A) (acc : dict str V),
    NoDup (keys acc ++ map (fun x => fst (f x)) l) ->
    fold_left step l acc = acc ++ map f l.
Proof.
  intros Hstep. induction l as [|x l IH]; intros acc Hnd.
  - cbn. by rewrite app_nil_r.
  - cbn [fold_left map]. cbn [map] in Hnd.
    assert (Hfresh : fst (f x) ∉ keys acc).
    { apply NoDup_app in Hnd as (_ & Hdisj & _). intros Hin.
      apply (Hdisj _ Hin). by left. }
    rewrite Hstep, dict_set_fresh by exact Hfresh.
    rewrite IH.
    + rewrite <- app_assoc. cbn. by destruct (f x).
    + unfold keys. rewrite map_app. cbn. rewrite <- app_assoc. exact Hnd.
Qed.

Lemma deliver_keys_keys (signature : dict bytes TensorSpec) (element bd : dict bytes ndarray) :
  deliver_keys signature element = Ok bd -> keys bd = keys signature.
Proof.
  revert bd. induction signature as [|[k spec] signature IH]; intros bd H.
  - by injection H as <-.
  - cbn [deliver_keys] in H.
    destruct (dict_get element k) as [a|]; [|discriminate H].
    destruct (compatible spec a); [|discriminate H].
    destruct (deliver_keys signature element) as [d|]; [|discriminate H].
    cbn in H. injection H as <-. cbn. f_equal. by apply IH.
Qed.

Lemma deliver_keys_signature (signature : dict bytes TensorSpec) (element bd : dict bytes ndarray) :
  deliver signature element = Ok bd -> keys bd = keys signature.
Proof.
  unfold deliver. destruct (Nat.eqb _ _); [apply deliver_keys_keys | discriminate].
Qed.

Lemma append_inj (a b c : str) : String.append a b = String.append a c -> b = c.
Proof.
  induction a as [|x a IH]; [auto|]. simpl_append. intros [= H]. by apply IH.
Qed.

Section Keys.

Context (self : Transformations) (sp : str).
Hypothesis plain_species : plain sp = true.
Hypothesis plain_properties :
  Forall (fun prop => plain_property (name prop) = true) (input_properties self).
Hypothesis distinct_properties : NoDup (map name (input_properties self)).

Lemma qualified_plain (prop : PropertyInfo) :
  In prop (input_properties self) -> qualified sp prop = join_path sp (name prop).
Proof.
  intros Hin. unfold qualified. apply plain_encode.
  rewrite Forall_forall in plain_properties.
  apply list_elem_of_In, plain_properties, plain_property_plain in Hin.
  unfold join_path. apply plain_app; [exact plain_species|].
  unfold plain in *. cbn [all_chars]. by rewrite Hin.
Qed.

Lemma qualified_keys_plain :
  map (qualified sp) (input_properties self) =
  map (fun prop => join_path sp (name prop)) (input_properties self).
Proof. apply map_ext_in. intros prop Hin. by apply qualified_plain. Qed.

Lemma qualified_keys_distinct : NoDup (map (qualified sp) (input_properties self)).
Proof.
  rewrite qualified_keys_plain.
  rewrite <- (map_map name (join_path sp)).
  apply NoDup_fmap_2; [|exact distinct_properties].
  intros a b H. unfold join_path in H. apply append_inj in H. by injection H.
Qed.

Lemma data_size_not_qualified :
  encode "data_size" ∉ map (qualified sp) (input_properties self).
Proof.
  rewrite qualified_keys_plain. intros Hin.
  apply list_elem_of_fmap in Hin as (prop & Heq & _).
  assert (H : contains "/" (encode "data_size") = contains "/" (join_path sp (name prop)))
    by (by rewrite Heq).
  unfold join_path in H. rewrite contains_app in H. cbn [contains] in H.
  rewrite Ascii.eqb_refl, orb_true_l, orb_true_r in H. vm_compute in H. discriminate H.
Qed.

Lemma type_spec_keys : keys (type_spec self sp) = map (qualified sp) (input_properties self).
Proof.
  unfold type_spec.
  rewrite (fold_dict_set _
             (fun prop => (qualified sp prop,
                           {| spec_shape := [None; None; Some (Z.to_nat (n_dims prop))] |}))).
  - unfold keys. cbn [app]. by rewrite map_map.
  - reflexivity.
  - cbn [keys map app fst]. exact qualified_keys_distinct.
Qed.

Lemma batch_signature_keys :
  keys (batch_signature self sp) =
    map (qualified sp) (input_properties self) ++ [encode "data_size"].
Proof.
  unfold batch_signature.
  pose proof data_size_not_qualified as Hfresh. rewrite <- type_spec_keys in Hfresh.
  rewrite dict_set_fresh by exact Hfresh.
  unfold keys. rewrite map_app. f_equal. apply type_spec_keys.
Qed.

Lemma stripped_keys :
  map strip_species (map (qualified sp) (input_properties self) ++ [encode "data_size"]) =
    map name (input_properties self) ++ ["b'data_size"%string].
Proof.
  rewrite map_app, map_map. f_equal.
  apply map_ext_in. intros prop Hin. unfold qualified.
  apply strip_species_qualified; [exact plain_species|].
  rewrite Forall_forall in plain_properties.
  by apply plain_properties, list_elem_of_In.
Qed.

Lemma stripped_keys_distinct :
  NoDup (map name (input_properties self) ++ ["b'data_size"%string]).
Proof.
  apply NoDup_app. split; [exact distinct_properties|]. split; [|apply NoDup_singleton].
  intros k Hk Hd. apply list_elem_of_singleton in Hd as ->.
  apply list_elem_of_fmap in Hk as (prop & Heq & Hin).
  rewrite Forall_forall in plain_properties.
  apply plain_properties, plain_property_plain, plain_no_quote in Hin.
  rewrite <- Heq in Hin. vm_compute in Hin. discriminate Hin.
Qed.

End Keys.

(** What the loop makes of the keys. For a species and input properties
    with plain, distinct names, every batch delivered to the loop has the keys
    ["<species>/<property>"] of the input properties and the key
    ["data_size"]; before [transform_batch] is called each species-qualified
    key is replaced by the bare property name, the entry [data_size] gets the
    key [b'data_size], and the values stay in place. *)
Lemma batch_keys_without_species (self : Transformations) (sp : str)
    (element batch_dict : dict bytes ndarray) :
  plain sp = true ->
  Forall (fun prop => plain_property (name prop) = true) (input_properties self) ->
  NoDup (map name (input_properties self)) ->
  deliver (batch_signature self sp) element = Ok batch_dict ->
  (forall prop, In prop (input_properties self) ->
     strip_species (encode (join_path sp (name prop))) = name prop) /\
  keys batch_dict =
    map (fun prop => encode (join_path sp (name prop))) (input_properties self) ++
    [encode "data_size"] /\
  keys (batch_dict_wo_species batch_dict) =
    map name (input_properties self) ++ ["b'data_size"%string] /\
  map snd (batch_dict_wo_species batch_dict) = map snd batch_dict.
Proof.
  intros Hsp Hprops Hnd Hd.
  assert (Hkeys : keys batch_dict =
            map (qualified sp) (input_properties self) ++ [encode "data_size"]).
  { rewrite (deliver_keys_signature _ _ _ Hd). by apply batch_signature_keys. }
  assert (Hwo : batch_dict_wo_species batch_dict =
            map (fun kv => (strip_species (fst kv), snd kv)) batch_dict).
  { unfold batch_dict_wo_species.
    rewrite (fold_dict_set _ (fun kv => (strip_species (fst kv), snd kv))).
    - reflexivity.
    - by intros d [k v].
    - cbn [keys map app fst].
      rewrite <- (map_map fst strip_species). fold (keys batch_dict).
      rewrite Hkeys, stripped_keys by assumption. by apply stripped_keys_distinct. }
  split; [|split; [exact Hkeys|split]].
  - intros prop Hin. apply strip_species_qualified; [exact Hsp|].
    rewrite Forall_forall in Hprops. by apply Hprops, list_elem_of_In.
  - rewrite Hwo. unfold keys at 1. rewrite map_map. cbn [fst].
    rewrite <- (map_map fst strip_species). fold (keys batch_dict).
    rewrite Hkeys. by apply stripped_keys.
  - rewrite Hwo, map_map. reflexivity.
Qed.

Lemma batch_keys_without_species_witness :
  keys (batch_dict_wo_species (Demo.batch 2 ∅)) = ["Velocity"; "b'data_size"]%string /\
  map snd (batch_dict_wo_species (Demo.batch 2 ∅)) = map snd (Demo.batch 2 ∅).
Proof.
  destruct (batch_keys_without_species Demo.momentum "Na" (Demo.batch 2 ∅) (Demo.batch 2 ∅))
    as (_ & _ & Hk & Hv).
  - reflexivity.
  - repeat constructor.
  - repeat constructor; set_solver.
  - vm_compute. reflexivity.
  - split; [exact Hk|exact Hv].
Defined.

(** ** A run after a run *)

Lemma check_existence_insert (db : Database) (p q : str) (ds : dataset) :
  check_existence db q = true -> check_existence (<[p := ds]> db) q = true.
Proof.
  unfold check_existence, Database in *. intros H. apply bool_decide_eq_true in H.
  apply bool_decide_eq_true. destruct (decide (p = q)) as [->|Hne].
  - rewrite lookup_insert_eq. by eexists.
  - by rewrite lookup_insert_ne.
Qed.

Lemma check_existence_insert_eq (db : Database) (p : str) (ds : dataset) :
  check_existence (<[p := ds]> db) p = true.
Proof.
  unfold check_existence, Database in *. apply bool_decide_eq_true.
  rewrite lookup_insert_eq. by eexists.
Qed.

Lemma add_dataset_grows (structure : dict str shape3) (db db' : Database) :
  add_dataset db structure = Ok db' ->
  stored_in db db' /\ Forall (fun p => check_existence db' p = true) (keys structure).
Proof.
  revert db. induction structure as [|[path sh] structure IH]; intros db H.
  - injection H as <-. split; [by intros p|constructor].
  - cbn [add_dataset] in H. destruct (check_existence db path); [discriminate H|].
    apply IH in H as [Hle Hall]. split.
    + intros p Hp. by apply Hle, check_existence_insert.
    + constructor; [|exact Hall]. apply Hle, check_existence_insert_eq.
Qed.

Lemma resize_dataset_grows (structure : dict str shape3) (db db' : Database) :
  resize_dataset db structure = Ok db' -> stored_in db db'.
Proof.
  revert db. induction structure as [|[path [[p a] d]] structure IH]; intros db H.
  - injection H as <-. by intros p.
  - cbn [resize_dataset] in H. destruct (db !! path) as [ds|]; [|discriminate H].
    destruct (grow ds a) as [ds'|e]; [|discriminate H].
    apply IH in H. intros q Hq. by apply H, check_existence_insert.
Qed.

Lemma write_block_grows (start_idx : Z) (db : Database) (b : block) :
  stored_in db (write_block start_idx db b).
Proof.
  unfold write_block. destruct (db !! _); [|by intros p].
  intros p Hp. by apply check_existence_insert.
Qed.

Lemma add_data_grows (db : Database) (chunk : TrajectoryChunkData) (start_idx : Z) :
  stored_in db (add_data db chunk start_idx).
Proof.
  unfold add_data. generalize (blocks chunk). intros l. revert db.
  induction l as [|b l IH]; intros db; [by intros p|].
  cbn [fold_left]. intros p Hp. by apply IH, write_block_grows.
Qed.

Lemma save_output_grows (data : ndarray) (index : Z) (ds : dict str data_spec) (s : state) :
  stored_in (database s) (database (snd (_save_output data index ds s))).
Proof.
  destruct (build_chunk data ds) as [chunk|e] eqn:Hc.
  2:{ rewrite (save_output_no_chunk _ _ _ _ _ Hc). by intros p. }
  destruct (pending s) as [|[e|] rest] eqn:Hp.
  - rewrite (save_output_first_attempt _ _ _ _ _ Hc) by (by rewrite Hp).
    apply add_data_grows.
  - assert (He : e = OSError \/ e <> OSError)
      by (destruct e; first [left; reflexivity | right; discriminate]).
    destruct He as [->|Hne].
    + rewrite (save_output_after_OSError _ _ _ _ _ _ Hc Hp).
      destruct rest as [|[e|] rest']; first [apply add_data_grows | by intros p].
    + rewrite (save_output_other_error _ _ _ _ _ _ _ Hc Hp Hne). by intros p.
  - rewrite (save_output_first_attempt _ _ _ _ _ Hc) by (by rewrite Hp).
    apply add_data_grows.
Qed.

Lemma batch_loop_grows (self : Transformations) (signature : dict bytes TensorSpec)
    (ods : dict str data_spec) (data_set : list (Z * (Database -> dict bytes ndarray)))
    (s : state) :
  stored_in (database s) (database (snd (batch_loop self signature ods data_set s))).
Proof.
  revert s. induction data_set as [|[index pull] data_set IH]; intros s; [by intros p|].
  rewrite batch_loop_cons.
  destruct (deliver signature (pull (database s))) as [bd|e]; [|by intros p].
  pose proof (save_output_grows (transform_batch self (batch_dict_wo_species bd))
                (index * batch_size s) ods s) as Hs.
  destruct (_save_output _ _ ods s) as [[[]|e] s1]; cbn [snd] in *; [|exact Hs].
  intros p Hp. by apply IH, Hs.
Qed.

Lemma prepare_monitors_database (self : Transformations) (data_path : list bytes) (s : state) :
  database (snd (_prepare_monitors self data_path s)) = database s.
Proof.
  unfold _prepare_monitors. run_M.
  destruct (get_batch_size self _ (database s)) as [[[bs nb] r]|e]; reflexivity.
Qed.

Lemma prepare_database_entry_grows (self : Transformations) (sp : str) (s : state) :
  stored_in (database s) (database (snd (_prepare_database_entry self sp s))) /\
  (forall ods, fst (_prepare_database_entry self sp s) = Ok ods ->
     check_existence (database (snd (_prepare_database_entry self sp s)))
       (join_path sp (name (output_property self))) = true).
Proof.
  unfold _prepare_database_entry, _run_dataset_check. run_M.
  destruct (dict_get (species (experiment self)) sp) as [info|]; run_M.
  2:{ split; [by intros p|]. intros ods [=]. }
  destruct (check_existence (database s) _) eqn:Hex; run_M.
  - destruct (get_data_size (database s) _) as [old_shape|e]; run_M.
    2:{ split; [by intros p|]. intros ods [=]. }
    destruct (resize_dataset (database s) _) as [db'|e] eqn:Hr; run_M.
    + apply resize_dataset_grows in Hr. split; [exact Hr|]. intros _ _. by apply Hr.
    + split; [by intros p|]. intros ods [=].
  - destruct (add_dataset (database s) _) as [db'|e] eqn:Ha; run_M.
    + apply add_dataset_grows in Ha as [Hle Hall]. split; [exact Hle|]. intros _ _.
      by apply Forall_cons in Hall as [Hall _].
    + split; [by intros p|]. intros ods [=].
Qed.

Lemma transform_species_grows (self : Transformations) (sp : str) (s : state) :
  stored_in (database s) (database (snd (transform_species self sp s))) /\
  (fst (transform_species self sp s) = Ok tt ->
   os_path_join sp (name (output_property self)) = join_path sp (name (output_property self)) ->
   output_exists self (database (snd (transform_species self sp s))) sp = true).
Proof.
  rewrite transform_species_eq.
  destruct (output_exists self (database s) sp) eqn:Hex.
  { split; [by intros p|]. intros _ _. exact Hex. }
  destruct (prepare_database_entry_grows self sp s) as [Hle1 Hpath].
  destruct (_prepare_database_entry self sp s) as [[ods|e] s1]; cbn [fst snd] in *.
  2:{ split; [exact Hle1|]. intros [=]. }
  specialize (Hpath ods eq_refl).
  pose proof (prepare_monitors_database self (keys (type_spec self sp)) s1) as Hdb2.
  destruct (_prepare_monitors self _ s1) as [[[]|e] s2]; cbn [fst snd] in *.
  2:{ split; [by rewrite Hdb2|]. intros [=]. }
  destruct (data_manager s2) as [dm|]; cbn [fst snd].
  2:{ split; [by rewrite Hdb2|]. intros [=]. }
  pose proof (batch_loop_grows self (batch_signature self sp) ods
                (enumerate (batch_generator self dm)) s2) as Hle3.
  rewrite Hdb2 in Hle3. split.
  - intros p Hp. by apply Hle3, Hle1.
  - intros _ Heq. unfold output_exists. rewrite Heq. by apply Hle3.
Qed.

Lemma for_each_species_grows (self : Transformations) (spp : list str) (s : state) :
  stored_in (database s) (database (snd (for_each spp (transform_species self) s))) /\
  (fst (for_each spp (transform_species self) s) = Ok tt ->
   Forall (fun sp => os_path_join sp (name (output_property self))
                     = join_path sp (name (output_property self))) spp ->
   Forall (fun sp =>
             output_exists self
               (database (snd (for_each spp (transform_species self) s))) sp = true) spp).
Proof.
  revert s. induction spp as [|sp spp IH]; intros s.
  - split; [by intros p|]. intros _ _. constructor.
  - cbn [for_each]. unfold bind.
    destruct (transform_species_grows self sp s) as [Hle1 Hex1].
    destruct (transform_species self sp s) as [[[]|e] s1]; cbn [fst snd] in *.
    2:{ split; [exact Hle1|]. intros [=]. }
    destruct (IH s1) as [Hle2 Hex2]. split.
    + intros p Hp. by apply Hle2, Hle1.
    + intros Hok Hplain. apply Forall_cons in Hplain as [Hsp Hspp]. constructor.
      * apply Hle2. by apply Hex1.
      * by apply Hex2.
Qed.

(** X2. Idempotence of a completed run: when a run over species with plain
    names returns, the outputs of all of them exist, so the same run, made
    again, only logs: the store is as the first run left it and is called for
    no write. *)
Lemma second_run_writes_nothing (self : Transformations) (spp : list str) (s s1 : state) :
  Forall (fun sp => os_path_join sp (name (output_property self))
                    = join_path sp (name (output_property self))) spp ->
  run_transformation self (Some spp) s = (Ok tt, s1) ->
  run_transformation self (Some spp) s1 =
    (Ok tt, add_events (map (skip_log self) spp) s1) /\
  store_events (map (skip_log self) spp) = [].
Proof.
  intros Hplain Hrun. split; [|apply store_events_skip_logs].
  apply run_transformation_skip.
  destruct (for_each_species_grows self spp s) as [_ Hex].
  unfold run_transformation in Hrun. rewrite Hrun in Hex. by apply Hex.
Qed.

Lemma second_run_writes_nothing_witness :
  run_transformation Demo.momentum (Some ["Na"%string])
    (snd (run_transformation Demo.momentum (Some ["Na"%string]) Demo.empty_state)) =
    (Ok tt,
     add_events (map (skip_log Demo.momentum) ["Na"%string])
       (snd (run_transformation Demo.momentum (Some ["Na"%string]) Demo.empty_state))).
Proof.
  assert (E : fst (run_transformation Demo.momentum (Some ["Na"%string]) Demo.empty_state)
              = Ok tt) by (vm_compute; reflexivity).
  destruct (run_transformation Demo.momentum (Some ["Na"%string]) Demo.empty_state)
    as [r s1] eqn:Hrun.
  cbn [fst snd] in *. subst r.
  destruct (second_run_writes_nothing Demo.momentum ["Na"%string] Demo.empty_state s1)
    as [H _]; [repeat constructor | exact Hrun | exact H].
Defined.

(** The run of the small experiment on an empty store: three batches,
    written at configurations 0, 2 and 4; the run after it writes nothing. *)
Example momentum_run :
  fst (run_transformation Demo.momentum None Demo.empty_state) = Ok tt /\
  successful_writes (trace (snd (run_transformation Demo.momentum None Demo.empty_state))) =
    [0; 2; 4] /\
  successful_writes
    (trace (snd (run_transformation Demo.momentum None
                   (snd (run_transformation Demo.momentum None Demo.empty_state))))) =
    [0; 2; 4].
Proof. vm_compute. auto. Qed.


(** * Further properties *)

(** ** The resolver *)

Lemma switcher_lookup (argument t : str) :
  switcher_transformations !! argument = Some t ->
  In argument (tl resolvable_names).
Proof.
  unfold switcher_transformations. intros H.
  apply elem_of_list_to_map_2 in H.
  repeat (apply elem_of_cons in H as [H|H];
          [injection H as -> _; cbn; tauto|]).
  by apply elem_of_nil in H.
Qed.

(** X3. [_string_to_function] reads the store and changes nothing; it returns
    a transformation exactly for the seven names it knows, and for every
    name but ["Unwrapped_Positions"] the answer does not depend on the
    store. *)
Theorem string_to_function_resolvable (argument : str) (s : state) :
  snd (_string_to_function argument s) = s /\
  ((exists t, fst (_string_to_function argument s) = Ok t) <-> In argument resolvable_names) /\
  (forall s' : state, argument <> "Unwrapped_Positions"%string ->
     fst (_string_to_function argument s') = fst (_string_to_function argument s)).
Proof.
  destruct (String.eqb_spec argument "Unwrapped_Positions") as [->|Hne].
  - rewrite string_to_function_unwrapped. cbn [fst snd].
    split; [reflexivity|]. split; [|by intros s' []].
    split; [intros _; by left | intros _; by eexists].
  - rewrite string_to_function_table by exact Hne. cbn [fst snd].
    split; [reflexivity|]. split.
    + split.
      * intros [t Ht]. right.
        destruct (switcher_transformations !! argument) as [t'|] eqn:Hl; [|discriminate Ht].
        by apply switcher_lookup in Hl.
      * intros [Heq|Hin]; [by destruct Hne|].
        cbn in Hin.
        repeat (destruct Hin as [<-|Hin]; [by eexists|]). destruct Hin.
    + intros s' _. by rewrite string_to_function_table by exact Hne.
Qed.


(** ** [_prepare_database_entry] *)

(** X4. For a species of the experiment whose output path holds no dataset,
    [_prepare_database_entry] allocates the dataset with the shape
    [(n_particles, number_of_configurations, n_dims)] and returns the data
    structure of that path; [offset] is left as it was (it is not set back
    to 0). *)
Theorem prepare_database_entry_new (self : Transformations) (sp : str) (s : state)
    (info : SpeciesInfo) :
  dict_get (species (experiment self)) sp = Some info ->
  check_existence (database s) (join_path sp (name (output_property self))) = false ->
  _prepare_database_entry self sp s =
    (Ok (output_data_structure self sp info),
     set_database
       (<[join_path sp (name (output_property self)) :=
            {| ds_shape := output_shape self info; ds_written := [] |}]> (database s))
       (add_events
          [Add_dataset [(join_path sp (name (output_property self)), output_shape self info)]]
          s)) /\
  offset (snd (_prepare_database_entry self sp s)) = offset s.
Proof.
  intros Hsp Hex. rewrite (prepare_database_entry_fresh self sp s info Hsp Hex).
  split; reflexivity.
Qed.

Lemma prepare_database_entry_new_witness :
  fst (_prepare_database_entry Demo.momentum "Na" Demo.empty_state) =
    Ok (output_data_structure Demo.momentum "Na" Demo.Na) /\
  offset (snd (_prepare_database_entry Demo.momentum "Na" Demo.empty_state)) = 0.
Proof.
  destruct (prepare_database_entry_new Demo.momentum "Na" Demo.empty_state Demo.Na)
    as [H Ho]; [reflexivity | reflexivity |].
  split; [by rewrite H | exact Ho].
Defined.

(** X5. [_prepare_database_entry] raises [KeyError] for a species that the
    experiment does not have, before it touches the store. For a species of
    the experiment it returns when the output path holds no dataset, and
    when it holds one whose first component of the shape is no more than the
    number of configurations; it raises when the resize would leave the
    dataset with a length below 0. Whenever it returns, the result is the
    data structure of the output path and the dataset exists afterwards. *)
Theorem prepare_database_entry_outcome (self : Transformations) (sp : str) (s : state) :
  match dict_get (species (experiment self)) sp with
  | None => _prepare_database_entry self sp s = (Raise (KeyError sp), s)
  | Some info =>
      (forall ods, fst (_prepare_database_entry self sp s) = Ok ods ->
         ods = output_data_structure self sp info /\
         check_existence (database (snd (_prepare_database_entry self sp s)))
           (join_path sp (name (output_property self))) = true) /\
      (check_existence (database s) (join_path sp (name (output_property self))) = false ->
       fst (_prepare_database_entry self sp s) = Ok (output_data_structure self sp info)) /\
      (forall (ds : dataset) (p c d : Z),
         database s !! join_path sp (name (output_property self)) = Some ds ->
         ds_shape ds = (p, c, d) ->
         (p <= number_of_configurations (experiment self) ->
          fst (_prepare_database_entry self sp s) = Ok (output_data_structure self sp info)) /\
         (0 <= c -> c + (number_of_configurations (experiment self) - p) < 0 ->
          exists e, fst (_prepare_database_entry self sp s) = Raise e))
  end.
Proof.
  destruct (dict_get (species (experiment self)) sp) as [info|] eqn:Hsp.
  2:{ unfold _prepare_database_entry, _run_dataset_check. run_M. rewrite Hsp. reflexivity. }
  assert (Hexisting : forall (ds : dataset) (p c d : Z),
            database s !! join_path sp (name (output_property self)) = Some ds ->
            ds_shape ds = (p, c, d) ->
            (p <= number_of_configurations (experiment self) ->
             fst (_prepare_database_entry self sp s) = Ok (output_data_structure self sp info) /\
             check_existence (database (snd (_prepare_database_entry self sp s)))
               (join_path sp (name (output_property self))) = true) /\
            (number_of_configurations (experiment self) < p ->
             exists e, fst (_prepare_database_entry self sp s) = Raise e)).
  { intros ds p c d Hds Hshape.
    unfold _prepare_database_entry, _run_dataset_check. run_M. rewrite Hsp. run_M.
    unfold check_existence, get_data_size. rewrite Hds.
    rewrite bool_decide_eq_true_2 by (by eexists). run_M.
    cbn [resize_dataset]. rewrite Hds. unfold grow. rewrite Hshape. cbn [fst].
    destruct (Z.ltb_spec (number_of_configurations (experiment self) - p) 0) as [Hneg|Hpos];
      run_M.
    - split; [intros ?; lia | intros _; by eexists].
    - split; [|intros ?; lia]. intros _. split; [reflexivity|].
      apply bool_decide_eq_true. unfold Database. rewrite lookup_insert_eq. by eexists. }
  split; [|split].
  - intros ods Hods.
    destruct (check_existence (database s) (join_path sp (name (output_property self))))
      eqn:Hex.
    + pose proof Hex as Hds. apply check_existence_spec in Hds as [ds Hds].
      destruct (ds_shape ds) as [[p c] d] eqn:Hshape.
      destruct (Hexisting ds p c d Hds Hshape) as [Hle Hgt].
      destruct (Z.le_gt_cases p (number_of_configurations (experiment self))) as [H|H].
      * destruct (Hle H) as [Hok Hthere]. rewrite Hok in Hods. by injection Hods as <-.
      * destruct (Hgt H) as [e He]. rewrite He in Hods. discriminate Hods.
    + rewrite (prepare_database_entry_fresh self sp s info Hsp Hex) in Hods |- *.
      injection Hods as <-. split; [reflexivity|]. apply check_existence_insert_eq.
  - intros Hex. by rewrite (prepare_database_entry_fresh self sp s info Hsp Hex).
  - intros ds p c d Hds Hshape. destruct (Hexisting ds p c d Hds Hshape) as [Hle Hgt].
    split; [intros H; by apply Hle | intros Hc H; apply Hgt; lia].
Qed.


(** ** [_save_output]: malformed input and other errors *)

Lemma split_cons_length (sep : ascii) (s : str) :
  (length (split sep s) = 1 \/ contains sep s = true)%nat /\
  (contains sep s = true -> (2 <= length (split sep s))%nat).
Proof.
  induction s as [|c s [IH1 IH2]]; [cbn; split; [by left | discriminate]|].
  cbn [split contains]. destruct (Ascii.eqb c sep); cbn [orb].
  - split; [by right|]. intros _. cbn.
    pose proof (split_not_nil sep s). destruct (split sep s); [done | cbn; lia].
  - destruct (split sep s) as [|h t] eqn:Hs; [by apply split_not_nil in Hs|].
    cbn [length] in *. split; [destruct IH1 as [IH1|IH1]; [left; lia | by right]|].
    exact IH2.
Qed.

Lemma index_m2_split (key : str) :
  (exists sp, index_m2 (split "/" key) = Ok sp) <-> contains "/" key = true.
Proof.
  destruct (split_cons_length "/" key) as [H1 H2].
  unfold index_m2. rewrite <- (length_rev (split "/" key)) in H1, H2.
  destruct (rev (split "/" key)) as [|x [|y l]]; cbn [length] in *.
  - split; [intros [sp [=]] | intros H; apply H2 in H; lia].
  - split; [intros [sp [=]] | intros H; apply H2 in H; lia].
  - split; [intros _; destruct H1 as [H1|H1]; [lia | exact H1] | intros _; by eexists].
Qed.

Lemma index_m1_split (key : str) : exists prop, index_m1 (split "/" key) = Ok prop.
Proof.
  unfold index_m1. pose proof (split_not_nil "/" key) as H.
  destruct (rev (split "/" key)) as [|x l] eqn:Hr; [|by eexists].
  apply (f_equal (@rev str)) in Hr. rewrite rev_involutive in Hr. by destruct H.
Qed.

Lemma index_m2_error {A} (l : list A) (e : exn) : index_m2 l = Raise e -> e = IndexError.
Proof. unfold index_m2. destruct (rev l) as [|x [|y r]]; congruence. Qed.

Lemma index_1_error {A} (l : list A) (e : exn) : index_1 l = Raise e -> e = IndexError.
Proof. unfold index_1. destruct l as [|x [|y r]]; congruence. Qed.

Lemma build_chunk_cons (data : ndarray) (key : str) (val : data_spec)
    (rest : dict str data_spec) (sp prop : str) (np : Z) :
  index_m1 (split "/" key) = Ok prop ->
  index_m2 (split "/" key) = Ok sp ->
  number_of_particles val = Ok np ->
  build_chunk data ((key, val) :: rest) =
    match shape (expand_particle_axis data) with
    | [p; n; d] =>
        if ((Z.of_nat p =? np) && (Z.of_nat d =? Z.of_nat (length (columns val))))%bool
        then Ok (single_chunk sp prop np (Z.of_nat (length (columns val))) (Z.of_nat n)
                   (swapaxes01 (expand_particle_axis data)))
        else Raise (ValueError "could not broadcast input array")
    | _ :: _ :: _ => Raise (ValueError "could not broadcast input array")
    | _ => Raise IndexError
    end.
Proof.
  intros Hprop Hsp Hnp. unfold build_chunk. cbn [index_0 rbind].
  rewrite Hprop, Hsp, Hnp. cbn [rbind].
  destruct (shape (expand_particle_axis data)) as [|p [|n [|d l]]] eqn:Hsh;
    cbn [index_1 rbind]; [reflexivity | reflexivity | |].
  - rewrite chunk_add_data_single. cbn [swapaxes01 shape]. rewrite Hsh. reflexivity.
  - rewrite chunk_add_data_single. cbn [swapaxes01 shape]. rewrite Hsh. cbn [swap01].
    destruct l; [|reflexivity].
    rewrite Z.leb_refl, andb_true_r. reflexivity.
Qed.

(** X6. What [_save_output] needs to build its chunk. An empty data
    structure, a first key without a slash and data of rank below 2 raise
    [IndexError], a number of particles that is given neither as [length]
    nor as a list of indices raises [TypeError]; data of rank 3 (after the
    particle axis is added) with the particles of the species and the
    dimensions of the columns are built into a chunk of one block, and data
    of rank 3 with other particles or dimensions (an axis of length 1 aside)
    are rejected by the chunk. Whatever the failure, it comes before any
    attempt to write: the state is left as it was. *)
Theorem save_output_malformed (data : ndarray) (index : Z) (ds : dict str data_spec)
    (s : state) :
  (forall e, build_chunk data ds = Raise e -> _save_output data index ds s = (Raise e, s)) /\
  (forall chunk, build_chunk data ds = Ok chunk ->
     exists key val rest,
       ds = (key, val) :: rest /\
       contains "/" key = true /\
       (is_Some (length_ val) \/ exists l, indices val = Some (IndexList l)) /\
       (2 <= ndim data)%nat) /\
  (ds = [] -> build_chunk data ds = Raise IndexError) /\
  (forall key val rest, ds = (key, val) :: rest ->
     (contains "/" key = false -> build_chunk data ds = Raise IndexError) /\
     (contains "/" key = true ->
      length_ val = None -> (forall l, indices val <> Some (IndexList l)) ->
      build_chunk data ds = Raise (TypeError "Could not determine number of particles")) /\
     (contains "/" key = true ->
      forall np, number_of_particles val = Ok np ->
        ((ndim data < 2)%nat -> build_chunk data ds = Raise IndexError) /\
        (forall p n d : nat, shape (expand_particle_axis data) = [p; n; d] ->
           (Z.of_nat p = np -> d = length (columns val) ->
            exists sp prop,
              index_m2 (split "/" key) = Ok sp /\
              index_m1 (split "/" key) = Ok prop /\
              build_chunk data ds =
                Ok (single_chunk sp prop np (Z.of_nat d) (Z.of_nat n)
                      (swapaxes01 (expand_particle_axis data)))) /\
           ((Z.of_nat p <> np /\ p <> 1%nat) \/ (d <> length (columns val) /\ d <> 1%nat) ->
            exists e, build_chunk data ds = Raise e)))).
Proof.
  split; [intros e He; by apply save_output_no_chunk|]. split; [|split; [by intros ->|]].
  - intros chunk Hc. apply build_chunk_inversion in Hc
      as (key & val & rest & sp & prop & p & n & d & -> & _ & Hsp & Hnp & _ & Hsh & _).
    exists key, val, rest. split; [reflexivity|].
    split; [apply index_m2_split; by eexists|]. split.
    + unfold number_of_particles in Hnp.
      destruct (length_ val) as [np|]; [left; by eexists|].
      destruct (indices val) as [[|l]|]; try discriminate Hnp. right. by eexists.
    + unfold expand_particle_axis, ndim in *.
      destruct (shape data) as [|a [|b l]] eqn:Hd; cbn in Hsh; rewrite ?Hd in Hsh;
        cbn in Hsh; first [discriminate Hsh | cbn; lia].
  - intros key val rest ->. destruct (index_m1_split key) as [prop Hprop].
    split; [|split].
    + intros Hno. unfold build_chunk. cbn [index_0 rbind]. rewrite Hprop. cbn [rbind].
      destruct (index_m2 (split "/" key)) as [sp|e] eqn:Hsp.
      * assert (contains "/" key = true) by (apply index_m2_split; by eexists). congruence.
      * apply index_m2_error in Hsp as ->. reflexivity.
    + intros Hkey Hlen Hind. apply index_m2_split in Hkey as [sp Hsp].
      unfold build_chunk. cbn [index_0 rbind]. rewrite Hprop, Hsp. cbn [rbind].
      unfold number_of_particles. rewrite Hlen.
      destruct (indices val) as [[|l]|]; try reflexivity. by destruct (Hind l).
    + intros Hkey np Hnp. apply index_m2_split in Hkey as [sp Hsp].
      rewrite (build_chunk_cons data key val rest sp prop np Hprop Hsp Hnp). split.
      * intros Hrank. unfold expand_particle_axis, ndim in *.
        destruct (shape data) as [|a [|b l]] eqn:Hd; cbn in Hrank; try lia;
          cbn; rewrite Hd; reflexivity.
      * intros p n d Hsh. rewrite Hsh. split.
        -- intros Hp ->. exists sp, prop. split; [exact Hsp|]. split; [exact Hprop|].
           by rewrite Hp, !Z.eqb_refl.
        -- intros [[Hp _]|[Hd _]].
           ++ destruct (Z.eqb_spec (Z.of_nat p) np); [done | by eexists].
           ++ destruct (Z.eqb_spec (Z.of_nat d) (Z.of_nat (length (columns val)))) as [E|];
                [apply Nat2Z.inj in E; done|].
              rewrite andb_false_r. by eexists.
Qed.

(** X7. Only [OSError] is tried again: when the first attempt to write
    succeeds, or raises another exception, [_save_output] makes this one
    attempt, does not sleep, and returns or raises accordingly. *)
Theorem save_output_single_attempt (data : ndarray) (index : Z) (ds : dict str data_spec)
    (chunk : TrajectoryChunkData) (s : state) :
  build_chunk data ds = Ok chunk ->
  hd None (pending s) <> Some OSError ->
  fst (_save_output data index ds s) =
    match hd None (pending s) with
    | None => Ok tt
    | Some e => Raise e
    end /\
  trace (snd (_save_output data index ds s)) =
    trace s ++ [Add_data chunk (index + offset s) (hd None (pending s))] /\
  pending (snd (_save_output data index ds s)) = tl (pending s) /\
  database (snd (_save_output data index ds s)) =
    match hd None (pending s) with
    | None => add_data (database s) chunk (index + offset s)
    | Some _ => database s
    end.
Proof.
  intros Hc Hne. destruct (pending s) as [|[e|] rest] eqn:Hp; cbn [hd tl] in *.
  - rewrite (save_output_first_attempt _ _ _ _ _ Hc) by (by rewrite Hp).
    rewrite Hp. auto.
  - assert (He : e <> OSError) by congruence.
    rewrite (save_output_other_error _ _ _ _ _ _ _ Hc Hp He). auto.
  - rewrite (save_output_first_attempt _ _ _ _ _ Hc) by (by rewrite Hp).
    rewrite Hp. auto.
Qed.

Lemma save_output_single_attempt_witness :
  fst (_save_output (zeros [1; 2; 3]%nat) 4 Na_Momentum_structure
         (set_pending [Some (KeyError "closed")] Demo.partial_state)) =
    Raise (KeyError "closed") /\
  trace (snd (_save_output (zeros [1; 2; 3]%nat) 4 Na_Momentum_structure
                (set_pending [Some (KeyError "closed")] Demo.partial_state))) =
    [Add_data (Na_Momentum_chunk (zeros [1; 2; 3]%nat) 2) 4 (Some (KeyError "closed"))].
Proof.
  destruct (save_output_single_attempt (zeros [1; 2; 3]%nat) 4 Na_Momentum_structure
              (Na_Momentum_chunk (zeros [1; 2; 3]%nat) 2)
              (set_pending [Some (KeyError "closed")] Demo.partial_state))
    as (Hr & Ht & _); [reflexivity | discriminate |].
  split; [exact Hr | exact Ht].
Defined.


(** ** A prepared dataset and the chunk written into it *)

Lemma split_join_path (sp prop : str) :
  contains "/" sp = false -> contains "/" prop = false ->
  split "/" (join_path sp prop) = [sp; prop].
Proof.
  intros Hsp Hprop. unfold join_path.
  induction sp as [|c sp IH].
  - simpl_append. cbn [split]. rewrite Ascii.eqb_refl. by rewrite split_no_sep.
  - cbn [contains] in Hsp. apply orb_false_elim in Hsp as [Hc Hsp].
    simpl_append. cbn [split]. rewrite Hc, IH by exact Hsp. reflexivity.
Qed.

(** X8. The data structure that [_prepare_database_entry] returns leads
    [_save_output] back to the dataset it allocated: for a species and an
    output property without a slash in their names, a result with the
    particles of the species and the dimensions of the output property is
    built into a chunk of that species and property, and a write within the
    configurations of the experiment that succeeds lands in the new dataset,
    at [index + offset]. *)
Theorem prepared_output_is_written (self : Transformations) (sp : str) (s : state)
    (info : SpeciesInfo) (data : ndarray) (index : Z) (p n d : nat) :
  contains "/" sp = false ->
  contains "/" (name (output_property self)) = false ->
  dict_get (species (experiment self)) sp = Some info ->
  check_existence (database s) (join_path sp (name (output_property self))) = false ->
  shape (expand_particle_axis data) = [p; n; d] ->
  Z.of_nat p = n_particles info ->
  Z.of_nat d = n_dims (output_property self) ->
  0 <= index + offset s ->
  index + offset s + Z.of_nat n <= number_of_configurations (experiment self) ->
  hd None (pending s) = None ->
  fst (_save_output data index (output_data_structure self sp info)
         (snd (_prepare_database_entry self sp s))) = Ok tt /\
  database (snd (_save_output data index (output_data_structure self sp info)
                   (snd (_prepare_database_entry self sp s))))
    !! join_path sp (name (output_property self)) =
    Some {| ds_shape := output_shape self info;
            ds_written := [(index + offset s, swapaxes01 (expand_particle_axis data))] |}.
Proof.
  intros Hsp Hprop Hinfo Hex Hsh Hparticles Hdims _ _ Hp.
  rewrite (prepare_database_entry_fresh self sp s info Hinfo Hex). cbn [snd].
  assert (Hcols : length (columns {| indices := Some SliceAll;
                                     columns := range (n_dims (output_property self));
                                     length_ := Some (n_particles info) |}) = d).
  { cbn [columns]. rewrite length_range, <- Hdims. apply Nat2Z.id. }
  assert (Hc : build_chunk data (output_data_structure self sp info) =
               Ok (single_chunk sp (name (output_property self)) (n_particles info)
                     (Z.of_nat d) (Z.of_nat n) (swapaxes01 (expand_particle_axis data)))).
  { unfold output_data_structure.
    rewrite (build_chunk_cons data _ _ [] sp (name (output_property self))
               (n_particles info)).
    - rewrite Hsh, Hcols, Hparticles, !Z.eqb_refl. reflexivity.
    - by rewrite split_join_path.
    - by rewrite split_join_path.
    - reflexivity. }
  rewrite (save_output_first_attempt _ _ _ _ _ Hc) by exact Hp.
  cbn [fst snd]. split; [reflexivity|].
  unfold written, add_events, set_pending, set_database. cbn [database offset].
  unfold add_data, single_chunk. cbn [blocks app fold_left].
  unfold write_block. cbn [blk_species blk_property blk_config_idx blk_data].
  unfold Database in *. rewrite lookup_insert_eq. rewrite lookup_insert_eq.
  cbn [ds_shape ds_written app]. rewrite Z.add_0_r. reflexivity.
Qed.

Lemma prepared_output_is_written_witness :
  database (snd (_save_output (zeros [1; 2; 3]%nat) 0
                   (output_data_structure Demo.momentum "Na" Demo.Na)
                   (snd (_prepare_database_entry Demo.momentum "Na" Demo.empty_state))))
    !! "Na/Momentum"%string =
    Some {| ds_shape := (1, 5, 3);
            ds_written := [(0, swapaxes01 (expand_particle_axis (zeros [1; 2; 3]%nat)))] |}.
Proof.
  apply (prepared_output_is_written Demo.momentum "Na" Demo.empty_state Demo.Na
           (zeros [1; 2; 3]%nat) 0 1 2 3); first [reflexivity | vm_compute; discriminate].
Defined.

(** ** What a run never does, and what a failed run leaves *)

Lemma resolver_events_app (t1 t2 : list event) :
  resolver_events (t1 ++ t2) = resolver_events t1 ++ resolver_events t2.
Proof. unfold resolver_events. apply List.filter_app. Qed.

Lemma save_output_no_resolver (data : ndarray) (index : Z) (ds : dict str data_spec)
    (s : state) :
  resolver_events (trace (snd (_save_output data index ds s))) = resolver_events (trace s).
Proof.
  destruct (build_chunk data ds) as [chunk|e] eqn:Hc.
  2:{ by rewrite (save_output_no_chunk _ _ _ _ _ Hc). }
  destruct (pending s) as [|[e|] rest] eqn:Hp.
  - rewrite (save_output_first_attempt _ _ _ _ _ Hc) by (by rewrite Hp).
    cbn [snd written set_database add_events trace].
    by rewrite resolver_events_app, app_nil_r.
  - assert (He : e = OSError \/ e <> OSError)
      by (destruct e; first [left; reflexivity | right; discriminate]).
    destruct He as [->|Hne].
    + rewrite (save_output_after_OSError _ _ _ _ _ _ Hc Hp).
      destruct rest as [|[e|] rest']; cbn [snd written set_database add_events trace];
        by rewrite resolver_events_app, app_nil_r.
    + rewrite (save_output_other_error _ _ _ _ _ _ _ Hc Hp Hne).
      cbn [snd add_events trace]. by rewrite resolver_events_app, app_nil_r.
  - rewrite (save_output_first_attempt _ _ _ _ _ Hc) by (by rewrite Hp).
    cbn [snd written set_database add_events trace].
    by rewrite resolver_events_app, app_nil_r.
Qed.

Lemma batch_loop_no_resolver (self : Transformations) (signature : dict bytes TensorSpec)
    (ods : dict str data_spec) (data_set : list (Z * (Database -> dict bytes ndarray)))
    (s : state) :
  resolver_events (trace (snd (batch_loop self signature ods data_set s))) =
    resolver_events (trace s).
Proof.
  revert s. induction data_set as [|[index pull] data_set IH]; intros s; [reflexivity|].
  rewrite batch_loop_cons.
  destruct (deliver signature (pull (database s))) as [bd|e]; [|reflexivity].
  pose proof (save_output_no_resolver (transform_batch self (batch_dict_wo_species bd))
                (index * batch_size s) ods s) as Hs.
  destruct (_save_output _ _ ods s) as [[[]|e] s1]; cbn [snd] in *; [|exact Hs].
  by rewrite IH.
Qed.

Lemma prepare_database_entry_no_resolver (self : Transformations) (sp : str) (s : state) :
  resolver_events (trace (snd (_prepare_database_entry self sp s))) = resolver_events (trace s).
Proof.
  unfold _prepare_database_entry, _run_dataset_check. run_M.
  destruct (dict_get (species (experiment self)) sp) as [info|]; run_M; [|reflexivity].
  destruct (check_existence (database s) _); run_M.
  - destruct (get_data_size (database s) _) as [old_shape|e]; run_M; [|reflexivity].
    destruct (resize_dataset (database s) _) as [db'|e]; run_M;
      by rewrite resolver_events_app, app_nil_r.
  - destruct (add_dataset (database s) _) as [db'|e]; run_M;
      by rewrite resolver_events_app, app_nil_r.
Qed.

Lemma transform_species_no_resolver (self : Transformations) (sp : str) (s : state) :
  resolver_events (trace (snd (transform_species self sp s))) = resolver_events (trace s).
Proof.
  rewrite transform_species_eq.
  destruct (output_exists self (database s) sp).
  { cbn [snd add_events trace]. by rewrite resolver_events_app, app_nil_r. }
  pose proof (prepare_database_entry_no_resolver self sp s) as H1.
  destruct (_prepare_database_entry self sp s) as [[ods|e] s1]; cbn [snd] in *; [|exact H1].
  pose proof (prepare_monitors_effect self (keys (type_spec self sp)) s1) as H2.
  destruct (_prepare_monitors self _ s1) as [[[]|e] s2]; cbn [snd] in *;
    [|by rewrite H2].
  destruct (data_manager s2) as [dm|]; cbn [snd]; [|by rewrite H2].
  by rewrite batch_loop_no_resolver, H2.
Qed.

(** X9. [run_transformation] never enters the dependency resolver and hands
    no transformation to the experiment, whatever the store holds and however
    the run ends: missing input properties are not looked for. *)
Theorem run_transformation_never_resolves (self : Transformations)
    (species_arg : option (list str)) (s : state) :
  resolver_events (trace (snd (run_transformation self species_arg s))) =
    resolver_events (trace s).
Proof.
  unfold run_transformation.
  generalize (match species_arg with
              | Some l => l
              | None => keys (species (experiment self))
              end).
  intros spp. revert s. induction spp as [|sp spp IH]; intros s; [reflexivity|].
  cbn [for_each]. unfold bind.
  pose proof (transform_species_no_resolver self sp s) as H.
  destruct (transform_species self sp s) as [[[]|e] s1]; cbn [snd] in *; [|exact H].
  by rewrite IH.
Qed.

(** X10. Once [_prepare_database_entry] has allocated the output of a
    species, the dataset stays, however the rest of the species ends (the
    memory manager, a batch, the transformation or a write may raise): the
    output exists afterwards, so the next run skips the species and writes
    none of the configurations that are missing. *)
Theorem allocated_output_is_skipped (self : Transformations) (sp : str) (s : state) :
  os_path_join sp (name (output_property self)) = join_path sp (name (output_property self)) ->
  (exists ods, fst (_prepare_database_entry self sp s) = Ok ods) ->
  output_exists self (database (snd (transform_species self sp s))) sp = true /\
  transform_species self sp (snd (transform_species self sp s)) =
    (Ok tt, add_events [skip_log self sp] (snd (transform_species self sp s))).
Proof.
  intros Hpath [ods Hods].
  assert (Hex : output_exists self (database (snd (transform_species self sp s))) sp = true).
  { rewrite transform_species_eq.
    destruct (output_exists self (database s) sp) eqn:Hex; [exact Hex|].
    destruct (prepare_database_entry_grows self sp s) as [_ Hp].
    specialize (Hp ods Hods).
    destruct (_prepare_database_entry self sp s) as [[ods'|e] s1]; [|discriminate Hods].
    cbn [snd] in Hp.
    pose proof (prepare_monitors_database self (keys (type_spec self sp)) s1) as Hdb2.
    unfold output_exists. rewrite Hpath.
    destruct (_prepare_monitors self _ s1) as [[[]|e] s2]; cbn [snd] in *;
      [|by rewrite Hdb2].
    destruct (data_manager s2) as [dm|]; cbn [snd]; [|by rewrite Hdb2].
    apply batch_loop_grows. by rewrite Hdb2. }
  split; [exact Hex|]. by apply transform_species_skip.
Qed.

Lemma allocated_output_is_skipped_witness :
  fst (transform_species momentum_without_memory "Na" Demo.empty_state) =
    Raise (TypeError "no memory") /\
  transform_species momentum_without_memory "Na"
    (snd (transform_species momentum_without_memory "Na" Demo.empty_state)) =
    (Ok tt,
     add_events [skip_log momentum_without_memory "Na"]
       (snd (transform_species momentum_without_memory "Na" Demo.empty_state))).
Proof.
  split; [vm_compute; reflexivity|].
  apply (allocated_output_is_skipped momentum_without_memory "Na" Demo.empty_state).
  - reflexivity.
  - eexists. vm_compute. reflexivity.
Defined.


(** ** [FileProcessor]: columns and properties *)

Import FileProcessor.

Lemma dict_get_dict_set {V} (d : dict str V) (k k' : str) (v : V) :
  dict_get (dict_set d k v) k' = if String.eqb k k' then Some v else dict_get d k'.
Proof.
  induction d as [|[k0 v0] d IH]; cbn [dict_set dict_get].
  - reflexivity.
  - destruct (String.eqb_spec k0 k) as [->|Hne]; cbn [dict_get].
    + by destruct (String.eqb k k').
    + rewrite IH. destruct (String.eqb_spec k0 k') as [->|Hne'].
      * destruct (String.eqb_spec k k') as [->|_]; [by destruct Hne | reflexivity].
      * reflexivity.
Qed.

Lemma dict_get_fold_columns (w : str) (l : list (Z * str)) (d0 : dict str Z) :
  dict_get (fold_left (fun d '(idx, variable) => dict_set d variable idx) l d0) w =
    fold_left (fun acc '(idx, variable) => if String.eqb variable w then Some idx else acc)
      l (dict_get d0 w).
Proof.
  revert d0. induction l as [|[i x] l IH]; intros d0; [reflexivity|].
  cbn [fold_left]. rewrite IH, dict_get_dict_set. reflexivity.
Qed.

Lemma enumerate_from_cons {A} (j : nat) (x : A) (l : list A) :
  enumerate_from j (x :: l) = (Z.of_nat j, x) :: enumerate_from (S j) l.
Proof. reflexivity. Qed.

Lemma last_column (w : str) (l : list str) :
  forall (j : nat) (acc : option Z),
    let r := fold_left (fun acc '(idx, variable) => if String.eqb variable w then Some idx else acc)
               (enumerate_from j l) acc in
    (r = acc /\ w ∉ l) \/
    (exists n : nat, r = Some (Z.of_nat (j + n)) /\ l !! n = Some w /\
                     forall m : nat, (n < m)%nat -> l !! m <> Some w).
Proof.
  induction l as [|x l IH]; intros j acc; cbn zeta.
  - left. split; [reflexivity | apply not_elem_of_nil].
  - rewrite enumerate_from_cons. cbn [fold_left].
    destruct (IH (S j) (if String.eqb x w then Some (Z.of_nat j) else acc)) as [[Hr Hw]|Hn];
      cbn zeta in *.
    + destruct (String.eqb_spec x w) as [->|Hne].
      * right. exists 0%nat. rewrite Hr, Nat.add_0_r. split; [reflexivity|].
        split; [reflexivity|]. intros [|m] Hm; [lia|]. cbn. intros Hl.
        apply Hw. by apply list_elem_of_lookup_2 in Hl.
      * left. split; [exact Hr|]. apply not_elem_of_cons. split; [congruence | exact Hw].
    + right. destruct Hn as (n & Hr & Hl & Hlast). exists (S n).
      split; [rewrite Hr; do 2 f_equal; lia|]. split; [exact Hl|].
      intros [|m] Hm; [lia|]. cbn. apply Hlast. lia.
Qed.

(** X11. [_get_column_properties] maps every word of the header that is left
    after [skip_words] words to the position of its last occurrence, counted
    from the first word that is left; so for [skip_words >= 0] the word at
    position [i + skip_words] of the header is recorded with column [i]. A
    word that is not left has no entry. *)
Theorem get_column_properties_columns (header_line : list str) (skip_words : Z) (w : str) :
  match dict_get (_get_column_properties header_line skip_words) w with
  | Some i =>
      exists n : nat,
        i = Z.of_nat n /\
        slice_from header_line skip_words !! n = Some w /\
        (forall m : nat, (n < m)%nat -> slice_from header_line skip_words !! m <> Some w) /\
        (0 <= skip_words -> header_line !! (Z.to_nat skip_words + n)%nat = Some w)
  | None => w ∉ slice_from header_line skip_words
  end.
Proof.
  unfold _get_column_properties. rewrite dict_get_fold_columns. cbn [dict_get].
  pose proof (last_column w (slice_from header_line skip_words) 0 None) as H.
  cbn zeta in H.
  change (enumerate_from 0 (slice_from header_line skip_words))
    with (enumerate (slice_from header_line skip_words)) in H.
  destruct H as [[Hr Hw]|(n & Hr & Hl & Hlast)]; rewrite Hr; [exact Hw|].
  exists n. split; [reflexivity|]. split; [exact Hl|]. split; [exact Hlast|].
  intros Hskip. unfold slice_from in Hl.
  destruct (Z.leb_spec 0 skip_words) as [_|?]; [|lia].
  by rewrite lookup_drop in Hl.
Qed.

Lemma replace_names_map (cdp : dict str Z) (l : list column) :
  replace_names cdp l = map (replace_name cdp) l.
Proof.
  unfold replace_names.
  enough (H : forall suf pre : list column,
             fold_left
               (fun (l : list column) '(idx, property_name) =>
                  match property_name with
                  | Name s =>
                      match dict_get cdp s with
                      | Some col => <[Z.to_nat idx := Index col]> l
                      | None => l
                      end
                  | Index _ => l
                  end)
               (enumerate_from (length pre) suf) (pre ++ suf) =
             pre ++ map (replace_name cdp) suf)
    by exact (H l []).
  induction suf as [|x suf IH]; intros pre; [reflexivity|].
  rewrite enumerate_from_cons. cbn [fold_left map].
  assert (Hstep : match x with
                  | Name s =>
                      match dict_get cdp s with
                      | Some col => <[Z.to_nat (Z.of_nat (length pre)) := Index col]> (pre ++ x :: suf)
                      | None => pre ++ x :: suf
                      end
                  | Index _ => pre ++ x :: suf
                  end = (pre ++ [replace_name cdp x]) ++ suf).
  { rewrite <- app_assoc. cbn [app]. destruct x as [s0|i]; cbn [replace_name]; [|reflexivity].
    destruct (dict_get cdp s0) as [col|]; [|reflexivity].
    rewrite Nat2Z.id. rewrite <- (Nat.add_0_r (length pre)). by rewrite insert_app_r. }
  rewrite Hstep.
  replace (S (length pre)) with (length (pre ++ [replace_name cdp x]))
    by (rewrite length_app; cbn; lia).
  rewrite IH. by rewrite <- app_assoc.
Qed.

Lemma dict_set_middle {V} (pre suf : dict str V) (k : str) (v v' : V) :
  k ∉ keys pre -> dict_set (pre ++ (k, v) :: suf) k v' = pre ++ (k, v') :: suf.
Proof.
  induction pre as [|[k0 v0] pre IH]; intros Hk.
  - cbn. by rewrite String.eqb_refl.
  - cbn [keys map fst] in Hk. apply not_elem_of_cons in Hk as [Hne Hk].
    cbn [app dict_set]. destruct (String.eqb_spec k0 k) as [->|_]; [by destruct Hne|].
    f_equal. by apply IH.
Qed.

Lemma update_lists_map {V} (g : V -> V) (d : dict str V) :
  NoDup (keys d) ->
  fold_left (fun acc '(label, v) => dict_set acc label (g v)) d d =
    map (fun kv => (fst kv, g (snd kv))) d.
Proof.
  intros Hnd.
  enough (H : forall suf pre pre' : dict str V,
             keys pre' = keys pre -> NoDup (keys (pre ++ suf)) ->
             fold_left (fun acc '(label, v) => dict_set acc label (g v)) suf (pre' ++ suf) =
             pre' ++ map (fun kv => (fst kv, g (snd kv))) suf)
    by exact (H d [] [] eq_refl Hnd).
  induction suf as [|[k v] suf IH]; intros pre pre' Hk Hn; [reflexivity|].
  cbn [fold_left map fst snd].
  assert (Hfresh : k ∉ keys pre').
  { rewrite Hk. unfold keys in Hn. rewrite map_app in Hn.
    apply NoDup_app in Hn as (_ & Hdisj & _). intros Hin. apply (Hdisj _ Hin). by left. }
  rewrite dict_set_middle by exact Hfresh.
  change (pre' ++ (k, g v) :: suf) with (pre' ++ [(k, g v)] ++ suf).
  rewrite app_assoc. rewrite (IH (pre ++ [(k, v)])).
  - by rewrite <- app_assoc.
  - unfold keys in *. rewrite !map_app, Hk. reflexivity.
  - by rewrite <- app_assoc.
Qed.

Lemma collect_filter {V} (P : V -> bool) (d : dict str V) :
  NoDup (keys d) ->
  fold_left (fun tp '(label, v) => if P v then dict_set tp label v else tp) d [] =
    List.filter (fun kv => P (snd kv)) d.
Proof.
  intros Hnd.
  enough (H : forall suf pre acc : dict str V,
             (forall k, k ∈ keys acc -> k ∈ keys pre) -> NoDup (keys (pre ++ suf)) ->
             fold_left (fun tp '(label, v) => if P v then dict_set tp label v else tp) suf acc =
             acc ++ List.filter (fun kv => P (snd kv)) suf)
    by exact (H d [] [] (fun k Hk => Hk) Hnd).
  induction suf as [|[k v] suf IH]; intros pre acc Hsub Hn.
  - cbn. by rewrite app_nil_r.
  - cbn [fold_left List.filter snd].
    assert (Hfresh : k ∉ keys acc).
    { intros Hin. apply Hsub in Hin. unfold keys in Hn. rewrite map_app in Hn.
      apply NoDup_app in Hn as (_ & Hdisj & _). apply (Hdisj _ Hin). by left. }
    assert (Hn' : NoDup (keys ((pre ++ [(k, v)]) ++ suf))) by (by rewrite <- app_assoc).
    destruct (P v).
    + rewrite dict_set_fresh by exact Hfresh.
      rewrite (IH (pre ++ [(k, v)])); [by rewrite <- app_assoc | | exact Hn'].
      intros k' Hk'. unfold keys in *. rewrite map_app in *.
      apply elem_of_app in Hk' as [Hk'|Hk']; apply elem_of_app; [left; by apply Hsub | by right].
    + apply (IH (pre ++ [(k, v)])); [|exact Hn'].
      intros k' Hk'. unfold keys in *. rewrite map_app. apply elem_of_app. left. by apply Hsub.
Qed.

Lemma extract_properties_eq (dcd : dict str (list column)) (cdp : dict str Z) :
  NoDup (keys dcd) ->
  _extract_properties dcd cdp =
    (List.filter (fun kv => forallb is_int (snd kv))
       (map (fun kv => (fst kv, map (replace_name cdp) (snd kv))) dcd),
     map (fun kv => (fst kv, map (replace_name cdp) (snd kv))) dcd).
Proof.
  intros Hnd. unfold _extract_properties.
  assert (H1' : fold_left
                 (fun d '(property_label, property_names) =>
                    dict_set d property_label (replace_names cdp property_names)) dcd dcd =
               fold_left
                 (fun d '(property_label, property_names) =>
                    dict_set d property_label (map (replace_name cdp) property_names)) dcd dcd).
  { clear. generalize dcd at 2 4. intros acc. revert acc.
    induction dcd as [|[k v] dcd IH]; intros acc; [reflexivity|].
    cbn [fold_left]. by rewrite replace_names_map, IH. }
  rewrite H1', (update_lists_map (map (replace_name cdp)) dcd Hnd).
  rewrite collect_filter; [reflexivity|].
  unfold keys. rewrite map_map. cbn [fst]. exact Hnd.
Qed.


Lemma dict_get_map_values {V W} (g : V -> W) (d : dict str V) (k : str) :
  dict_get (map (fun kv => (fst kv, g (snd kv))) d) k = g <$> dict_get d k.
Proof.
  induction d as [|[k0 v0] d IH]; [reflexivity|]. cbn [map dict_get fst snd].
  by destruct (String.eqb k0 k).
Qed.

Lemma dict_get_None_keys {V} (d : dict str V) (k : str) :
  k ∉ keys d -> dict_get d k = None.
Proof.
  induction d as [|[k0 v0] d IH]; [reflexivity|]. cbn [keys map fst dict_get].
  intros H. apply not_elem_of_cons in H as [Hne H].
  destruct (String.eqb_spec k0 k) as [->|_]; [by destruct Hne | by apply IH].
Qed.

Lemma filter_keys_subset {V} (P : str * V -> bool) (d : dict str V) (k : str) :
  k ∈ keys (List.filter P d) -> k ∈ keys d.
Proof.
  induction d as [|kv d IH]; [done|]. cbn [List.filter keys map].
  destruct (P kv); cbn [keys map]; intros H.
  - apply elem_of_cons in H as [->|H]; [by left | right; by apply IH].
  - right. by apply IH.
Qed.

Lemma dict_get_filter {V} (P : V -> bool) (d : dict str V) (k : str) :
  NoDup (keys d) ->
  dict_get (List.filter (fun kv => P (snd kv)) d) k =
    match dict_get d k with
    | Some v => if P v then Some v else None
    | None => None
    end.
Proof.
  induction d as [|[k0 v0] d IH]; [reflexivity|]. cbn [keys map fst]. intros Hnd.
  apply NoDup_cons in Hnd as [Hk0 Hnd]. cbn [List.filter snd dict_get].
  destruct (String.eqb_spec k0 k) as [->|Hne].
  - destruct (P v0); cbn [dict_get]; [by rewrite String.eqb_refl|].
    apply dict_get_None_keys. intros Hin. apply Hk0. by apply filter_keys_subset in Hin.
  - destruct (P v0); cbn [dict_get]; [|by apply IH].
    destruct (String.eqb_spec k0 k) as [?|_]; [done | by apply IH].
Qed.

Lemma is_int_replace_name (cdp : dict str Z) (names : list column) :
  forallb is_int (map (replace_name cdp) names) = forallb (known_column cdp) names.
Proof.
  induction names as [|c names IH]; [reflexivity|]. cbn [map forallb]. rewrite IH. f_equal.
  destruct c as [s|i]; cbn [replace_name known_column is_int]; [|reflexivity].
  by destruct (dict_get cdp s).
Qed.

Lemma replace_name_idempotent (cdp : dict str Z) (c : column) :
  replace_name cdp (replace_name cdp c) = replace_name cdp c.
Proof.
  destruct c as [s|i]; cbn [replace_name]; [|reflexivity].
  destruct (dict_get cdp s) eqn:H; cbn [replace_name]; [reflexivity | by rewrite H].
Qed.

Lemma keys_map_values {V W} (g : V -> W) (d : dict str V) :
  keys (map (fun kv => (fst kv, g (snd kv))) d) = keys d.
Proof. unfold keys. rewrite map_map. reflexivity. Qed.

(** X12. [_extract_properties] returns a label exactly when every entry of
    its list is an integer or a name that is a key of
    [column_dict_properties], and returns it with each such name replaced by
    its column. In the dictionary of the caller the names that are found are
    replaced in the lists of all labels, also of those that are not returned. *)
Theorem extract_properties_result (dcd : dict str (list column)) (cdp : dict str Z)
    (label : str) :
  NoDup (keys dcd) ->
  dict_get (fst (_extract_properties dcd cdp)) label =
    match dict_get dcd label with
    | Some names =>
        if forallb (known_column cdp) names then Some (map (replace_name cdp) names)
        else None
    | None => None
    end /\
  dict_get (snd (_extract_properties dcd cdp)) label =
    map (replace_name cdp) <$> dict_get dcd label /\
  keys (snd (_extract_properties dcd cdp)) = keys dcd.
Proof.
  intros Hnd. rewrite (extract_properties_eq dcd cdp Hnd). cbn [fst snd].
  split; [|split; [apply dict_get_map_values | apply keys_map_values]].
  rewrite (dict_get_filter (forallb is_int)) by (by rewrite keys_map_values).
  rewrite dict_get_map_values.
  destruct (dict_get dcd label) as [names|]; [|reflexivity]. cbn.
  by rewrite is_int_replace_name.
Qed.

Lemma extract_properties_result_witness :
  dict_get
    (fst (_extract_properties
            [("Positions", [Name "x"; Name "y"]); ("Velocities", [Name "vx"; Name "y"])]%string
            [("x", 1); ("y", 2)]%string))
    "Positions" = Some [Index 1; Index 2] /\
  dict_get
    (snd (_extract_properties
            [("Positions", [Name "x"; Name "y"]); ("Velocities", [Name "vx"; Name "y"])]%string
            [("x", 1); ("y", 2)]%string))
    "Velocities" = Some [Name "vx"; Index 2].
Proof.
  destruct (extract_properties_result
              [("Positions", [Name "x"; Name "y"]); ("Velocities", [Name "vx"; Name "y"])]%string
              [("x", 1); ("y", 2)]%string "Positions") as (H & _ & _);
    [apply (bool_decide_unpack _); vm_compute; exact I|].
  destruct (extract_properties_result
              [("Positions", [Name "x"; Name "y"]); ("Velocities", [Name "vx"; Name "y"])]%string
              [("x", 1); ("y", 2)]%string "Velocities") as (_ & H' & _);
    [apply (bool_decide_unpack _); vm_compute; exact I|].
  split; [exact H | exact H'].
Defined.

(** X13. [_extract_properties] is idempotent: called again on the dictionary
    that a call has left, it returns the same properties and changes
    nothing. *)
Theorem extract_properties_idempotent (dcd : dict str (list column)) (cdp : dict str Z) :
  NoDup (keys dcd) ->
  _extract_properties (snd (_extract_properties dcd cdp)) cdp = _extract_properties dcd cdp.
Proof.
  intros Hnd. rewrite (extract_properties_eq dcd cdp Hnd). cbn [snd].
  rewrite extract_properties_eq by (by rewrite keys_map_values).
  assert (H : map (fun kv => (fst kv, map (replace_name cdp) (snd kv)))
                (map (fun kv => (fst kv, map (replace_name cdp) (snd kv))) dcd) =
              map (fun kv : str * list column => (fst kv, map (replace_name cdp) (snd kv))) dcd).
  { rewrite map_map. apply map_ext. intros [k v]. cbn [fst snd]. f_equal.
    rewrite map_map. apply map_ext. intros c. apply replace_name_idempotent. }
  by rewrite H.
Qed.

Lemma extract_properties_idempotent_witness :
  _extract_properties
    (snd (_extract_properties
            [("Positions", [Name "x"; Name "y"]); ("Velocities", [Name "vx"; Name "y"])]%string
            [("x", 1); ("y", 2)]%string))
    [("x", 1); ("y", 2)]%string =
  _extract_properties
    [("Positions", [Name "x"; Name "y"]); ("Velocities", [Name "vx"; Name "y"])]%string
    [("x", 1); ("y", 2)]%string.
Proof.
  apply (extract_properties_idempotent
           [("Positions", [Name "x"; Name "y"]); ("Velocities", [Name "vx"; Name "y"])]%string
           [("x", 1); ("y", 2)]%string).
  apply (bool_decide_unpack _); vm_compute; exact I.
Defined.

Lemma column_of_word (header_line : list str) (w : str) :
  w ∈ header_line ->
  exists n : nat,
    dict_get (_get_column_properties header_line 0) w = Some (Z.of_nat n) /\
    header_line !! n = Some w.
Proof.
  intros Hw. unfold _get_column_properties. rewrite dict_get_fold_columns. cbn [dict_get].
  change (slice_from header_line 0) with header_line.
  pose proof (last_column w header_line 0 None) as H. cbn zeta in H.
  change (enumerate_from 0 header_line) with (enumerate header_line) in H.
  destruct H as [[_ Hn]|(n & Hr & Hl & _)]; [by destruct Hn|].
  exists n. by rewrite Hr.
Qed.

Lemma replace_names_of_header (header_line : list str) (names : list str) :
  Forall (fun w => w ∈ header_line) names ->
  exists cols : list nat,
    map (replace_name (_get_column_properties header_line 0)) (map Name names) =
      map (fun n => Index (Z.of_nat n)) cols /\
    Forall2 (fun w n => header_line !! n = Some w) names cols.
Proof.
  induction 1 as [|w names Hw Hnames (cols & Hmap & Hall)].
  - exists []. split; [reflexivity | constructor].
  - destruct (column_of_word header_line w Hw) as (n & Hn & Hl).
    exists (n :: cols). split; [|by constructor].
    cbn [map replace_name]. by rewrite Hn, Hmap.
Qed.

Lemma forallb_is_int_indices (cols : list nat) :
  forallb is_int (map (fun n => Index (Z.of_nat n)) cols) = true.
Proof. induction cols as [|n cols IH]; [reflexivity | exact IH]. Qed.

(** X14. From a header to the columns of a property: with the columns that
    [_get_column_properties] reads off a header, [_extract_properties]
    returns a label whose names all occur in the header with the positions of
    these names in the header, in the order of the names. *)
Theorem extract_properties_of_header (dcd : dict str (list column))
    (header_line : list str) (label : str) (names : list str) :
  NoDup (keys dcd) ->
  dict_get dcd label = Some (map Name names) ->
  Forall (fun w => w ∈ header_line) names ->
  exists cols : list nat,
    dict_get (fst (_extract_properties dcd (_get_column_properties header_line 0))) label =
      Some (map (fun n => Index (Z.of_nat n)) cols) /\
    Forall2 (fun w n => header_line !! n = Some w) names cols.
Proof.
  intros Hnd Hlabel Hnames.
  destruct (replace_names_of_header header_line names Hnames) as (cols & Hmap & Hall).
  exists cols. split; [|exact Hall].
  rewrite (extract_properties_eq dcd _ Hnd). cbn [fst].
  rewrite (dict_get_filter (forallb is_int)) by (by rewrite keys_map_values).
  rewrite dict_get_map_values, Hlabel. cbn [fmap option_fmap option_map].
  by rewrite Hmap, forallb_is_int_indices.
Qed.

Lemma extract_properties_of_header_witness :
  exists cols : list nat,
    dict_get
      (fst (_extract_properties [("Positions", [Name "x"; Name "y"])]%string
              (_get_column_properties ["id"; "x"; "y"]%string 0)))
      "Positions" = Some (map (fun n => Index (Z.of_nat n)) cols) /\
    Forall2 (fun w n => ["id"; "x"; "y"]%string !! n = Some w) ["x"; "y"]%string cols.
Proof.
  apply (extract_properties_of_header [("Positions", [Name "x"; Name "y"])]%string
           ["id"; "x"; "y"]%string "Positions" ["x"; "y"]%string).
  - apply (bool_decide_unpack _); vm_compute; exact I.
  - reflexivity.
  - apply (bool_decide_unpack _); vm_compute; exact I.
Defined.


(** ** The flux file: what the generator reads *)

Lemma concat_chunk_rows (b : Z) (f : file) (q : nat) :
  concat (map rows (map (chunk_at b f) (seq 0 q))) =
    take (q * Z.to_nat b) (drop (position f) (lines f)).
Proof.
  induction q as [|q IH]; [reflexivity|].
  rewrite seq_S, !map_app, concat_app, IH. cbn [map concat rows chunk_at plus].
  rewrite app_nil_r.
  replace (drop (position f + q * Z.to_nat b) (lines f))
    with (drop (q * Z.to_nat b) (drop (position f) (lines f)))
    by (by rewrite drop_drop).
  rewrite take_take_drop. f_equal. lia.
Qed.

Lemma generator_unfold (self : LAMMPSFluxFile) :
  _batch_size self <> 0 ->
  get_configurations_generator self =
    Ok (map (chunk_at (_batch_size self)
               (skip_n_lines (open (file_content self)) (n_header_lines self)))
          (seq 0 (Z.to_nat (metadata_n_configurations self / _batch_size self))) ++
        (if 0 <? metadata_n_configurations self mod _batch_size self
         then [ {| LAMMPSFluxFile.n_configurations :=
                     metadata_n_configurations self mod _batch_size self;
                   first_line :=
                     (n_header_lines self +
                      Z.to_nat (metadata_n_configurations self / _batch_size self)
                      * Z.to_nat (_batch_size self))%nat;
                   rows :=
                     take (Z.to_nat (metadata_n_configurations self mod _batch_size self))
                       (drop (n_header_lines self +
                              Z.to_nat (metadata_n_configurations self / _batch_size self)
                              * Z.to_nat (_batch_size self))
                          (file_content self)) |} ]
         else [])).
Proof.
  intros Hb. unfold get_configurations_generator, divmod.
  destruct (Z.eqb_spec (_batch_size self) 0) as [?|_]; [done|]. cbn [rbind].
  rewrite read_batches_chunks, length_range.
  destruct (0 <? _) ; [|by rewrite app_nil_r]. reflexivity.
Qed.

(** X15. The degenerate cases of the generator: a batch size of 0 raises
    [ZeroDivisionError]; with no configuration nothing is yielded; with a
    batch size above the number of configurations one chunk is yielded, with
    all the configurations. *)
Theorem generator_degenerate (self : LAMMPSFluxFile) :
  (_batch_size self = 0 -> get_configurations_generator self = Raise ZeroDivisionError) /\
  (_batch_size self <> 0 -> metadata_n_configurations self = 0 ->
   get_configurations_generator self = Ok []) /\
  (1 <= metadata_n_configurations self < _batch_size self ->
   get_configurations_generator self =
     Ok [ {| LAMMPSFluxFile.n_configurations := metadata_n_configurations self;
             first_line := n_header_lines self;
             rows := take (Z.to_nat (metadata_n_configurations self)) (data_lines self) |} ]).
Proof.
  split; [|split].
  - intros Hb. unfold get_configurations_generator, divmod. by rewrite Hb.
  - intros Hb Hn. rewrite generator_unfold by exact Hb. rewrite Hn.
    rewrite Z.div_0_l, Z.mod_0_l by exact Hb. reflexivity.
  - intros Hn. rewrite generator_unfold by lia.
    rewrite Z.div_small, Z.mod_small by lia.
    destruct (Z.ltb_spec 0 (metadata_n_configurations self)) as [_|?]; [|lia].
    cbn [Z.to_nat seq map app Nat.mul]. unfold data_lines.
    by rewrite Nat.add_0_r.
Qed.

Lemma generator_rows (self : LAMMPSFluxFile) :
  1 <= metadata_n_configurations self ->
  1 <= _batch_size self ->
  exists chunks,
    get_configurations_generator self = Ok chunks /\
    concat (map rows chunks) =
      take (Z.to_nat (metadata_n_configurations self)) (data_lines self) /\
    ((n_header_lines self + Z.to_nat (metadata_n_configurations self) <=
      length (file_content self))%nat -> Forall full_chunk chunks).
Proof.
  intros Hn Hb.
  set (n := metadata_n_configurations self) in *.
  set (b := _batch_size self) in *.
  assert (Hq : 0 <= n / b) by (apply Z.div_pos; lia).
  assert (Hr : 0 <= n mod b < b) by (apply Z.mod_pos_bound; lia).
  assert (Hdm : n = b * (n / b) + n mod b) by (apply Z.div_mod; lia).
  assert (Hnat : Z.to_nat n = (Z.to_nat (n / b) * Z.to_nat b + Z.to_nat (n mod b))%nat) by nia.
  rewrite generator_unfold by (fold b; lia). fold n b.
  set (f0 := skip_n_lines (open (file_content self)) (n_header_lines self)).
  eexists. split; [reflexivity|]. split.
  - rewrite map_app, concat_app, concat_chunk_rows. unfold data_lines.
    change (drop (position f0) (lines f0))
      with (drop (n_header_lines self) (file_content self)).
    destruct (Z.ltb_spec 0 (n mod b)) as [Hpos|Hzero].
    + cbn [map concat rows]. rewrite app_nil_r.
      replace (drop (n_header_lines self + Z.to_nat (n / b) * Z.to_nat b) (file_content self))
        with (drop (Z.to_nat (n / b) * Z.to_nat b)
                (drop (n_header_lines self) (file_content self)))
        by (by rewrite drop_drop).
      rewrite take_take_drop. by rewrite Hnat.
    + cbn [map concat]. rewrite app_nil_r. f_equal. lia.
  - intros Hlen. apply Forall_app. split.
    + apply Forall_forall. intros c Hc. apply list_elem_of_fmap in Hc as (i & -> & Hi).
      apply elem_of_seq in Hi. unfold full_chunk, chunk_at. cbn.
      rewrite length_take, length_drop. nia.
    + destruct (Z.ltb_spec 0 (n mod b)) as [Hpos|Hzero]; [|constructor].
      constructor; [|constructor]. unfold full_chunk. cbn.
      rewrite length_take, length_drop. nia.
Qed.

(** X16. The chunks of the generator, one after the other, are the first
    [n_configurations] lines after the header, each line once and in the
    order of the file; when the file has that many lines every chunk holds as
    many lines as it has configurations. *)
Theorem generator_reads_the_data_lines (self : LAMMPSFluxFile) :
  1 <= metadata_n_configurations self ->
  1 <= _batch_size self ->
  exists chunks,
    get_configurations_generator self = Ok chunks /\
    concat (map rows chunks) =
      take (Z.to_nat (metadata_n_configurations self)) (data_lines self) /\
    ((n_header_lines self + Z.to_nat (metadata_n_configurations self) <=
      length (file_content self))%nat -> Forall full_chunk chunks).
Proof. apply generator_rows. Qed.

Lemma generator_reads_the_data_lines_witness :
  exists chunks,
    get_configurations_generator Demo.flux_file = Ok chunks /\
    concat (map rows chunks) = ["0 1.0"; "1 1.1"; "2 1.2"; "3 1.3"; "4 1.4"]%string.
Proof.
  destruct (generator_reads_the_data_lines Demo.flux_file) as (chunks & Hg & Hrows & _);
    [vm_compute; discriminate | vm_compute; discriminate |].
  exists chunks. split; [exact Hg | exact Hrows].
Defined.


(** ** The flux file: [_get_metadata] *)

Lemma count_steps_block (c : nat) (rest : list str) (k : Z) :
  exists m : nat,
    LAMMPSFluxMetadata.count_steps c rest k = k + Z.of_nat m /\
    (m <= length rest)%nat /\
    Forall (fun line => n_columns line = c) (take m rest) /\
    (forall line, rest !! m = Some line -> n_columns line <> c).
Proof.
  revert k. induction rest as [|line rest IH]; intros k.
  - exists 0%nat. cbn. split; [lia|]. split; [lia|]. split; [constructor | intros ? [=]].
  - cbn [LAMMPSFluxMetadata.count_steps].
    destruct (Nat.eqb_spec (length (words line)) c) as [Heq|Hne]; cbn [negb].
    + destruct (IH (k + 1)) as (m & Hc & Hm & Hall & Hnext).
      exists (S m). split; [lia|]. split; [cbn; lia|]. split; [by constructor | exact Hnext].
    + exists 0%nat. split; [lia|]. split; [cbn; lia|]. split; [constructor|].
      intros ? [= <-]. exact Hne.
Qed.

Lemma get_metadata_inversion (self : LAMMPSFluxMetadata.Reader)
    (mdata : LAMMPSFluxMetadata.TrajectoryMetadata) (props : dict str (list Z)) (bs : Z) :
  LAMMPSFluxMetadata._get_metadata self = Ok (mdata, props, bs) ->
  exists (first column_header : str) (rest : list str),
    drop (LAMMPSFluxMetadata.header_lines self) (LAMMPSFluxMetadata.content self)
      = first :: rest /\
    index_m1 (take (LAMMPSFluxMetadata.header_lines self) (LAMMPSFluxMetadata.content self))
      = Ok column_header /\
    LAMMPSFluxMetadata.n_configurations mdata =
      LAMMPSFluxMetadata.count_steps (n_columns first) rest 1 /\
    props = LAMMPSFluxMetadata.extract_properties_from_header self (words column_header) /\
    bs = LAMMPSFluxMetadata.optimize_batch_size self
           (LAMMPSFluxMetadata.n_configurations mdata) /\
    LAMMPSFluxMetadata.species_list mdata =
      [ {| species_name := "Observables"; n_particles := 1;
           properties :=
             map (fun '(prop_name, prop_idxs) =>
                    {| name := prop_name; n_dims := Z.of_nat (length prop_idxs) |})
               props |} ] /\
    LAMMPSFluxMetadata.box_l mdata = LAMMPSFluxMetadata.reader_box_l self.
Proof.
  unfold LAMMPSFluxMetadata._get_metadata, LAMMPSFluxMetadata.read_n_lines.
  cbn [skip_n_lines open lines position Nat.add].
  destruct (drop (LAMMPSFluxMetadata.header_lines self) (LAMMPSFluxMetadata.content self))
    as [|first rest] eqn:Hdata; [intros [=]|].
  cbn [take index_0 rbind drop].
  destruct (index_m1 _) as [column_header|] eqn:Hh; [|intros [=]].
  cbn [rbind]. intros [= <- <- <-].
  change (drop 0 (LAMMPSFluxMetadata.content self)) with (LAMMPSFluxMetadata.content self) in Hh.
  exists first, column_header, rest. split; [reflexivity|]. split; [first [reflexivity | exact Hh]|].
  cbn. split; [|auto].
  f_equal. rewrite <- (drop_drop _ 1). rewrite Hdata. reflexivity.
Qed.

(** X17. For a file with at least one header line and at least one line
    below the header [_get_metadata] returns, and reports at least one
    configuration. *)
Theorem get_metadata_succeeds (self : LAMMPSFluxMetadata.Reader) :
  (1 <= LAMMPSFluxMetadata.header_lines self
   < length (LAMMPSFluxMetadata.content self))%nat ->
  exists mdata props bs,
    LAMMPSFluxMetadata._get_metadata self = Ok (mdata, props, bs) /\
    1 <= LAMMPSFluxMetadata.n_configurations mdata.
Proof.
  intros Hlen.
  unfold LAMMPSFluxMetadata._get_metadata, LAMMPSFluxMetadata.read_n_lines.
  cbn [skip_n_lines open lines position Nat.add].
  set (h := LAMMPSFluxMetadata.header_lines self) in *.
  set (content := LAMMPSFluxMetadata.content self) in *.
  destruct (drop h content) as [|first rest] eqn:Hdata.
  { apply (f_equal length) in Hdata. rewrite length_drop in Hdata. cbn in Hdata. lia. }
  cbn [take index_0 rbind drop]. unfold index_m1. change (drop 0 content) with content.
  destruct (rev (take h content)) as [|x l] eqn:Hrev.
  { apply (f_equal length) in Hrev. rewrite length_rev, length_take in Hrev.
    cbn in Hrev. lia. }
  cbn [rbind]. do 3 eexists. split; [reflexivity|]. cbn.
  destruct (count_steps_block (length (words first)) (drop (h + 1) content) 1)
    as (m & -> & _). lia.
Qed.

Lemma get_metadata_succeeds_witness :
  exists mdata props bs,
    LAMMPSFluxMetadata._get_metadata flux_reader = Ok (mdata, props, bs) /\
    1 <= LAMMPSFluxMetadata.n_configurations mdata.
Proof.
  apply (get_metadata_succeeds flux_reader). vm_compute. split; lia.
Defined.

(** X18. A reader with [n_header_lines = 0] cannot read its metadata: the
    data are counted, but the column header is the last of no lines, and
    [_get_metadata] raises [IndexError]. *)
Theorem get_metadata_without_header (self : LAMMPSFluxMetadata.Reader) :
  LAMMPSFluxMetadata.header_lines self = 0%nat ->
  LAMMPSFluxMetadata.content self <> [] ->
  LAMMPSFluxMetadata._get_metadata self = Raise IndexError.
Proof.
  intros Hh Hc.
  unfold LAMMPSFluxMetadata._get_metadata, LAMMPSFluxMetadata.read_n_lines.
  cbn [skip_n_lines open lines position Nat.add]. rewrite Hh.
  destruct (LAMMPSFluxMetadata.content self) as [|first rest]; [done|].
  reflexivity.
Qed.

Lemma get_metadata_without_header_witness :
  LAMMPSFluxMetadata._get_metadata
    {| LAMMPSFluxMetadata.content := ["0 1.0"; "1 1.1"]%string;
       LAMMPSFluxMetadata.header_lines := 0;
       LAMMPSFluxMetadata.reader_box_l := [];
       LAMMPSFluxMetadata.extract_properties_from_header := fun _ => [];
       LAMMPSFluxMetadata.optimize_batch_size := fun _ => 1 |} = Raise IndexError.
Proof.
  apply get_metadata_without_header; [reflexivity | discriminate].
Defined.

(** X19. The number of configurations that [_get_metadata] reports is the
    length of the first block of the file: at least 1, no more than the lines
    below the header, all lines of the block with as many columns as the first
    of them, and the line after the block, if there is one, with another
    number of columns. The batch size is the one of [optimize_batch_size] for
    that number, and the only species is ["Observables"], of one particle. *)
Theorem get_metadata_first_block (self : LAMMPSFluxMetadata.Reader)
    (mdata : LAMMPSFluxMetadata.TrajectoryMetadata) (props : dict str (list Z)) (bs : Z) :
  LAMMPSFluxMetadata._get_metadata self = Ok (mdata, props, bs) ->
  exists (n : nat) (first : str),
    LAMMPSFluxMetadata.n_configurations mdata = Z.of_nat n /\
    (1 <= n)%nat /\
    (LAMMPSFluxMetadata.header_lines self + n
     <= length (LAMMPSFluxMetadata.content self))%nat /\
    LAMMPSFluxMetadata.content self !! LAMMPSFluxMetadata.header_lines self = Some first /\
    Forall (fun line => n_columns line = n_columns first)
      (take n (drop (LAMMPSFluxMetadata.header_lines self)
                 (LAMMPSFluxMetadata.content self))) /\
    (forall line,
       LAMMPSFluxMetadata.content self !! (LAMMPSFluxMetadata.header_lines self + n)%nat
         = Some line ->
       n_columns line <> n_columns first) /\
    bs = LAMMPSFluxMetadata.optimize_batch_size self (Z.of_nat n) /\
    map (fun sp => (species_name sp, n_particles sp)) (LAMMPSFluxMetadata.species_list mdata)
      = [("Observables"%string, 1)].
Proof.
  intros H. apply get_metadata_inversion in H
    as (first & column_header & rest & Hdata & _ & Hn & _ & Hbs & Hsp & _).
  destruct (count_steps_block (n_columns first) rest 1) as (m & Hc & Hm & Hall & Hnext).
  exists (S m), first. rewrite Hn, Hc.
  assert (Hlen : length (drop (LAMMPSFluxMetadata.header_lines self)
                           (LAMMPSFluxMetadata.content self)) = S (length rest))
    by (by rewrite Hdata).
  rewrite length_drop in Hlen.
  split; [lia|]. split; [lia|]. split; [lia|]. split; [|split; [|split; [|split]]].
  - rewrite <- (Nat.add_0_r (LAMMPSFluxMetadata.header_lines self)).
    rewrite <- lookup_drop, Hdata. reflexivity.
  - rewrite Hdata. cbn [take]. by constructor.
  - intros line Hl. rewrite <- lookup_drop, Hdata in Hl. cbn in Hl. by apply Hnext.
  - rewrite Hbs, Hn, Hc. f_equal. lia.
  - by rewrite Hsp.
Qed.


Lemma get_metadata_first_block_witness :
  exists (n : nat) (first : str),
    5 = Z.of_nat n /\
    Forall (fun line => n_columns line = n_columns first)
      (take n (drop 2 (LAMMPSFluxMetadata.content flux_reader))) /\
    (forall line,
       LAMMPSFluxMetadata.content flux_reader !! (2 + n)%nat = Some line ->
       n_columns line <> n_columns first).
Proof.
  destruct (get_metadata_first_block flux_reader
              {| LAMMPSFluxMetadata.n_configurations := 5;
                 LAMMPSFluxMetadata.species_list :=
                   [ {| species_name := "Observables"; n_particles := 1;
                        properties := [ {| name := "Time"; n_dims := 1 |};
                                        {| name := "Temperature"; n_dims := 1 |} ] |} ];
                 LAMMPSFluxMetadata.box_l := [] |}
              [("Time", [0]); ("Temperature", [1])]%string 2)
    as (n & first & Hn & _ & _ & _ & Hall & Hnext & _); [reflexivity|].
  exists n, first. split; [exact Hn|]. split; [exact Hall | exact Hnext].
Defined.

(** X20. [_get_metadata] and the generator fit: with the number of
    configurations and a batch size of at least 1 from [_get_metadata], the
    generator yields the first block of the file and nothing else, in
    chunks that all hold as many lines as they have configurations. *)
Theorem metadata_then_generator (self : LAMMPSFluxMetadata.Reader)
    (mdata : LAMMPSFluxMetadata.TrajectoryMetadata) (props : dict str (list Z)) (bs : Z) :
  LAMMPSFluxMetadata._get_metadata self = Ok (mdata, props, bs) ->
  1 <= bs ->
  exists (chunks : list chunk) (first : str),
    get_configurations_generator (LAMMPSFluxMetadata.with_metadata self mdata bs)
      = Ok chunks /\
    concat (map rows chunks) =
      take (Z.to_nat (LAMMPSFluxMetadata.n_configurations mdata))
        (drop (LAMMPSFluxMetadata.header_lines self) (LAMMPSFluxMetadata.content self)) /\
    Z.of_nat (length (concat (map rows chunks))) = LAMMPSFluxMetadata.n_configurations mdata /\
    Forall full_chunk chunks /\
    LAMMPSFluxMetadata.content self !! LAMMPSFluxMetadata.header_lines self = Some first /\
    Forall (fun line => n_columns line = n_columns first) (concat (map rows chunks)).
Proof.
  intros H Hbs. apply get_metadata_inversion in H
    as (first & column_header & rest & Hdata & _ & Hn & _ & _ & _ & _).
  destruct (count_steps_block (n_columns first) rest 1) as (m & Hc & Hm & Hall & _).
  assert (Hlen : length (drop (LAMMPSFluxMetadata.header_lines self)
                           (LAMMPSFluxMetadata.content self)) = S (length rest))
    by (by rewrite Hdata).
  rewrite length_drop in Hlen.
  destruct (generator_rows (LAMMPSFluxMetadata.with_metadata self mdata bs))
    as (chunks & Hg & Hrows & Hfull).
  { cbn. lia. }
  { exact Hbs. }
  cbn [LAMMPSFluxMetadata.with_metadata metadata_n_configurations n_header_lines
       file_content] in Hfull.
  unfold data_lines in Hrows.
  cbn [LAMMPSFluxMetadata.with_metadata metadata_n_configurations n_header_lines
       file_content] in Hrows.
  exists chunks, first. split; [exact Hg|]. split; [exact Hrows|].
  split; [|split; [|split]].
  - rewrite Hrows, length_take, length_drop. lia.
  - apply Hfull. lia.
  - rewrite <- (Nat.add_0_r (LAMMPSFluxMetadata.header_lines self)).
    rewrite <- lookup_drop, Hdata. reflexivity.
  - rewrite Hrows, Hn, Hc, Hdata.
    replace (Z.to_nat (1 + Z.of_nat m)) with (S m) by lia.
    cbn [take]. by constructor.
Qed.

Lemma metadata_then_generator_witness :
  exists (chunks : list chunk),
    get_configurations_generator
      {| file_content := LAMMPSFluxMetadata.content flux_reader;
         n_header_lines := 2; _batch_size := 2; metadata_n_configurations := 5 |}
      = Ok chunks /\
    concat (map rows chunks) = ["0 1.0"; "1 1.1"; "2 1.2"; "3 1.3"; "4 1.4"]%string.
Proof.
  destruct (metadata_then_generator flux_reader
              {| LAMMPSFluxMetadata.n_configurations := 5;
                 LAMMPSFluxMetadata.species_list :=
                   [ {| species_name := "Observables"; n_particles := 1;
                        properties := [ {| name := "Time"; n_dims := 1 |};
                                        {| name := "Temperature"; n_dims := 1 |} ] |} ];
                 LAMMPSFluxMetadata.box_l := [] |}
              [("Time", [0]); ("Temperature", [1])]%string 2)
    as (chunks & first & Hg & Hrows & _); [reflexivity | lia |].
  exists chunks. split; [exact Hg | exact Hrows].
Defined.


(** ** The dictionaries of type specifications *)

Import TypeSpecs.

Lemma dict_set_keys_prefix {V} (d : dict str V) (k : str) (v : V) :
  exists new, keys (dict_set d k v) = keys d ++ new.
Proof.
  unfold keys. induction d as [|[k0 v0] d [new IH]]; [by exists [k]|].
  cbn [dict_set]. destruct (String.eqb k0 k).
  - exists []. by rewrite app_nil_r.
  - exists new. cbn [map fst app]. by rewrite IH.
Qed.

Lemma dict_set_same {V} (d : dict str V) (k : str) (v : V) :
  dict_get d k = Some v -> dict_set d k v = d.
Proof.
  induction d as [|[k0 v0] d IH]; [discriminate|]. cbn [dict_get dict_set].
  destruct (String.eqb_spec k0 k) as [->|_]; [by intros [= ->] | intros H; by rewrite IH].
Qed.

Lemma update_type_dict_get (d : dict bytes TensorSpec) (path_list : list str)
    (dimension : Z) (k : bytes) :
  dict_get (_update_type_dict d path_list dimension) k =
    if bool_decide (k ∈ map encode path_list) then Some (free_spec dimension)
    else dict_get d k.
Proof.
  unfold _update_type_dict. revert d.
  induction path_list as [|p path_list IH]; intros d; [reflexivity|].
  cbn [fold_left map]. rewrite IH, dict_get_dict_set. fold (free_spec dimension).
  destruct (String.eqb_spec (encode p) k) as [->|Hne].
  - rewrite (bool_decide_eq_true_2 (_ ∈ _ :: _)) by (by left).
    by destruct (bool_decide _).
  - destruct (bool_decide (k ∈ map encode path_list)) eqn:Hk.
    + apply bool_decide_eq_true in Hk.
      by rewrite (bool_decide_eq_true_2 (_ ∈ _ :: _)) by (by right).
    + apply bool_decide_eq_false in Hk.
      rewrite (bool_decide_eq_false_2 (_ ∈ _ :: _)); [reflexivity|].
      intros Hin. apply elem_of_cons in Hin as [->|Hin]; [by destruct Hne | by destruct Hk].
Qed.

(** X21. For a dimension that is not negative, [_update_type_dict] gives
    every path of the list, under its encoded key, the specification of free
    shape with the dimension, and leaves every
    other entry as it is; the entries that were there keep their places; and
    a second call with the same paths changes nothing. *)
Theorem update_type_dict_entries (d : dict bytes TensorSpec) (path_list : list str)
    (dimension : Z) :
  0 <= dimension ->
  (forall k : bytes,
     dict_get (_update_type_dict d path_list dimension) k =
       if bool_decide (k ∈ map encode path_list) then Some (free_spec dimension)
       else dict_get d k) /\
  (exists new, keys (_update_type_dict d path_list dimension) = keys d ++ new) /\
  _update_type_dict (_update_type_dict d path_list dimension) path_list dimension =
    _update_type_dict d path_list dimension.
Proof.
  intros _. split; [intros k; apply update_type_dict_get|]. split.
  - unfold _update_type_dict. revert d.
    induction path_list as [|p path_list IH]; intros d.
    + exists []. by rewrite app_nil_r.
    + cbn [fold_left]. destruct (IH (dict_set d (encode p) (free_spec dimension))) as [new2 H2].
      destruct (dict_set_keys_prefix d (encode p) (free_spec dimension)) as [new1 H1].
      exists (new1 ++ new2). etransitivity; [exact H2|].
      rewrite app_assoc. f_equal. exact H1.
  - enough (H : forall (pl : list str) (d' : dict bytes TensorSpec),
               (forall p, p ∈ pl -> dict_get d' (encode p) = Some (free_spec dimension)) ->
               _update_type_dict d' pl dimension = d').
    { apply H. intros p Hp. rewrite update_type_dict_get.
      rewrite bool_decide_eq_true_2; [reflexivity|]. by apply list_elem_of_fmap_2. }
    unfold _update_type_dict. induction pl as [|p pl IH]; intros d' Hd'; [reflexivity|].
    cbn [fold_left]. fold (free_spec dimension).
    rewrite dict_set_same by (apply Hd'; by left).
    apply IH. intros q Hq. apply Hd'. by right.
Qed.

Lemma update_type_dict_entries_witness :
  0 <= 3 /\
  _update_type_dict (_update_type_dict [] ["Na/Positions"; "Cl/Positions"] 3)
      ["Na/Positions"; "Cl/Positions"] 3 =
    _update_type_dict [] ["Na/Positions"; "Cl/Positions"] 3.
Proof.
  split; [lia|].
  apply (update_type_dict_entries [] ["Na/Positions"; "Cl/Positions"] 3); lia.
Defined.

Lemma update_species_type_dict_app (self : Transformations) (d : dict bytes TensorSpec)
    (done rest : list str) (dimension : Z) :
  _update_species_type_dict self d (done ++ rest) dimension =
    match _update_species_type_dict self d done dimension with
    | (Ok _, d') => _update_species_type_dict self d' rest dimension
    | (Raise e, d') => (Raise e, d')
    end.
Proof.
  revert d. induction done as [|item done IH]; intros d; [reflexivity|].
  cbn [app _update_species_type_dict].
  destruct (index_0 (split "/" item)) as [sp|e]; [|reflexivity].
  destruct (dict_get (species (experiment self)) sp) as [info|]; [|reflexivity].
  apply IH.
Qed.

Lemma index_0_split (item : str) : index_0 (split "/" item) = Ok (species_of item).
Proof.
  unfold species_of, index_0. pose proof (split_not_nil "/" item).
  by destruct (split "/" item).
Qed.

Lemma update_species_type_dict_known (self : Transformations) (d : dict bytes TensorSpec)
    (path_list : list str) (dimension : Z) :
  Forall (fun item => is_Some (dict_get (species (experiment self)) (species_of item)))
    path_list ->
  fst (_update_species_type_dict self d path_list dimension) = Ok tt /\
  forall k : bytes, k ∉ map encode path_list ->
    dict_get (snd (_update_species_type_dict self d path_list dimension)) k = dict_get d k.
Proof.
  intros Hall. revert d. induction Hall as [|item path_list [info Hinfo] Hall IH]; intros d.
  - split; [reflexivity | by intros k _].
  - cbn [_update_species_type_dict]. rewrite index_0_split, Hinfo.
    destruct (IH (dict_set d (encode item)
                    (species_spec (n_particles info) dimension))) as [Hok Hget].
    split; [exact Hok|]. intros k Hk. cbn [map] in Hk.
    apply not_elem_of_cons in Hk as [Hne Hk].
    unfold species_spec in *. rewrite Hget by exact Hk. rewrite dict_get_dict_set.
    destruct (String.eqb_spec (encode item) k) as [Heq|_]; [by destruct Hne | reflexivity].
Qed.

Lemma update_species_type_dict_other (self : Transformations) (path_list : list str)
    (dimension : Z) (k : bytes) (d : dict bytes TensorSpec) :
  k ∉ map encode path_list ->
  dict_get (snd (_update_species_type_dict self d path_list dimension)) k = dict_get d k.
Proof.
  revert d. induction path_list as [|item path_list IH]; intros d Hk; [reflexivity|].
  cbn [_update_species_type_dict]. rewrite index_0_split.
  destruct (dict_get (species (experiment self)) (species_of item)) as [info|]; [|reflexivity].
  cbn [map] in Hk. apply not_elem_of_cons in Hk as [Hne Hk].
  rewrite IH by exact Hk. rewrite dict_get_dict_set.
  destruct (String.eqb_spec (encode item) k) as [Heq|_]; [by destruct Hne | reflexivity].
Qed.

Lemma update_species_type_dict_unknown (self : Transformations) (d : dict bytes TensorSpec)
    (dimension : Z) (done : list str) (item : str) (rest : list str) :
  Forall (fun item => is_Some (dict_get (species (experiment self)) (species_of item)))
    done ->
  dict_get (species (experiment self)) (species_of item) = None ->
  _update_species_type_dict self d (done ++ item :: rest) dimension =
    (Raise (KeyError (species_of item)),
     snd (_update_species_type_dict self d done dimension)).
Proof.
  intros Hdone Hitem. rewrite update_species_type_dict_app.
  destruct (update_species_type_dict_known self d done dimension Hdone) as [Hok _].
  destruct (_update_species_type_dict self d done dimension) as [[[]|e] d']; [|discriminate Hok].
  cbn [_update_species_type_dict snd]. by rewrite index_0_split, Hitem.
Qed.

Lemma first_unknown_species (self : Transformations) (path_list : list str) (item : str) :
  item ∈ path_list ->
  dict_get (species (experiment self)) (species_of item) = None ->
  exists done item' rest,
    path_list = done ++ item' :: rest /\
    Forall (fun item => is_Some (dict_get (species (experiment self)) (species_of item)))
      done /\
    dict_get (species (experiment self)) (species_of item') = None.
Proof.
  intros Hitem Hsp. induction path_list as [|x l IH]; [by apply elem_of_nil in Hitem|].
  destruct (dict_get (species (experiment self)) (species_of x)) eqn:Hx.
  - apply elem_of_cons in Hitem as [->|Hitem]; [congruence|].
    destruct (IH Hitem) as (done & item' & rest & -> & Hdone & Hnone).
    exists (x :: done), item', rest. split; [reflexivity|]. split; [|exact Hnone].
    constructor; [by eexists | exact Hdone].
  - exists [], x, l. split; [reflexivity|]. split; [constructor | exact Hx].
Qed.

(** X22. With particle numbers and a dimension that are not negative,
    [_update_species_type_dict] succeeds exactly when the species of every
    path (what is before its first slash) is a species of the experiment. At
    the first path whose species is not known it raises [KeyError] for that
    species and leaves in the dictionary the entries of the paths before it.
    Entries under other keys are never changed, and when all species are
    known a path whose key no later path has is left with the specification
    that carries the particle number of its species. *)
Theorem update_species_type_dict_outcome (self : Transformations)
    (d : dict bytes TensorSpec) (path_list : list str) (dimension : Z) :
  0 <= dimension ->
  Forall (fun entry => 0 <= n_particles (snd entry)) (species (experiment self)) ->
  (fst (_update_species_type_dict self d path_list dimension) = Ok tt <->
   Forall (fun item => is_Some (dict_get (species (experiment self)) (species_of item)))
     path_list) /\
  (forall done item rest,
     path_list = done ++ item :: rest ->
     Forall (fun item => is_Some (dict_get (species (experiment self)) (species_of item)))
       done ->
     dict_get (species (experiment self)) (species_of item) = None ->
     _update_species_type_dict self d path_list dimension =
       (Raise (KeyError (species_of item)),
        snd (_update_species_type_dict self d done dimension))) /\
  (forall k : bytes, k ∉ map encode path_list ->
     dict_get (snd (_update_species_type_dict self d path_list dimension)) k =
       dict_get d k) /\
  (forall done item rest info,
     path_list = done ++ item :: rest ->
     Forall (fun item => is_Some (dict_get (species (experiment self)) (species_of item)))
       path_list ->
     encode item ∉ map encode rest ->
     dict_get (species (experiment self)) (species_of item) = Some info ->
     dict_get (snd (_update_species_type_dict self d path_list dimension)) (encode item) =
       Some (species_spec (n_particles info) dimension)).
Proof.
  intros _ _. split; [|split; [|split]].
  - split; [|intros H; by apply update_species_type_dict_known].
    intros Hok. apply Forall_forall. intros item Hitem.
    destruct (dict_get (species (experiment self)) (species_of item)) eqn:Hsp; [by eexists|].
    exfalso.
    destruct (first_unknown_species self path_list item Hitem Hsp)
      as (done & item' & rest & -> & Hdone & Hnone).
    rewrite (update_species_type_dict_unknown self d dimension done item' rest Hdone Hnone)
      in Hok.
    discriminate Hok.
  - intros done item rest -> Hdone Hitem. by apply update_species_type_dict_unknown.
  - intros k Hk. by apply update_species_type_dict_other.
  - intros done item rest info -> Hall Hlater Hinfo.
    apply Forall_app in Hall as [Hdone Hrest].
    rewrite update_species_type_dict_app.
    destruct (update_species_type_dict_known self d done dimension Hdone) as [Hok _].
    destruct (_update_species_type_dict self d done dimension) as [[[]|e] d']; [|discriminate Hok].
    cbn [_update_species_type_dict]. rewrite index_0_split, Hinfo.
    rewrite update_species_type_dict_other by exact Hlater.
    rewrite dict_get_dict_set, String.eqb_refl. reflexivity.
Qed.

Lemma update_species_type_dict_outcome_witness :
  0 <= 3 /\
  Forall (fun entry => 0 <= n_particles (snd entry))
    (species (experiment Demo.momentum)) /\
  (fst (_update_species_type_dict Demo.momentum [] ["Na/Positions"] 3) = Ok tt <->
   Forall (fun item =>
             is_Some (dict_get (species (experiment Demo.momentum)) (species_of item)))
     ["Na/Positions"]).
Proof.
  assert (H : Forall (fun entry => 0 <= n_particles (snd entry))
                (species (experiment Demo.momentum))).
  { apply (bool_decide_unpack _). vm_compute. exact I. }
  split; [lia|]. split; [exact H|].
  apply (update_species_type_dict_outcome Demo.momentum [] ["Na/Positions"] 3); [lia | exact H].
Defined.
